(** * Task management engine: phase 1 (in-memory) and phase 2 (persisted)

  A shallow embedding of the task service of the repository and the
  properties of its specification.

  - [Py]      : the Python string operations the services rely on
                ([str.strip], [str.lower], [len]).
  - [Phase1]  : [src/phase1/src] -- [models.py], [exceptions.py],
                [task_repository.py], [task_service.py].
  - [Phase2]  : [src/phase2/backend/app] -- [schemas/task.py],
                [models/*.py], [services/task_service.py],
                [api/v1/endpoints/tasks.py]. *)

From Stdlib Require Import ZArith Lia List Bool Ascii String Sorting.Permutation.
From Stdlib Require OrderedTypeEx.
From stdpp Require Import base gmap strings list sorting.

Local Open Scope Z_scope.

(** ** Python strings

  A Python [str] is modelled as a [string] whose characters are the code
  points 0..255 (ASCII and the Latin-1 supplement). *)
Module Py.

(** [len(s)] as a Python integer. *)
Definition len (s : string) : Z := Z.of_nat (String.length s).

(** [c.isspace()] on the code points below 256: the ASCII controls
    TAB..CR, the separators FS..US, the space, NEL (0x85) and the no-break
    space (0xA0). *)
Definition isspace (c : ascii) : bool :=
  let n := N_of_ascii c in
  (((9 <=? n) && (n <=? 13)) || ((28 <=? n) && (n <=? 32))
   || (n =? 133) || (n =? 160))%N.

(** [s.lstrip()] *)
Fixpoint lstrip (s : string) : string :=
  match s with
  | EmptyString => EmptyString
  | String c s' => if isspace c then lstrip s' else s
  end.

(** [s.rstrip()] *)
Fixpoint rstrip (s : string) : string :=
  match s with
  | EmptyString => EmptyString
  | String c s' =>
      match rstrip s' with
      | EmptyString => if isspace c then EmptyString else String c EmptyString
      | r => String c r
      end
  end.

(** [s.strip()] *)
Definition strip (s : string) : string := rstrip (lstrip s).

(** [c.lower()] on the code points below 256: A-Z and the Latin-1 capitals
    0xC0-0xDE (the multiplication sign 0xD7 apart) move up by 32. *)
Definition lower_char (c : ascii) : ascii :=
  let n := N_of_ascii c in
  if (((65 <=? n) && (n <=? 90))
      || ((192 <=? n) && (n <=? 222) && negb (n =? 215)))%N
  then ascii_of_N (n + 32) else c.

(** [s.lower()] *)
Fixpoint lower (s : string) : string :=
  match s with
  | EmptyString => EmptyString
  | String c s' => String (lower_char c) (lower s')
  end.

(** Truthiness of a string: [bool(s)], false exactly for [""]. *)
Definition truthy (s : string) : bool :=
  match s with EmptyString => false | _ => true end.

(** ["a" * n] *)
Fixpoint repeat_char (c : ascii) (n : nat) : string :=
  match n with
  | O => EmptyString
  | S n' => String c (repeat_char c n')
  end.

(** [s[:k]]: the first [k] characters, and for a negative [k] all but the
    last [-k]. *)
Fixpoint take_chars (n : nat) (s : string) : string :=
  match n, s with
  | S n', String c s' => String c (take_chars n' s')
  | _, _ => EmptyString
  end.

Definition slice_to (s : string) (k : Z) : string :=
  if k <? 0 then take_chars (Z.to_nat (len s + k)) s
  else take_chars (Z.to_nat k) s.

(** [s[k:]] for [k >= 0] *)
Fixpoint slice_from (s : string) (k : nat) : string :=
  match k, s with
  | S k', String _ s' => slice_from s' k'
  | _, _ => s
  end.

(** [s.startswith(p)] *)
Definition startswith (p s : string) : bool := String.prefix p s.

End Py.

(** ** Phase 1: the in-memory service *)
Module Phase1.

(** [models.py]: validation constants. *)
Definition MAX_TITLE_LENGTH : Z := 200.
Definition MAX_DESCRIPTION_LENGTH : Z := 1000.

(** [models.py]: [class Task(TypedDict)]. The two timestamps are the ISO 8601
    strings that [datetime.now().isoformat()] returns. *)
Record Task := mkTask {
  id : Z;
  title : string;
  description : string;
  completed : bool;
  created_at : string;
  updated_at : string
}.

(** [exceptions.py]. The text of a [ValidationError] is kept as the case
    that formats it:
    - [TitleEmpty]: "Task title cannot be empty"
    - [TitleTooLong n]:
      "Task title cannot exceed 200 characters (got n)"
    - [DescriptionTooLong n]:
      "Task description cannot exceed 1000 characters (got n)"
    - [NoFields]:
      "Must provide at least one field to update (title or description)" *)
Inductive ValidationMessage :=
| TitleEmpty
| TitleTooLong (got : Z)
| DescriptionTooLong (got : Z)
| NoFields.

Inductive Exception :=
| ValidationError (msg : ValidationMessage)
| TaskNotFoundError (task_id : Z).

(** A task is a Python dict, a mutable object: variables and the repository's
    storage hold references to it. [ref] is the address of such an object and
    [heap] gives the object's current content. *)
Definition ref := positive.

(** The state of the program: the objects, and the two attributes of the one
    [TaskRepository] instance, [_storage : dict[int, Task]] and [_next_id]. *)
Record World := mkWorld {
  heap : gmap ref Task;
  _storage : gmap Z ref;
  _next_id : Z
}.

(** [TaskRepository.__init__] on an empty heap. *)
Definition init : World :=
  {| heap := ∅; _storage := ∅; _next_id := 1 |}.

(** A call either returns a value or raises; either way it leaves a world. *)
Inductive Outcome (A : Type) :=
| Return (a : A)
| Raise (e : Exception).
Arguments Return {A} a.
Arguments Raise {A} e.

Definition M (A : Type) : Type := World -> Outcome A * World.

Definition ret {A} (a : A) : M A := fun w => (Return a, w).

Definition raise {A} (e : Exception) : M A := fun w => (Raise e, w).

Definition bind {A B} (m : M A) (k : A -> M B) : M B :=
  fun w =>
    match m w with
    | (Return a, w') => k a w'
    | (Raise e, w') => (Raise e, w')
    end.

Notation "x <~ m ;; k" := (bind m (fun x => k))
  (at level 90, m at level 80, right associativity).
Notation "m ;;; k" := (bind m (fun _ => k))
  (at level 90, right associativity).

(** Lifting a pure validator, which returns its value or the exception. *)
Definition lift {A} (r : Exception + A) : M A :=
  match r with
  | inr a => ret a
  | inl e => raise e
  end.

(** A dict display [{...}]: a fresh object. *)
Definition new_dict (t : Task) : M ref :=
  fun w =>
    let r := fresh (dom (heap w)) in
    (Return r,
     {| heap := <[r := t]> (heap w);
        _storage := _storage w; _next_id := _next_id w |}).

(** [task[key] = value]: the object behind [r] changes, for every holder of
    the reference. *)
Definition setitem (r : ref) (f : Task -> Task) : M unit :=
  fun w =>
    (Return tt,
     {| heap := alter f r (heap w);
        _storage := _storage w; _next_id := _next_id w |}).

Definition set_title (v : string) (t : Task) : Task :=
  {| id := id t; title := v; description := description t;
     completed := completed t; created_at := created_at t;
     updated_at := updated_at t |}.

Definition set_description (v : string) (t : Task) : Task :=
  {| id := id t; title := title t; description := v;
     completed := completed t; created_at := created_at t;
     updated_at := updated_at t |}.

Definition set_completed (v : bool) (t : Task) : Task :=
  {| id := id t; title := title t; description := description t;
     completed := v; created_at := created_at t;
     updated_at := updated_at t |}.

Definition set_updated_at (v : string) (t : Task) : Task :=
  {| id := id t; title := title t; description := description t;
     completed := completed t; created_at := created_at t;
     updated_at := v |}.

(** *** [task_repository.py] *)

(** [TaskRepository.generate_id] *)
Definition generate_id : M Z :=
  fun w =>
    let current_id := _next_id w in
    (Return current_id,
     {| heap := heap w; _storage := _storage w;
        _next_id := _next_id w + 1 |}).

(** [self._storage[key] = task] *)
Definition storage_set (key : Z) (task : ref) : M unit :=
  fun w =>
    (Return tt,
     {| heap := heap w; _storage := <[key := task]> (_storage w);
        _next_id := _next_id w |}).

(** [TaskRepository.create]: the key is read from the object, [task["id"]];
    the reference handed in is the one stored and returned. A reference
    always designates an object, so the second branch is there for totality
    only; the service reaches [create] with the dict it has just built. *)
Definition create (task : ref) : M ref :=
  fun w =>
    match heap w !! task with
    | Some t => (storage_set (id t) task ;;; ret task) w
    | None => (Return task, w)
    end.

(** [TaskRepository.find_by_id]: [self._storage.get(task_id)] *)
Definition find_by_id (task_id : Z) : M (option ref) :=
  fun w => (Return (_storage w !! task_id), w).

(** [TaskRepository.update] *)
Definition update (task_id : Z) (task : ref) : M ref :=
  storage_set task_id task ;;; ret task.

(** [TaskRepository.delete] *)
Definition delete (task_id : Z) : M bool :=
  fun w =>
    match _storage w !! task_id with
    | Some _ =>
        (Return true,
         {| heap := heap w; _storage := base.delete task_id (_storage w);
            _next_id := _next_id w |})
    | None => (Return false, w)
    end.

(** *** [task_service.py] *)

(** [TaskService._validate_title] *)
Definition _validate_title (title : string) : Exception + string :=
  let stripped := Py.strip title in
  if negb (Py.truthy stripped) then
    inl (ValidationError TitleEmpty)
  else if Py.len stripped >? MAX_TITLE_LENGTH then
    inl (ValidationError (TitleTooLong (Py.len stripped)))
  else inr stripped.

(** [TaskService._validate_description] *)
Definition _validate_description (description : string) : Exception + string :=
  if Py.len description >? MAX_DESCRIPTION_LENGTH then
    inl (ValidationError (DescriptionTooLong (Py.len description)))
  else inr description.

(** [TaskService.add_task]. [now] is the string that
    [self._generate_timestamp()], that is [datetime.now().isoformat()],
    returns in this call; the call reads the clock once. *)
Definition add_task (title description : string) (now : string) : M ref :=
  validated_title <~ lift (_validate_title title) ;;
  validated_description <~ lift (_validate_description description) ;;
  task_id <~ generate_id ;;
  let timestamp := now in
  task <~ new_dict {| id := task_id;
                      title := validated_title;
                      description := validated_description;
                      completed := false;
                      created_at := timestamp;
                      updated_at := timestamp |} ;;
  create task.

(** [TaskService.get_task_by_id]: the reference found in the storage is
    returned as it is, no copy is made. *)
Definition get_task_by_id (task_id : Z) : M ref :=
  task <~ find_by_id task_id ;;
  match task with
  | None => raise (TaskNotFoundError task_id)
  | Some r => ret r
  end.

(** [TaskService.update_task]; [None] is an argument left at its default. *)
Definition update_task (task_id : Z) (title description : option string)
    (now : string) : M ref :=
  match title, description with
  | None, None => raise (ValidationError NoFields)
  | _, _ =>
      task <~ get_task_by_id task_id ;;
      match title with
       | Some v => t <~ lift (_validate_title v) ;; setitem task (set_title t)
       | None => ret tt
       end ;;;
      match description with
       | Some v =>
           d <~ lift (_validate_description v) ;;
           setitem task (set_description d)
       | None => ret tt
       end ;;;
      setitem task (set_updated_at now) ;;;
      update task_id task
  end.

(** [TaskService.delete_task] *)
Definition delete_task (task_id : Z) : M ref :=
  task <~ get_task_by_id task_id ;;
  delete task_id ;;;
  ret task.

(** [TaskService.complete_task] *)
Definition complete_task (task_id : Z) (now : string) : M ref :=
  task <~ get_task_by_id task_id ;;
  setitem task (set_completed true) ;;;
  setitem task (set_updated_at now) ;;;
  update task_id task.

(** [TaskService.uncomplete_task] *)
Definition uncomplete_task (task_id : Z) (now : string) : M ref :=
  task <~ get_task_by_id task_id ;;
  setitem task (set_completed false) ;;;
  setitem task (set_updated_at now) ;;;
  update task_id task.

(** The record a caller sees behind a reference, and the record the storage
    holds under an identifier. *)
Definition deref (w : World) (r : ref) : option Task := heap w !! r.

Definition stored (w : World) (task_id : Z) : option Task :=
  match _storage w !! task_id with
  | Some r => heap w !! r
  | None => None
  end.

(** The calls a client makes on the service, for statements over every
    later use of it. *)
Inductive Call :=
| AddTask (title description now : string)
| GetTaskById (task_id : Z)
| UpdateTask (task_id : Z) (title description : option string) (now : string)
| DeleteTask (task_id : Z)
| CompleteTask (task_id : Z) (now : string)
| UncompleteTask (task_id : Z) (now : string).

Definition run_call (c : Call) (w : World) : World :=
  match c with
  | AddTask t d now => snd (add_task t d now w)
  | GetTaskById i => snd (get_task_by_id i w)
  | UpdateTask i t d now => snd (update_task i t d now w)
  | DeleteTask i => snd (delete_task i w)
  | CompleteTask i now => snd (complete_task i now w)
  | UncompleteTask i now => snd (uncomplete_task i now w)
  end.

Definition run_calls (cs : list Call) (w : World) : World :=
  fold_left (fun w c => run_call c w) cs w.

(** Identifiers in use lie below the next one to be handed out. *)
Definition ids_below_next (w : World) : Prop :=
  forall k r, _storage w !! k = Some r -> k < _next_id w.

(** What a service call may do to the storage: it never lowers [_next_id],
    and an identifier in use after the call was in use before it or is the
    one [generate_id] handed out. *)
Definition keys_grow_from (w w' : World) : Prop :=
  _next_id w <= _next_id w'
  /\ forall k r, _storage w' !! k = Some r ->
       is_Some (_storage w !! k) \/ (k = _next_id w /\ _next_id w < _next_id w').

(** [TaskRepository.find_all]:
    [[self._storage[task_id] for task_id in sorted(self._storage.keys())]].
    Every key of the dict has its entry, so no lookup of the comprehension
    fails. *)
Definition find_all : M (list ref) :=
  fun w =>
    (Return
       (omap (fun task_id => _storage w !! task_id)
          (merge_sort Z.le (elements (dom (_storage w))))),
     w).

(** [TaskRepository.clear] *)
Definition clear : M unit :=
  fun w => (Return tt, {| heap := heap w; _storage := ∅; _next_id := 1 |}).

(** [TaskService.get_all_tasks] *)
Definition get_all_tasks : M (list ref) := find_all.

(** The state the service keeps the repository in: every stored reference
    designates a task whose ["id"] is the key it is stored under, and the
    keys lie below [_next_id]. *)
Definition consistent (w : World) : Prop :=
  (forall k r, _storage w !! k = Some r ->
     exists t, heap w !! r = Some t /\ id t = k)
  /\ ids_below_next w.

(** How the objects may differ after a call that works on the object [r]:
    no other object is touched, and [r] itself is still there with the
    ["id"] it had. *)
Definition touches_only (r : ref) (h h' : gmap ref Task) : Prop :=
  (forall r', r' <> r -> h' !! r' = h !! r')
  /\ match h !! r, h' !! r with
     | Some t, Some t' => id t' = id t
     | None, None => True
     | _, _ => False
     end.

(** What [update_task], [complete_task] and [uncomplete_task] can do to the
    world: nothing, or changes to the one object the storage holds under the
    identifier, whose ["id"] they keep; the storage and [_next_id] stay. *)
Definition mutates_one (task_id : Z) (w w' : World) : Prop :=
  w' = w
  \/ exists r h',
       _storage w !! task_id = Some r
       /\ touches_only r (heap w) h'
       /\ w' = {| heap := h'; _storage := _storage w; _next_id := _next_id w |}.

(** The identifier a call names; [add_task] names none. *)
Definition target (c : Call) : option Z :=
  match c with
  | AddTask _ _ _ => None
  | GetTaskById i => Some i
  | UpdateTask i _ _ _ => Some i
  | DeleteTask i => Some i
  | CompleteTask i _ => Some i
  | UncompleteTask i _ => Some i
  end.

(** The world of the end-to-end scenario: one task, "Buy milk", added to an
    empty repository. *)
Definition buy_milk : World :=
  run_calls [AddTask "Buy milk" "" "2025-01-01T10:00:00"] init.

(** [buy_milk] after a second task, the deletion of the first and a third
    task: the identifiers 2 and 3 are in use. *)
Definition errands : World :=
  run_calls [AddTask "Walk dog" "" "2025-01-01T11:00:00"; DeleteTask 1;
             AddTask "Pay rent" "" "2025-01-01T12:00:00"] buy_milk.

End Phase1.

(** ** Phase 1: the console front end *)
Module Cli.

(** [cli_formatter.py]: [_truncate_title(title, max_length=50)] *)
Definition _truncate_title (title : string) (max_length : Z) : string :=
  if Py.len title <=? max_length then title
  else (Py.slice_to title (max_length - 3) ++ "...")%string.

(** The loop [while i < len(tokens)] of [parse_command], over the tokens
    from index [i] on: a token that starts with [--] is a flag, which takes
    the next token as its value unless there is none or it starts with [--]
    too (the flag is then skipped); any other token is appended to [args]. *)
Fixpoint parse_tokens (rest : list string) (args : list string)
    (flags : gmap string string) : list string * gmap string string :=
  match rest with
  | [] => (args, flags)
  | token :: rest' =>
      if Py.startswith "--" token then
        let flag_name := Py.slice_from token 2 in
        match rest' with
        | flag_value :: rest'' =>
            if negb (Py.startswith "--" flag_value) then
              parse_tokens rest'' args (<[flag_name := flag_value]> flags)
            else parse_tokens rest' args flags
        | [] => parse_tokens rest' args flags
        end
      else parse_tokens rest' (args ++ [token]) flags
  end.

(** [parse_command] from the token list on, that is after [shlex.split] (or
    [str.split]) has cut the input: no token gives [("", [], {})]; otherwise
    the first token, lower-cased, is the command. *)
Definition parse_command_tokens (tokens : list string)
    : string * list string * gmap string string :=
  match tokens with
  | [] => (""%string, [], ∅)
  | command :: rest =>
      let '(args, flags) := parse_tokens rest [] ∅ in
      (Py.lower command, args, flags)
  end.

End Cli.

(** ** Phase 2: the persisted service *)
Module Phase2.

(** A [datetime]: the instant, in microseconds. *)
Definition datetime := Z.

(** [models/task.py]: [class PriorityEnum(str, Enum)] *)
Inductive PriorityEnum := HIGH | MEDIUM | LOW.

(** [PriorityEnum.value] *)
Definition value (p : PriorityEnum) : string :=
  match p with
  | HIGH => "high"
  | MEDIUM => "medium"
  | LOW => "low"
  end.

(** [models/task.py]: a row of the table [tasks]. *)
Module Task.
Record t := mk {
  id : Z;
  title : string;
  description : string;
  completed : bool;
  priority : string;
  due_date : option datetime;
  created_at : datetime;
  updated_at : datetime;
  user_id : Z
}.
End Task.

(** [models/tag.py]: a row of the table [tags]. *)
Module Tag.
Record t := mk {
  id : Z;
  name : string;
  color : option string;
  user_id : Z
}.
End Tag.

(** [models/task_tag.py]: a row of the join table [task_tags]; the pair of
    columns is its primary key. *)
Module TaskTag.
Record t := mk {
  task_id : Z;
  tag_id : Z
}.
End TaskTag.

#[global] Instance Task_eq_dec : EqDecision Task.t.
Proof. solve_decision. Defined.

#[global] Instance Tag_eq_dec : EqDecision Tag.t.
Proof. solve_decision. Defined.

#[global] Instance TaskTag_eq_dec : EqDecision TaskTag.t.
Proof. solve_decision. Defined.

(** The committed content of the database: each table in insertion order,
    and the last value of the two primary-key sequences. *)
Record Db := mkDb {
  tasks : list Task.t;
  tasks_seq : Z;
  tags : list Tag.t;
  tags_seq : Z;
  task_tags : list TaskTag.t
}.

Definition empty_db : Db :=
  {| tasks := []; tasks_seq := 0; tags := []; tags_seq := 0;
     task_tags := [] |}.

(** What the session raises. A call that raises has not committed: it
    leaves the database as it found it. *)
Inductive DbError :=
| IntegrityError
| MultipleResultsFound
| NoResultFound.

(** [Result.scalar_one_or_none()] *)
Definition scalar_one_or_none {A} (rows : list A) : DbError + option A :=
  match rows with
  | [] => inr None
  | [r] => inr (Some r)
  | _ => inl MultipleResultsFound
  end.

(** [Result.scalar_one()] *)
Definition scalar_one {A} (rows : list A) : DbError + A :=
  match rows with
  | [] => inl NoResultFound
  | [r] => inr r
  | _ => inl MultipleResultsFound
  end.

(** SQL [lower()], which the test engine (SQLite) applies to the ASCII
    letters only. *)
Definition sql_lower_char (c : ascii) : ascii :=
  let n := N_of_ascii c in
  if ((65 <=? n) && (n <=? 90))%N then ascii_of_N (n + 32) else c.

Fixpoint sql_lower (s : string) : string :=
  match s with
  | EmptyString => EmptyString
  | String c s' => String (sql_lower_char c) (sql_lower s')
  end.

(** *** [schemas/task.py]

    A pydantic field is checked in two steps: first the constraints of its
    [Field(...)] on the value as received, then its [field_validator], whose
    result is the value the model holds. *)
Inductive ValidationError :=
| string_too_short (field : string)
| string_too_long (field : string)
| value_error (msg : string).

(** [Field(min_length=lo, max_length=hi)] on a [str] *)
Definition check_length (field : string) (lo : option Z) (hi : Z) (v : string)
    : ValidationError + string :=
  if match lo with Some n => Py.len v <? n | None => false end then
    inl (string_too_short field)
  else if Py.len v >? hi then inl (string_too_long field)
  else inr v.

(** [TaskBase.title_not_empty] *)
Definition TaskBase_title_not_empty (v : string) : ValidationError + string :=
  if negb (Py.truthy (Py.strip v)) then inl (value_error "Title cannot be empty")
  else inr (Py.strip v).

(** [TaskCreate], as validated. *)
Module TaskCreate.
Record t := mk {
  title : string;
  description : string;
  priority : PriorityEnum;
  due_date : option datetime;
  tags : list string
}.
End TaskCreate.

(** Validation of the body of a create request. [title] is required; for
    the other fields [None] is a field the body leaves out, which takes its
    default. *)
Definition TaskCreate_validate (title : string) (description : option string)
    (priority : option PriorityEnum) (due_date : option datetime)
    (tags : option (list string)) : ValidationError + TaskCreate.t :=
  match check_length "title" (Some 1) 200 title with
  | inl e => inl e
  | inr v =>
      match TaskBase_title_not_empty v with
      | inl e => inl e
      | inr title' =>
          match
            match description with
            | Some d => check_length "description" None 1000 d
            | None => inr ""%string
            end
          with
          | inl e => inl e
          | inr description' =>
              inr {| TaskCreate.title := title';
                     TaskCreate.description := description';
                     TaskCreate.priority :=
                       match priority with Some p => p | None => MEDIUM end;
                     TaskCreate.due_date := due_date;
                     TaskCreate.tags :=
                       match tags with Some l => l | None => [] end |}
          end
      end
  end.

(** [TaskUpdate]: every field is optional. For each field the outer option
    tells whether the body sets it ([None]: unset, left out of
    [model_dump(exclude_unset=True)]); the inner one is the value, [None]
    being an explicit null. *)
Module TaskUpdate.
Record t := mk {
  title : option (option string);
  description : option (option string);
  priority : option (option PriorityEnum);
  completed : option (option bool);
  due_date : option (option datetime);
  tags : option (option (list string))
}.
End TaskUpdate.

(** [TaskUpdate.title_not_empty]:
    [if v is not None and not v.strip(): raise]; [v.strip() if v else None] *)
Definition TaskUpdate_title_not_empty (v : option string)
    : ValidationError + option string :=
  match v with
  | Some s =>
      if negb (Py.truthy (Py.strip s)) then
        inl (value_error "Title cannot be empty")
      else if Py.truthy s then inr (Some (Py.strip s)) else inr None
  | None => inr None
  end.

(** Validation of the body of an update request. A field validator runs on
    the fields the body sets; a length constraint applies to a string, not
    to a null. *)
Definition TaskUpdate_validate (body : TaskUpdate.t)
    : ValidationError + TaskUpdate.t :=
  match
    match TaskUpdate.title body with
    | None => inr None
    | Some v =>
        match
          match v with
          | Some s =>
              match check_length "title" (Some 1) 200 s with
              | inl e => inl e
              | inr s' => inr (Some s')
              end
          | None => inr None
          end
        with
        | inl e => inl e
        | inr v' =>
            match TaskUpdate_title_not_empty v' with
            | inl e => inl e
            | inr v'' => inr (Some v'')
            end
        end
    end
  with
  | inl e => inl e
  | inr title' =>
      match
        match TaskUpdate.description body with
        | Some (Some d) =>
            match check_length "description" None 1000 d with
            | inl e => inl e
            | inr d' => inr (Some (Some d'))
            end
        | other => inr other
        end
      with
      | inl e => inl e
      | inr description' =>
          inr {| TaskUpdate.title := title';
                 TaskUpdate.description := description';
                 TaskUpdate.priority := TaskUpdate.priority body;
                 TaskUpdate.completed := TaskUpdate.completed body;
                 TaskUpdate.due_date := TaskUpdate.due_date body;
                 TaskUpdate.tags := TaskUpdate.tags body |}
      end
  end.

(** [TagCreate.name_not_empty] *)
Definition TagCreate_name_not_empty (v : string) : ValidationError + string :=
  if negb (Py.truthy (Py.strip v)) then
    inl (value_error "Tag name cannot be empty")
  else inr (Py.lower (Py.strip v)).

(** [TagCreate]: validation of the body of a tag request, giving the name and
    the colour the model holds. *)
Definition TagCreate_validate (name : string) (color : option string)
    : ValidationError + (string * option string) :=
  match check_length "name" (Some 1) 50 name with
  | inl e => inl e
  | inr v =>
      match TagCreate_name_not_empty v with
      | inl e => inl e
      | inr name' =>
          match
            match color with
            | Some c =>
                match check_length "color" None 7 c with
                | inl e => inl e
                | inr c' => inr (Some c')
                end
            | None => inr None
            end
          with
          | inl e => inl e
          | inr color' => inr (name', color')
          end
      end
  end.

(** *** [services/task_service.py] *)

(** The palette of [create_task], [update_task] and [create_tag]. *)
Definition colors : list string :=
  ["#3B82F6"; "#EF4444"; "#F59E0B"; "#10B981"; "#8B5CF6"; "#EC4899"]%string.

(** [random.choice(colors)], given the index the generator draws. *)
Definition random_choice (draw : nat) : string :=
  nth (draw mod 6) colors "#3B82F6"%string.

(** [select(Tag).where(and_(func.lower(Tag.name) == key,
                            Tag.user_id == user_id))] *)
Definition select_tag (key : string) (user_id : Z) (db : Db) : list Tag.t :=
  List.filter
    (fun g => String.eqb (sql_lower (Tag.name g)) key
              && (Tag.user_id g =? user_id))
    (tags db).

(** [session.add(tag); await session.flush()]: the row gets the next
    identifier of the sequence. *)
Definition insert_tag (name : string) (color : option string) (user_id : Z)
    (db : Db) : Tag.t * Db :=
  let tag := {| Tag.id := tags_seq db + 1; Tag.name := name;
                Tag.color := color; Tag.user_id := user_id |} in
  (tag, {| tasks := tasks db; tasks_seq := tasks_seq db;
           tags := tags db ++ [tag]; tags_seq := tags_seq db + 1;
           task_tags := task_tags db |}).

(** [session.add(TaskTag(task_id=..., tag_id=...))]: the primary key
    [(task_id, tag_id)] takes a pair once. *)
Definition insert_task_tag (task_id tag_id : Z) (db : Db) : DbError + Db :=
  if existsb
       (fun l => (TaskTag.task_id l =? task_id) && (TaskTag.tag_id l =? tag_id))
       (task_tags db)
  then inl IntegrityError
  else inr {| tasks := tasks db; tasks_seq := tasks_seq db;
              tags := tags db; tags_seq := tags_seq db;
              task_tags := task_tags db
                ++ [{| TaskTag.task_id := task_id;
                       TaskTag.tag_id := tag_id |}] |}.

(** The loop [for tag_name in task_data.tags: ...], which [create_task] and
    [update_task] both contain: find the tag by its lower-cased name or create
    it, then link it to the task. [rnd] lists the draws of the random
    generator, one for each tag created. *)
Fixpoint link_tags (task_id user_id : Z) (names : list string)
    (rnd : list nat) (db : Db) : DbError + Db :=
  match names with
  | [] => inr db
  | tag_name :: rest =>
      match scalar_one_or_none (select_tag (Py.lower tag_name) user_id db) with
      | inl e => inl e
      | inr found =>
          let '(tag, rnd', db1) :=
            match found with
            | Some tag => (tag, rnd, db)
            | None =>
                let '(tag, db') :=
                  insert_tag (Py.lower tag_name)
                    (Some (random_choice (hd 0%nat rnd))) user_id db in
                (tag, tl rnd, db')
            end in
          match insert_task_tag task_id (Tag.id tag) db1 with
          | inl e => inl e
          | inr db2 => link_tags task_id user_id rest rnd' db2
          end
      end
  end.

(** [selectinload(Task.tags)]: the tags linked to a task. *)
Definition load_tags (task_id : Z) (db : Db) : list Tag.t :=
  List.filter
    (fun g =>
       existsb
         (fun l => (TaskTag.task_id l =? task_id)
                   && (TaskTag.tag_id l =? Tag.id g))
         (task_tags db))
    (tags db).

(** A task as a caller gets it: the row with its tags loaded. *)
Definition Loaded : Type := Task.t * list Tag.t.

(** [select(Task).options(selectinload(Task.tags)).where(Task.id == task_id)]
    and [scalar_one()], the reload that ends [create_task] and [update_task]. *)
Definition reload (task_id : Z) (db : Db) : DbError + Loaded :=
  match scalar_one (List.filter (fun t => Task.id t =? task_id) (tasks db)) with
  | inl e => inl e
  | inr t => inr (t, load_tags task_id db)
  end.

(** [TaskService.create_task]. The row is built by [Task(...)], which leaves
    [completed], [created_at] and [updated_at] to their defaults: the two
    timestamps have [default_factory=datetime.utcnow] each, so the clock is
    read once for [created_at] and once more for [updated_at];
    [now_created] and [now_updated] are these two readings. *)
Definition create_task (task_data : TaskCreate.t) (user_id : Z)
    (now_created now_updated : datetime) (rnd : list nat) (db : Db)
    : DbError + (Loaded * Db) :=
  let task :=
    {| Task.id := tasks_seq db + 1;
       Task.title := TaskCreate.title task_data;
       Task.description := TaskCreate.description task_data;
       Task.completed := false;
       Task.priority := value (TaskCreate.priority task_data);
       Task.due_date := TaskCreate.due_date task_data;
       Task.created_at := now_created;
       Task.updated_at := now_updated;
       Task.user_id := user_id |} in
  let db1 :=
    {| tasks := tasks db ++ [task]; tasks_seq := tasks_seq db + 1;
       tags := tags db; tags_seq := tags_seq db;
       task_tags := task_tags db |} in
  match
    match TaskCreate.tags task_data with
    | [] => inr db1
    | names => link_tags (Task.id task) user_id names rnd db1
    end
  with
  | inl e => inl e
  | inr db2 =>
      match reload (Task.id task) db2 with
      | inl e => inl e
      | inr loaded => inr (loaded, db2)
      end
  end.

(** The join of the tag filter of [list_tasks]:
    [query.join(TaskTag).join(Tag).where(func.lower(Tag.name).in_(names))],
    one row for each link of the task to a tag with one of the names. *)
Definition join_tags (names : list string) (db : Db) (rows : list Task.t)
    : list Task.t :=
  flat_map
    (fun t =>
       flat_map
         (fun l =>
            if TaskTag.task_id l =? Task.id t then
              flat_map
                (fun g =>
                   if (Tag.id g =? TaskTag.tag_id l)
                      && existsb (String.eqb (sql_lower (Tag.name g))) names
                   then [t] else [])
                (tags db)
            else [])
         (task_tags db))
    rows.

(** The filtered query of [list_tasks], before any ordering or paging. *)
Definition filtered (user_id : Z) (status : string)
    (priority : option PriorityEnum) (tags : option (list string)) (db : Db)
    : list Task.t :=
  let q0 := List.filter (fun t => Task.user_id t =? user_id) (tasks db) in
  let q1 :=
    if String.eqb status "active" then
      List.filter (fun t => Bool.eqb (Task.completed t) false) q0
    else if String.eqb status "completed" then
      List.filter (fun t => Bool.eqb (Task.completed t) true) q0
    else q0 in
  let q2 :=
    match priority with
    | Some p => List.filter (fun t => String.eqb (Task.priority t) (value p)) q1
    | None => q1
    end in
  match tags with
  | Some ((_ :: _) as names) =>
      remove_dups (join_tags (List.map Py.lower names) db q2)
  | _ => q2
  end.

(** The [order_by] clause of each sort key, as "row [a] is not after row
    [b]". Strings compare by code point; [priority_desc] is
    [Task.priority.desc()], the column being the string of the priority;
    [due_asc] is [Task.due_date.asc().nullslast()]. *)
Definition order_by (sort_by : string) (a b : Task.t) : bool :=
  if String.eqb sort_by "created_asc" then
    Task.created_at a <=? Task.created_at b
  else if String.eqb sort_by "priority_desc" then
    String.leb (Task.priority b) (Task.priority a)
  else if String.eqb sort_by "due_asc" then
    match Task.due_date a, Task.due_date b with
    | Some x, Some y => x <=? y
    | Some _, None => true
    | None, Some _ => false
    | None, None => true
    end
  else if String.eqb sort_by "title_asc" then
    String.leb (Task.title a) (Task.title b)
  else
    Task.created_at b <=? Task.created_at a.

(** Sorting by an [order_by] clause. SQL leaves the order of rows that the
    clause does not separate to the engine; here they keep the order the
    query had them in. *)
Fixpoint insert_sorted (le : Task.t -> Task.t -> bool) (x : Task.t)
    (l : list Task.t) : list Task.t :=
  match l with
  | [] => [x]
  | y :: l' => if le x y then x :: l else y :: insert_sorted le x l'
  end.

Definition sorted_rows (le : Task.t -> Task.t -> bool) (l : list Task.t)
    : list Task.t :=
  fold_right (insert_sorted le) [] l.

(** [query.limit(limit).offset(offset)] for a limit and an offset that are
    not negative. *)
Definition paginate (limit offset : Z) (l : list Task.t) : list Task.t :=
  firstn (Z.to_nat limit) (skipn (Z.to_nat offset) l).

(** [TaskService.list_tasks]: the rows of the page and the total. *)
Definition list_tasks (user_id : Z) (status : string)
    (priority : option PriorityEnum) (tags : option (list string))
    (sort_by : string) (limit offset : Z) (db : Db) : list Task.t * Z :=
  let query := filtered user_id status priority tags db in
  let total := Z.of_nat (length query) in
  let query := sorted_rows (order_by sort_by) query in
  let query := paginate limit offset query in
  (query, total).

(** [TaskService.get_task_by_id] *)
Definition get_task_by_id (task_id user_id : Z) (db : Db)
    : DbError + option Loaded :=
  match
    scalar_one_or_none
      (List.filter
         (fun t => (Task.id t =? task_id) && (Task.user_id t =? user_id))
         (tasks db))
  with
  | inl e => inl e
  | inr None => inr None
  | inr (Some t) => inr (Some (t, load_tags task_id db))
  end.

(** [setattr(task, field, value)] for a field of [update_data]: a field the
    body does not set is not in [update_data]; a null cannot be stored in a
    column that is not nullable, which fails the flush. *)
Definition set_column {A} (v : option (option A)) (put : A -> Task.t -> Task.t)
    (row : Task.t) : DbError + Task.t :=
  match v with
  | None => inr row
  | Some (Some a) => inr (put a row)
  | Some None => inl IntegrityError
  end.

Definition put_title (v : string) (r : Task.t) : Task.t :=
  {| Task.id := Task.id r; Task.title := v;
     Task.description := Task.description r;
     Task.completed := Task.completed r; Task.priority := Task.priority r;
     Task.due_date := Task.due_date r; Task.created_at := Task.created_at r;
     Task.updated_at := Task.updated_at r; Task.user_id := Task.user_id r |}.

Definition put_description (v : string) (r : Task.t) : Task.t :=
  {| Task.id := Task.id r; Task.title := Task.title r;
     Task.description := v;
     Task.completed := Task.completed r; Task.priority := Task.priority r;
     Task.due_date := Task.due_date r; Task.created_at := Task.created_at r;
     Task.updated_at := Task.updated_at r; Task.user_id := Task.user_id r |}.

Definition put_priority (v : PriorityEnum) (r : Task.t) : Task.t :=
  {| Task.id := Task.id r; Task.title := Task.title r;
     Task.description := Task.description r;
     Task.completed := Task.completed r; Task.priority := value v;
     Task.due_date := Task.due_date r; Task.created_at := Task.created_at r;
     Task.updated_at := Task.updated_at r; Task.user_id := Task.user_id r |}.

Definition put_completed (v : bool) (r : Task.t) : Task.t :=
  {| Task.id := Task.id r; Task.title := Task.title r;
     Task.description := Task.description r;
     Task.completed := v; Task.priority := Task.priority r;
     Task.due_date := Task.due_date r; Task.created_at := Task.created_at r;
     Task.updated_at := Task.updated_at r; Task.user_id := Task.user_id r |}.

Definition put_due_date (v : option datetime) (r : Task.t) : Task.t :=
  {| Task.id := Task.id r; Task.title := Task.title r;
     Task.description := Task.description r;
     Task.completed := Task.completed r; Task.priority := Task.priority r;
     Task.due_date := v; Task.created_at := Task.created_at r;
     Task.updated_at := Task.updated_at r; Task.user_id := Task.user_id r |}.

Definition put_updated_at (v : datetime) (r : Task.t) : Task.t :=
  {| Task.id := Task.id r; Task.title := Task.title r;
     Task.description := Task.description r;
     Task.completed := Task.completed r; Task.priority := Task.priority r;
     Task.due_date := Task.due_date r; Task.created_at := Task.created_at r;
     Task.updated_at := v; Task.user_id := Task.user_id r |}.

(** The loop over [update_data], in the order of the fields of the model,
    then [task.updated_at = datetime.utcnow()]. *)
Definition apply_update (task_data : TaskUpdate.t) (now : datetime)
    (row : Task.t) : DbError + Task.t :=
  match set_column (TaskUpdate.title task_data) put_title row with
  | inl e => inl e
  | inr r1 =>
  match set_column (TaskUpdate.description task_data) put_description r1 with
  | inl e => inl e
  | inr r2 =>
  match set_column (TaskUpdate.priority task_data) put_priority r2 with
  | inl e => inl e
  | inr r3 =>
  match set_column (TaskUpdate.completed task_data) put_completed r3 with
  | inl e => inl e
  | inr r4 =>
      let r5 :=
        match TaskUpdate.due_date task_data with
        | None => r4
        | Some v => put_due_date v r4
        end in
      inr (put_updated_at now r5)
  end end end end.

(** [TaskService.update_task]; [now] is the reading of [datetime.utcnow()].
    The result [None] is a task that does not exist. *)
Definition update_task (task_id : Z) (task_data : TaskUpdate.t) (user_id : Z)
    (now : datetime) (rnd : list nat) (db : Db)
    : DbError + (option Loaded * Db) :=
  match
    scalar_one_or_none
      (List.filter
         (fun t => (Task.id t =? task_id) && (Task.user_id t =? user_id))
         (tasks db))
  with
  | inl e => inl e
  | inr None => inr (None, db)
  | inr (Some task) =>
      match apply_update task_data now task with
      | inl e => inl e
      | inr task' =>
          let db1 :=
            {| tasks :=
                 List.map
                   (fun r => if Task.id r =? Task.id task then task' else r)
                   (tasks db);
               tasks_seq := tasks_seq db;
               tags := tags db; tags_seq := tags_seq db;
               task_tags := task_tags db |} in
          match
            match TaskUpdate.tags task_data with
            | Some (Some names) =>
                let db2 :=
                  {| tasks := tasks db1; tasks_seq := tasks_seq db1;
                     tags := tags db1; tags_seq := tags_seq db1;
                     task_tags :=
                       List.filter
                         (fun l => negb (TaskTag.task_id l =? task_id))
                         (task_tags db1) |} in
                link_tags (Task.id task) user_id names rnd db2
            | _ => inr db1
            end
          with
          | inl e => inl e
          | inr db3 =>
              match reload task_id db3 with
              | inl e => inl e
              | inr loaded => inr (Some loaded, db3)
              end
          end
      end
  end.

(** [TagService.create_tag] *)
Definition create_tag (name : string) (color : option string) (user_id : Z)
    (rnd : list nat) (db : Db) : DbError + (Tag.t * Db) :=
  match scalar_one_or_none (select_tag (Py.lower name) user_id db) with
  | inl e => inl e
  | inr (Some existing_tag) => inr (existing_tag, db)
  | inr None =>
      let color :=
        match color with
        | Some c => if Py.truthy c then c else random_choice (hd 0%nat rnd)
        | None => random_choice (hd 0%nat rnd)
        end in
      inr (insert_tag (Py.lower name) (Some color) user_id db)
  end.

(** *** [api/v1/endpoints/tasks.py] and [api/v1/endpoints/tags.py] *)

(** How a request fails: 422 from the validation of the body or of a query
    parameter, 422 with the code VALIDATION_ERROR and the message "At least
    one field must be provided", 404 with the code NOT_FOUND, or an error of
    the session. *)
Inductive HTTPError :=
| RequestValidationError (e : ValidationError)
| QueryValidationError (param : string)
| AtLeastOneField
| NotFound (task_id : Z)
| ServerError (e : DbError).

(** Truthiness of a value of [model_dump(exclude_unset=True)]: a field that
    is not set is not among the values, and [None] is falsy. *)
Definition truthy_field {A} (truthy : A -> bool) (v : option (option A))
    : bool :=
  match v with
  | Some (Some a) => truthy a
  | _ => false
  end.

(** [any(task_data.model_dump(exclude_unset=True).values())]: an enum member
    of [PriorityEnum] (a non-empty [str]) and a [datetime] are truthy, a
    [bool] is its value, a [str] and a [list] are truthy when not empty. *)
Definition any_values (task_data : TaskUpdate.t) : bool :=
  truthy_field Py.truthy (TaskUpdate.title task_data)
  || truthy_field Py.truthy (TaskUpdate.description task_data)
  || truthy_field (fun _ : PriorityEnum => true) (TaskUpdate.priority task_data)
  || truthy_field (fun b : bool => b) (TaskUpdate.completed task_data)
  || truthy_field (fun _ : datetime => true) (TaskUpdate.due_date task_data)
  || truthy_field
       (fun l : list string => match l with [] => false | _ => true end)
       (TaskUpdate.tags task_data).

(** The endpoint [create_task] ([POST /tasks]); the service runs for the
    default user 1. *)
Definition post_task (title : string) (description : option string)
    (priority : option PriorityEnum) (due_date : option datetime)
    (tags : option (list string))
    (now_created now_updated : datetime) (rnd : list nat) (db : Db)
    : HTTPError + (Loaded * Db) :=
  match TaskCreate_validate title description priority due_date tags with
  | inl e => inl (RequestValidationError e)
  | inr task_data =>
      match create_task task_data 1 now_created now_updated rnd db with
      | inl e => inl (ServerError e)
      | inr r => inr r
      end
  end.

(** The endpoint [update_task] ([PATCH /tasks/{task_id}]) *)
Definition patch_task (task_id : Z) (body : TaskUpdate.t)
    (now : datetime) (rnd : list nat) (db : Db)
    : HTTPError + (Loaded * Db) :=
  match TaskUpdate_validate body with
  | inl e => inl (RequestValidationError e)
  | inr task_data =>
      if negb (any_values task_data) then inl AtLeastOneField
      else
        match update_task task_id task_data 1 now rnd db with
        | inl e => inl (ServerError e)
        | inr (None, _) => inl (NotFound task_id)
        | inr (Some task, db') => inr (task, db')
        end
  end.

(** The body of the answer of [GET /tasks]. *)
Record TaskPage := mkTaskPage {
  page_tasks : list Task.t;
  total : Z;
  page_limit : Z;
  page_offset : Z
}.

(** The endpoint [list_tasks] ([GET /tasks]). [None] is a query parameter
    the request leaves out. [status] and [sort] must match their regular
    expressions, [limit] has [ge=1, le=1000] and [offset] has [ge=0]. *)
Definition get_tasks (status : option string) (priority : option PriorityEnum)
    (tag : option (list string)) (sort : option string)
    (limit offset : option Z) (db : Db) : HTTPError + TaskPage :=
  let status := match status with Some s => s | None => "all"%string end in
  let sort := match sort with Some s => s | None => "created_desc"%string end in
  let limit := match limit with Some n => n | None => 100 end in
  let offset := match offset with Some n => n | None => 0 end in
  if negb (existsb (String.eqb status) ["all"; "active"; "completed"]%string)
  then inl (QueryValidationError "status")
  else if negb (existsb (String.eqb sort)
                  ["created_desc"; "created_asc"; "priority_desc";
                   "due_asc"; "title_asc"]%string)
  then inl (QueryValidationError "sort")
  else if negb ((1 <=? limit) && (limit <=? 1000))
  then inl (QueryValidationError "limit")
  else if negb (0 <=? offset)
  then inl (QueryValidationError "offset")
  else
    let '(tasks, total) :=
      list_tasks 1 status priority tag sort limit offset db in
    inr {| page_tasks := tasks; total := total;
           page_limit := limit; page_offset := offset |}.

(** The endpoint [create_tag] ([POST /tags]) *)
Definition post_tag (name : string) (color : option string)
    (rnd : list nat) (db : Db) : HTTPError + (Tag.t * Db) :=
  match TagCreate_validate name color with
  | inl e => inl (RequestValidationError e)
  | inr (name', color') =>
      match create_tag name' color' 1 rnd db with
      | inl e => inl (ServerError e)
      | inr r => inr r
      end
  end.

(** The row an update leaves: each column a body sets to a value has that
    value, [updated_at] is the clock reading, and everything else is as in
    the row before. *)
Definition updated_row (task_data : TaskUpdate.t) (now : datetime)
    (row : Task.t) : Task.t :=
  {| Task.id := Task.id row;
     Task.title :=
       match TaskUpdate.title task_data with
       | Some (Some v) => v
       | _ => Task.title row
       end;
     Task.description :=
       match TaskUpdate.description task_data with
       | Some (Some v) => v
       | _ => Task.description row
       end;
     Task.completed :=
       match TaskUpdate.completed task_data with
       | Some (Some v) => v
       | _ => Task.completed row
       end;
     Task.priority :=
       match TaskUpdate.priority task_data with
       | Some (Some v) => value v
       | _ => Task.priority row
       end;
     Task.due_date :=
       match TaskUpdate.due_date task_data with
       | Some v => v
       | None => Task.due_date row
       end;
     Task.created_at := Task.created_at row;
     Task.updated_at := now;
     Task.user_id := Task.user_id row |}.

(** A body that sets one of the columns that are not nullable to null. *)
Definition nulls_required (task_data : TaskUpdate.t) : Prop :=
  TaskUpdate.title task_data = Some None
  \/ TaskUpdate.description task_data = Some None
  \/ TaskUpdate.priority task_data = Some None
  \/ TaskUpdate.completed task_data = Some None.

(** [order_by(Tag.name)]: the tags sorted by name, strings comparing by
    code point; tags of one name keep the order of the table. *)
Fixpoint insert_by_name (x : Tag.t) (l : list Tag.t) : list Tag.t :=
  match l with
  | [] => [x]
  | y :: l' =>
      if String.leb (Tag.name x) (Tag.name y) then x :: l
      else y :: insert_by_name x l'
  end.

(** [TagService.list_tags] *)
Definition list_tags (user_id : Z) (db : Db) : list Tag.t :=
  fold_right insert_by_name []
    (List.filter (fun g => Tag.user_id g =? user_id) (tags db)).

(** The endpoint [get_task] ([GET /tasks/{task_id}]) *)
Definition get_task (task_id : Z) (db : Db) : HTTPError + Loaded :=
  match get_task_by_id task_id 1 db with
  | inl e => inl (ServerError e)
  | inr None => inl (NotFound task_id)
  | inr (Some task) => inr task
  end.

(** The primary keys of the three tables: no identifier twice in [tasks] or
    in [tags], none above the sequence it came from, and no pair twice in
    [task_tags]. *)
Definition db_ok (db : Db) : Prop :=
  NoDup (List.map Task.id (tasks db))
  /\ Forall (fun t => Task.id t <= tasks_seq db) (tasks db)
  /\ NoDup (List.map Tag.id (tags db))
  /\ Forall (fun g => Tag.id g <= tags_seq db) (tags db)
  /\ NoDup (task_tags db).

(** A task carries one of the tags named: some row of [task_tags] links it
    to a tag whose name, lower-cased by the database, is among the names. *)
Definition has_tag_among (names : list string) (db : Db) (t : Task.t)
    : Prop :=
  exists l g,
    In l (task_tags db) /\ In g (tags db)
    /\ TaskTag.task_id l = Task.id t /\ Tag.id g = TaskTag.tag_id l
    /\ In (sql_lower (Tag.name g)) names.

(** What the filters of [list_tasks] ask of a task. *)
Definition matches (user_id : Z) (status : string)
    (priority : option PriorityEnum) (tags : option (list string)) (db : Db)
    (t : Task.t) : Prop :=
  Task.user_id t = user_id
  /\ (status = "active"%string -> Task.completed t = false)
  /\ (status = "completed"%string -> Task.completed t = true)
  /\ (forall p, priority = Some p -> Task.priority t = value p)
  /\ (forall n names, tags = Some (n :: names) ->
        has_tag_among (List.map Py.lower (n :: names)) db t).

(** [True] for a field that is set. *)
Definition is_Some_b {A} (o : option A) : bool :=
  match o with Some _ => true | None => false end.

(** The body [{"title": v}] of an update request. *)
Definition title_only (v : string) : TaskUpdate.t :=
  {| TaskUpdate.title := Some (Some v); TaskUpdate.description := None;
     TaskUpdate.priority := None; TaskUpdate.completed := None;
     TaskUpdate.due_date := None; TaskUpdate.tags := None |}.

(** The body [{"completed": b}] of an update request. *)
Definition completed_only (b : bool) : TaskUpdate.t :=
  {| TaskUpdate.title := None; TaskUpdate.description := None;
     TaskUpdate.priority := None; TaskUpdate.completed := Some (Some b);
     TaskUpdate.due_date := None; TaskUpdate.tags := None |}.

(** The body [{"description": v}] of an update request. *)
Definition description_only (v : string) : TaskUpdate.t :=
  {| TaskUpdate.title := None; TaskUpdate.description := Some (Some v);
     TaskUpdate.priority := None; TaskUpdate.completed := None;
     TaskUpdate.due_date := None; TaskUpdate.tags := None |}.

(** The fields a body sets, whatever their values. *)
Definition fields_set (body : TaskUpdate.t) : bool :=
  is_Some_b (TaskUpdate.title body) || is_Some_b (TaskUpdate.description body)
  || is_Some_b (TaskUpdate.priority body)
  || is_Some_b (TaskUpdate.completed body)
  || is_Some_b (TaskUpdate.due_date body) || is_Some_b (TaskUpdate.tags body).

(** A database of three tasks of the default user, created in the order
    high, medium, low. *)
Definition three_priorities : Db :=
  {| tasks :=
       [ {| Task.id := 1; Task.title := "Pay rent"; Task.description := "";
            Task.completed := false; Task.priority := value HIGH;
            Task.due_date := None; Task.created_at := 10;
            Task.updated_at := 10; Task.user_id := 1 |};
         {| Task.id := 2; Task.title := "Water plants"; Task.description := "";
            Task.completed := false; Task.priority := value MEDIUM;
            Task.due_date := None; Task.created_at := 20;
            Task.updated_at := 20; Task.user_id := 1 |};
         {| Task.id := 3; Task.title := "Sort photos"; Task.description := "";
            Task.completed := false; Task.priority := value LOW;
            Task.due_date := None; Task.created_at := 30;
            Task.updated_at := 30; Task.user_id := 1 |} ];
     tasks_seq := 3; tags := []; tags_seq := 0; task_tags := [] |}.

(** The row and the database that creating "Buy milk" in the empty database
    gives, at the clock readings [c1] and [c2]. *)
Definition buy_milk_row (c1 c2 : datetime) : Task.t :=
  {| Task.id := 1; Task.title := "Buy milk"; Task.description := "";
     Task.completed := false; Task.priority := "medium";
     Task.due_date := None; Task.created_at := c1; Task.updated_at := c2;
     Task.user_id := 1 |}.

Definition buy_milk_db (c1 c2 : datetime) : Db :=
  {| tasks := [buy_milk_row c1 c2]; tasks_seq := 1; tags := [];
     tags_seq := 0; task_tags := [] |}.

(** [three_priorities] with a fourth task. *)
Definition four_tasks : Db :=
  {| tasks :=
       tasks three_priorities
       ++ [ {| Task.id := 4; Task.title := "Call dentist";
               Task.description := ""; Task.completed := false;
               Task.priority := value MEDIUM; Task.due_date := None;
               Task.created_at := 40; Task.updated_at := 40;
               Task.user_id := 1 |} ];
     tasks_seq := 4; tags := []; tags_seq := 0; task_tags := [] |}.

End Phase2.

(** * Properties *)

(** ** Python strings *)

Example strip_spaced : Py.strip "  Spaced Title  " = "Spaced Title"%string.
Proof. reflexivity. Qed.

Example strip_blank : Py.strip "   " = ""%string.
Proof. reflexivity. Qed.

Example lower_work : Py.lower "Work" = "work"%string.
Proof. reflexivity. Qed.

Lemma truthy_false_iff (s : string) : Py.truthy s = false <-> s = ""%string.
Proof. destruct s; simpl; split; congruence. Qed.

Lemma len_nonneg (s : string) : 0 <= Py.len s.
Proof. unfold Py.len. lia. Qed.

Lemma len_zero_iff (s : string) : Py.len s = 0 <-> s = ""%string.
Proof.
  unfold Py.len. destruct s; simpl; split; intros H; try reflexivity;
    try discriminate; lia.
Qed.

Lemma lstrip_length (s : string) :
  (String.length (Py.lstrip s) <= String.length s)%nat.
Proof.
  induction s as [|c s IH]; simpl; [lia|].
  destruct (Py.isspace c); simpl; lia.
Qed.

Lemma rstrip_length (s : string) :
  (String.length (Py.rstrip s) <= String.length s)%nat.
Proof.
  induction s as [|c s IH]; simpl; [lia|].
  destruct (Py.rstrip s) eqn:E; [destruct (Py.isspace c)|]; simpl in *; lia.
Qed.

(** Trimming never makes a string longer. *)
Lemma strip_len_le (s : string) : Py.len (Py.strip s) <= Py.len s.
Proof.
  unfold Py.len, Py.strip.
  pose proof (rstrip_length (Py.lstrip s)). pose proof (lstrip_length s). lia.
Qed.

(** ** Phase 1 *)
Section Phase1Facts.
Import Phase1.

Lemma validate_title_ok (v : string) :
  1 <= Py.len (Py.strip v) <= MAX_TITLE_LENGTH ->
  _validate_title v = inr (Py.strip v).
Proof.
  unfold _validate_title, MAX_TITLE_LENGTH. intros [Hlo Hhi].
  destruct (Py.truthy (Py.strip v)) eqn:E; simpl.
  - destruct (Z.gtb_spec (Py.len (Py.strip v)) 200); [lia|].
    reflexivity.
  - apply truthy_false_iff in E. rewrite E in Hlo.
    unfold Py.len in Hlo. simpl in Hlo. lia.
Qed.

Lemma validate_title_inv (v s : string) :
  _validate_title v = inr s ->
  s = Py.strip v /\ 1 <= Py.len s <= MAX_TITLE_LENGTH.
Proof.
  unfold _validate_title, MAX_TITLE_LENGTH.
  destruct (Py.truthy (Py.strip v)) eqn:E; simpl; [|discriminate].
  destruct (Z.gtb_spec (Py.len (Py.strip v)) 200); [discriminate|].
  intros [= <-]. split; [reflexivity|]. split; [|lia].
  destruct (Py.strip v); [discriminate|]. unfold Py.len. simpl. lia.
Qed.

Lemma validate_title_fails (v : string) :
  Py.strip v = ""%string \/ Py.len (Py.strip v) > MAX_TITLE_LENGTH ->
  exists msg, _validate_title v = inl (ValidationError msg).
Proof.
  unfold _validate_title, MAX_TITLE_LENGTH. intros H.
  destruct (Py.truthy (Py.strip v)) eqn:E; simpl.
  - destruct (Z.gtb_spec (Py.len (Py.strip v)) 200);
      [eauto|].
    destruct H as [H|H]; [rewrite H in E; discriminate | lia].
  - eauto.
Qed.

Lemma validate_description_ok (d : string) :
  Py.len d <= MAX_DESCRIPTION_LENGTH -> _validate_description d = inr d.
Proof.
  unfold _validate_description, MAX_DESCRIPTION_LENGTH. intros H.
  destruct (Z.gtb_spec (Py.len d) 1000); [lia|reflexivity].
Qed.

Lemma validate_description_long (d : string) :
  Py.len d > MAX_DESCRIPTION_LENGTH ->
  _validate_description d
  = inl (ValidationError (DescriptionTooLong (Py.len d))).
Proof.
  unfold _validate_description, MAX_DESCRIPTION_LENGTH. intros H.
  destruct (Z.gtb_spec (Py.len d) 1000); [reflexivity|lia].
Qed.

Lemma stored_inv (w : World) (task_id : Z) (t : Task) :
  stored w task_id = Some t ->
  exists r, _storage w !! task_id = Some r /\ heap w !! r = Some t.
Proof.
  unfold stored. destruct (_storage w !! task_id) as [r|]; [eauto|discriminate].
Qed.

(** [get_task_by_id] hands out the reference the storage holds. *)
Lemma get_task_by_id_found (w : World) (task_id : Z) (r : ref) :
  _storage w !! task_id = Some r ->
  get_task_by_id task_id w = (Return r, w).
Proof.
  intros H. unfold get_task_by_id, bind, find_by_id. rewrite H. reflexivity.
Qed.

Lemma get_task_by_id_absent (w : World) (task_id : Z) :
  _storage w !! task_id = None ->
  get_task_by_id task_id w = (Raise (TaskNotFoundError task_id), w).
Proof.
  intros H. unfold get_task_by_id, bind, find_by_id. rewrite H. reflexivity.
Qed.

Lemma keys_grow_from_refl (w : World) : keys_grow_from w w.
Proof. split; [lia|]. intros k r H. left. eauto. Qed.

Lemma keys_grow_from_heap (w : World) (h : gmap ref Task) :
  keys_grow_from w
    {| heap := h; _storage := _storage w; _next_id := _next_id w |}.
Proof. split; simpl; [lia|]. intros k r H. left. eauto. Qed.

Lemma keys_grow_from_overwrite (w : World) (h : gmap ref Task) (k0 : Z)
    (r0 r1 : ref) :
  _storage w !! k0 = Some r0 ->
  keys_grow_from w
    {| heap := h; _storage := <[k0 := r1]> (_storage w);
       _next_id := _next_id w |}.
Proof.
  intros H0. split; simpl; [lia|]. intros k r H. left.
  destruct (decide (k0 = k)) as [->|Hne]; [eauto|].
  rewrite lookup_insert_ne in H by assumption. eauto.
Qed.

Lemma add_task_keys (t d now : string) (w : World) :
  keys_grow_from w (snd (add_task t d now w)).
Proof.
  unfold add_task, bind, lift.
  destruct (_validate_title t) as [e|vt]; [apply keys_grow_from_refl|].
  destruct (_validate_description d) as [e|vd]; [apply keys_grow_from_refl|].
  unfold ret, generate_id, new_dict, create. simpl.
  rewrite lookup_insert_eq. simpl.
  split; simpl; [lia|]. intros k r H.
  destruct (decide (_next_id w = k)) as [<-|Hne]; [right; lia|].
  rewrite lookup_insert_ne in H by assumption. left. eauto.
Qed.

Lemma update_task_keys (i : Z) (t d : option string) (now : string)
    (w : World) :
  keys_grow_from w (snd (update_task i t d now w)).
Proof.
  assert (Hgo : forall t d, keys_grow_from w
    (snd ((task <~ get_task_by_id i ;;
           match t with
           | Some v =>
               t' <~ lift (_validate_title v) ;; setitem task (set_title t')
           | None => ret tt
           end ;;;
           match d with
           | Some v =>
               d' <~ lift (_validate_description v) ;;
               setitem task (set_description d')
           | None => ret tt
           end ;;;
           setitem task (set_updated_at now) ;;;
           update i task) w))).
  { clear t d. intros t d.
    unfold bind at 1.
    destruct (_storage w !! i) as [r|] eqn:Hr.
    - rewrite (get_task_by_id_found _ _ _ Hr).
      destruct t as [v|]; destruct d as [v'|];
        unfold bind, lift, ret, raise, setitem, update, storage_set;
        repeat match goal with
          | |- context [_validate_title ?x] => destruct (_validate_title x)
          | |- context [_validate_description ?x] =>
              destruct (_validate_description x)
          end; simpl;
        first [ apply keys_grow_from_refl
              | apply keys_grow_from_heap
              | eapply keys_grow_from_overwrite; eassumption ].
    - rewrite (get_task_by_id_absent _ _ Hr). apply keys_grow_from_refl. }
  unfold update_task.
  destruct t as [v|], d as [v'|];
    [ exact (Hgo (Some v) (Some v')) | exact (Hgo (Some v) None)
    | exact (Hgo None (Some v')) | apply keys_grow_from_refl ].
Qed.

Lemma delete_task_keys (i : Z) (w : World) :
  keys_grow_from w (snd (delete_task i w)).
Proof.
  unfold delete_task, bind at 1.
  destruct (_storage w !! i) as [r|] eqn:Hr.
  - rewrite (get_task_by_id_found _ _ _ Hr).
    unfold bind, delete, ret. rewrite Hr. simpl.
    split; simpl; [lia|]. intros k r' H. left.
    destruct (decide (i = k)) as [->|Hne].
    + rewrite lookup_delete_eq in H. discriminate.
    + rewrite lookup_delete_ne in H by assumption. eauto.
  - rewrite (get_task_by_id_absent _ _ Hr). apply keys_grow_from_refl.
Qed.

Lemma set_completed_keys (i : Z) (b : bool) (now : string) (w : World) :
  keys_grow_from w
    (snd ((task <~ get_task_by_id i ;;
           setitem task (set_completed b) ;;;
           setitem task (set_updated_at now) ;;;
           update i task) w)).
Proof.
  unfold bind at 1.
  destruct (_storage w !! i) as [r|] eqn:Hr.
  - rewrite (get_task_by_id_found _ _ _ Hr).
    unfold bind, setitem, update, storage_set, ret. simpl.
    eapply keys_grow_from_overwrite; eassumption.
  - rewrite (get_task_by_id_absent _ _ Hr). apply keys_grow_from_refl.
Qed.

Lemma run_call_keys (c : Call) (w : World) :
  keys_grow_from w (run_call c w).
Proof.
  destruct c; simpl.
  - apply add_task_keys.
  - unfold get_task_by_id, bind, find_by_id.
    destruct (_storage w !! task_id); apply keys_grow_from_refl.
  - apply update_task_keys.
  - apply delete_task_keys.
  - apply set_completed_keys.
  - apply set_completed_keys.
Qed.

(** An identifier that is free and below [_next_id] stays so. *)
Lemma run_calls_gone (cs : list Call) (w : World) (task_id : Z) :
  _storage w !! task_id = None -> task_id < _next_id w ->
  _storage (run_calls cs w) !! task_id = None
  /\ task_id < _next_id (run_calls cs w).
Proof.
  revert w. induction cs as [|c cs IH]; intros w Hnone Hlt; [auto|].
  unfold run_calls in *. simpl. apply IH.
  - destruct (run_call_keys c w) as [_ Hk].
    destruct (_storage (run_call c w) !! task_id) as [r|] eqn:E; [|reflexivity].
    destruct (Hk _ _ E) as [[x Hx]|[-> _]]; [congruence|lia].
  - destruct (run_call_keys c w) as [Hn _]. lia.
Qed.

(** The service keeps the identifiers in use below [_next_id]. *)
Lemma run_call_ids_below_next (c : Call) (w : World) :
  ids_below_next w -> ids_below_next (run_call c w).
Proof.
  intros Hw k r H. destruct (run_call_keys c w) as [Hn Hk].
  destruct (Hk _ _ H) as [[x Hx]|[-> ?]]; [|lia].
  specialize (Hw _ _ Hx). lia.
Qed.

Lemma init_ids_below_next : ids_below_next init.
Proof. intros k r H. unfold init in H. simpl in H. rewrite lookup_empty in H. discriminate. Qed.

Lemma run_calls_ids_below_next (cs : list Call) (w : World) :
  ids_below_next w -> ids_below_next (run_calls cs w).
Proof.
  revert w. induction cs as [|c cs IH]; intros w Hw; [assumption|].
  unfold run_calls in *. simpl. apply IH. apply run_call_ids_below_next, Hw.
Qed.

(** [add_task] with a valid title and description: the task it stores. *)
Lemma add_task_ok (raw_title raw_description now : string) (w : World) :
  1 <= Py.len (Py.strip raw_title) <= MAX_TITLE_LENGTH ->
  Py.len raw_description <= MAX_DESCRIPTION_LENGTH ->
  exists r w',
    add_task raw_title raw_description now w = (Return r, w')
    /\ deref w' r
       = Some {| id := _next_id w; title := Py.strip raw_title;
                 description := raw_description; completed := false;
                 created_at := now; updated_at := now |}
    /\ stored w' (_next_id w) = deref w' r.
Proof.
  intros Ht Hd. unfold add_task, bind, lift.
  rewrite (validate_title_ok _ Ht), (validate_description_ok _ Hd).
  unfold ret, generate_id, new_dict, create. simpl.
  rewrite lookup_insert_eq. simpl.
  eexists. eexists. split; [reflexivity|].
  unfold deref, stored. simpl. rewrite !lookup_insert_eq. auto.
Qed.

Lemma add_task_invalid_title (raw_title raw_description now : string)
    (w : World) :
  Py.strip raw_title = ""%string
  \/ Py.len (Py.strip raw_title) > MAX_TITLE_LENGTH ->
  exists msg,
    add_task raw_title raw_description now w
    = (Raise (ValidationError msg), w).
Proof.
  intros H. destruct (validate_title_fails _ H) as [msg Hmsg].
  exists msg. unfold add_task, bind, lift. rewrite Hmsg. reflexivity.
Qed.

(** A successful [add_task]: the title was valid, and the two timestamps of
    the task returned are the one clock reading of the call. *)
Lemma add_task_inv (raw_title raw_description now : string) (w w' : World)
    (r : ref) :
  add_task raw_title raw_description now w = (Return r, w') ->
  1 <= Py.len (Py.strip raw_title) <= MAX_TITLE_LENGTH
  /\ Py.len raw_description <= MAX_DESCRIPTION_LENGTH
  /\ deref w' r
     = Some {| id := _next_id w; title := Py.strip raw_title;
               description := raw_description; completed := false;
               created_at := now; updated_at := now |}.
Proof.
  intros H.
  assert (Ht : 1 <= Py.len (Py.strip raw_title) <= MAX_TITLE_LENGTH).
  { revert H. unfold add_task, bind, lift.
    destruct (_validate_title raw_title) as [e|v] eqn:E; [discriminate|].
    intros _. apply validate_title_inv in E as [-> ?]. assumption. }
  assert (Hd : Py.len raw_description <= MAX_DESCRIPTION_LENGTH).
  { revert H. unfold add_task, bind, lift.
    rewrite (validate_title_ok _ Ht). unfold ret at 1.
    unfold _validate_description, MAX_DESCRIPTION_LENGTH.
    destruct (Z.gtb_spec (Py.len raw_description) 1000);
      [discriminate|intros _; lia]. }
  destruct (add_task_ok raw_title raw_description now w Ht Hd)
    as (r0 & w0 & Heq & Hderef & _).
  rewrite Heq in H. injection H as <- <-. auto.
Qed.

(** [update_task] with a valid title and nothing else: the stored object
    gets the trimmed title and the clock reading of the call. *)
Lemma update_task_title_only (w : World) (task_id : Z) (t : Task)
    (new_title now : string) :
  stored w task_id = Some t ->
  1 <= Py.len (Py.strip new_title) <= MAX_TITLE_LENGTH ->
  exists r w',
    update_task task_id (Some new_title) None now w = (Return r, w')
    /\ stored w' task_id = deref w' r
    /\ deref w' r
       = Some {| id := id t; title := Py.strip new_title;
                 description := description t; completed := completed t;
                 created_at := created_at t; updated_at := now |}.
Proof.
  intros Hs Hv. apply stored_inv in Hs as (r & Hr & Ht).
  exists r. eexists. split.
  { unfold update_task, bind. rewrite (get_task_by_id_found _ _ _ Hr).
    unfold lift. rewrite (validate_title_ok _ Hv).
    unfold ret, setitem, update, bind, storage_set, ret. simpl. reflexivity. }
  unfold stored, deref. simpl.
  rewrite !lookup_insert_eq, !lookup_alter_eq, Ht. simpl. auto.
Qed.

(** The at-least-one-field check of [update_task]. *)
Lemma update_task_no_fields (w : World) (task_id : Z) (now : string) :
  update_task task_id None None now w = (Raise (ValidationError NoFields), w).
Proof. reflexivity. Qed.

Lemma validate_title_not_NoFields (v : string) :
  _validate_title v <> inl (ValidationError NoFields).
Proof.
  unfold _validate_title. destruct (negb _); [discriminate|].
  destruct (_ >? _); discriminate.
Qed.

Lemma validate_description_not_NoFields (v : string) :
  _validate_description v <> inl (ValidationError NoFields).
Proof.
  unfold _validate_description. destruct (_ >? _); discriminate.
Qed.

Lemma update_task_some_field (w : World) (task_id : Z)
    (new_title new_description : option string) (now : string) :
  new_title <> None \/ new_description <> None ->
  fst (update_task task_id new_title new_description now w)
  <> Raise (ValidationError NoFields).
Proof.
  intros H.
  assert (Hgo : fst ((task <~ get_task_by_id task_id ;;
           match new_title with
           | Some v =>
               t' <~ lift (_validate_title v) ;; setitem task (set_title t')
           | None => ret tt
           end ;;;
           match new_description with
           | Some v =>
               d' <~ lift (_validate_description v) ;;
               setitem task (set_description d')
           | None => ret tt
           end ;;;
           setitem task (set_updated_at now) ;;;
           update task_id task) w) <> Raise (ValidationError NoFields)).
  { unfold bind at 1.
    destruct (_storage w !! task_id) as [r|] eqn:Hr.
    - rewrite (get_task_by_id_found _ _ _ Hr).
      destruct new_title as [v|]; destruct new_description as [v'|];
        unfold bind, lift, ret, raise, setitem, update, storage_set;
        try (pose proof (validate_title_not_NoFields v) as Hv;
             destruct (_validate_title v));
        try (pose proof (validate_description_not_NoFields v') as Hv';
             destruct (_validate_description v'));
        simpl; congruence.
    - rewrite (get_task_by_id_absent _ _ Hr). simpl. discriminate. }
  unfold update_task.
  destruct new_title as [v|], new_description as [v'|];
    [exact Hgo | exact Hgo | exact Hgo | destruct H; congruence].
Qed.

(** C7. [complete_task] twice in a row on an existing task: both calls return
    the task, after them [completed] is true, and the identifier, the title,
    the description and the created timestamp are those the task had before
    the first call; the second call, on the task already completed, changes
    nothing but the updated timestamp, which it sets to its own clock
    reading. *)
Theorem complete_task_twice (w : World) (task_id : Z) (t : Task)
    (now1 now2 : string) :
  stored w task_id = Some t ->
  exists r w1 w2 t1 t2,
    complete_task task_id now1 w = (Return r, w1)
    /\ complete_task task_id now2 w1 = (Return r, w2)
    /\ stored w1 task_id = Some t1 /\ deref w1 r = Some t1
    /\ stored w2 task_id = Some t2 /\ deref w2 r = Some t2
    /\ t1 = {| id := id t; title := title t; description := description t;
               completed := true; created_at := created_at t;
               updated_at := now1 |}
    /\ t2 = {| id := id t1; title := title t1; description := description t1;
               completed := completed t1; created_at := created_at t1;
               updated_at := now2 |}
    /\ completed t2 = true
    /\ id t2 = id t /\ title t2 = title t /\ description t2 = description t
    /\ created_at t2 = created_at t /\ updated_at t2 = now2.
Proof.
  intros Hs. apply stored_inv in Hs as (r & Hr & Ht).
  exists r.
  eexists. eexists. eexists. eexists.
  split.
  { unfold complete_task, bind. rewrite (get_task_by_id_found _ _ _ Hr).
    unfold setitem, update, bind, storage_set, ret. simpl. reflexivity. }
  split.
  { unfold complete_task, bind.
    rewrite (get_task_by_id_found _ _ r);
      [|simpl; apply lookup_insert_eq].
    unfold setitem, update, bind, storage_set, ret. simpl. reflexivity. }
  unfold stored, deref. simpl.
  rewrite !lookup_insert_eq, !lookup_alter_eq, Ht. simpl.
  repeat split; reflexivity.
Qed.

Lemma complete_task_twice_witness :
  stored buy_milk 1
  = Some {| id := 1; title := "Buy milk"; description := "";
            completed := false; created_at := "2025-01-01T10:00:00";
            updated_at := "2025-01-01T10:00:00" |}
  /\ exists r w1 w2 t1 t2,
       complete_task 1 "2025-01-01T10:05:00" buy_milk = (Return r, w1)
       /\ complete_task 1 "2025-01-01T10:06:00" w1 = (Return r, w2)
       /\ stored w1 1 = Some t1 /\ deref w1 r = Some t1
       /\ stored w2 1 = Some t2 /\ deref w2 r = Some t2
       /\ t1 = {| id := 1; title := "Buy milk"; description := "";
                  completed := true; created_at := "2025-01-01T10:00:00";
                  updated_at := "2025-01-01T10:05:00" |}
       /\ t2 = {| id := id t1; title := title t1;
                  description := description t1; completed := completed t1;
                  created_at := created_at t1;
                  updated_at := "2025-01-01T10:06:00" |}
       /\ completed t2 = true
       /\ id t2 = 1 /\ title t2 = "Buy milk"%string
       /\ description t2 = ""%string
       /\ created_at t2 = "2025-01-01T10:00:00"%string
       /\ updated_at t2 = "2025-01-01T10:06:00"%string.
Proof.
  split; [vm_compute; reflexivity|].
  apply (complete_task_twice buy_milk 1
           {| id := 1; title := "Buy milk"; description := "";
              completed := false; created_at := "2025-01-01T10:00:00";
              updated_at := "2025-01-01T10:00:00" |}).
  vm_compute; reflexivity.
Defined.

(** C8. [delete_task] on an existing task returns the object the storage
    held, with its content as it was stored, and removes the identifier from
    the storage: [get_task_by_id] on it then raises [TaskNotFoundError] with
    that identifier, and goes on doing so after any further calls of the
    service. On an identifier that is absent [delete_task] raises
    [TaskNotFoundError] with it and the world is as before. *)
Theorem delete_task_then_get (w : World) (task_id : Z) :
  ids_below_next w ->
  match _storage w !! task_id with
  | Some r =>
      exists w',
        delete_task task_id w = (Return r, w')
        /\ deref w' r = stored w task_id
        /\ heap w' = heap w
        /\ _storage w' = base.delete task_id (_storage w)
        /\ _next_id w' = _next_id w
        /\ forall cs : list Call,
             get_task_by_id task_id (run_calls cs w')
             = (Raise (TaskNotFoundError task_id), run_calls cs w')
  | None =>
      delete_task task_id w = (Raise (TaskNotFoundError task_id), w)
  end.
Proof.
  intros Hw. destruct (_storage w !! task_id) as [r|] eqn:Hr.
  - eexists. split.
    { unfold delete_task, bind. rewrite (get_task_by_id_found _ _ _ Hr).
      unfold delete, ret. rewrite Hr. reflexivity. }
    unfold deref, stored. simpl. rewrite Hr.
    repeat split; try reflexivity.
    intros cs. apply get_task_by_id_absent.
    apply run_calls_gone; simpl.
    + apply lookup_delete_eq.
    + exact (Hw _ _ Hr).
  - unfold delete_task, bind. rewrite (get_task_by_id_absent _ _ Hr).
    reflexivity.
Qed.

Lemma delete_task_then_get_witness :
  ids_below_next buy_milk
  /\ (exists w',
        delete_task 1 buy_milk = (Return 1%positive, w')
        /\ deref w' 1%positive = stored buy_milk 1
        /\ heap w' = heap buy_milk
        /\ _storage w' = base.delete 1 (_storage buy_milk)
        /\ _next_id w' = _next_id buy_milk
        /\ forall cs : list Call,
             get_task_by_id 1 (run_calls cs w')
             = (Raise (TaskNotFoundError 1), run_calls cs w')).
Proof.
  assert (H : ids_below_next buy_milk).
  { apply run_calls_ids_below_next, init_ids_below_next. }
  split; [exact H|].
  exact (delete_task_then_get buy_milk 1 H).
Defined.

(** C10. [update_task] on an existing task with a valid new title and a
    description of more than 1000 characters raises [ValidationError], and
    the world it leaves is not the one it found: the stored task has the new
    title, trimmed, while its [updated_at] and its other fields are as
    before. The reference [get_task_by_id] returned is the one the storage
    holds, so the assignment of the title reached the stored object before
    the description was validated. *)
Theorem update_task_not_atomic (w : World) (task_id : Z) (t : Task)
    (new_title new_description now : string) :
  stored w task_id = Some t ->
  1 <= Py.len (Py.strip new_title) <= MAX_TITLE_LENGTH ->
  Py.len new_description > MAX_DESCRIPTION_LENGTH ->
  exists r w',
    get_task_by_id task_id w = (Return r, w)
    /\ _storage w !! task_id = Some r
    /\ update_task task_id (Some new_title) (Some new_description) now w
       = (Raise (ValidationError (DescriptionTooLong (Py.len new_description))),
          w')
    /\ stored w' task_id
       = Some {| id := id t; title := Py.strip new_title;
                 description := description t; completed := completed t;
                 created_at := created_at t; updated_at := updated_at t |}
    /\ (title t <> Py.strip new_title -> stored w' task_id <> stored w task_id).
Proof.
  intros Hs Hv Hd. pose proof Hs as Hs0.
  apply stored_inv in Hs as (r & Hr & Ht).
  exists r. eexists.
  split; [apply get_task_by_id_found, Hr|].
  split; [exact Hr|].
  split.
  { unfold update_task, bind. rewrite (get_task_by_id_found _ _ _ Hr).
    unfold lift. rewrite (validate_title_ok _ Hv).
    rewrite (validate_description_long _ Hd).
    unfold ret, setitem, raise. simpl. reflexivity. }
  assert (E : stored
            {| heap := alter (set_title (Py.strip new_title)) r (heap w);
               _storage := _storage w; _next_id := _next_id w |} task_id
          = Some {| id := id t; title := Py.strip new_title;
                    description := description t; completed := completed t;
                    created_at := created_at t;
                    updated_at := updated_at t |}).
  { unfold stored. simpl. rewrite Hr, lookup_alter_eq, Ht. reflexivity. }
  split; [exact E|].
  intros Hne. rewrite E, Hs0. intros [= Heq]. destruct t. simpl in *.
  congruence.
Qed.

Lemma update_task_not_atomic_witness :
  exists r w',
    get_task_by_id 1 buy_milk = (Return r, buy_milk)
    /\ _storage buy_milk !! 1 = Some r
    /\ update_task 1 (Some "  Buy oat milk ")
         (Some (Py.repeat_char "a" 1001)) "2025-01-01T10:05:00" buy_milk
       = (Raise (ValidationError
                   (DescriptionTooLong (Py.len (Py.repeat_char "a" 1001)))),
          w')
    /\ stored w' 1
       = Some {| id := 1; title := Py.strip "  Buy oat milk ";
                 description := ""; completed := false;
                 created_at := "2025-01-01T10:00:00";
                 updated_at := "2025-01-01T10:00:00" |}
    /\ ("Buy milk"%string <> Py.strip "  Buy oat milk " ->
        stored w' 1 <> stored buy_milk 1).
Proof.
  apply (update_task_not_atomic buy_milk 1
           {| id := 1; title := "Buy milk"; description := "";
              completed := false; created_at := "2025-01-01T10:00:00";
              updated_at := "2025-01-01T10:00:00" |}
           "  Buy oat milk " (Py.repeat_char "a" 1001) "2025-01-01T10:05:00").
  - vm_compute; reflexivity.
  - vm_compute. split; discriminate.
  - vm_compute. reflexivity.
Defined.

End Phase1Facts.

(** ** Phase 2 *)
Section Phase2Facts.
Import Phase2.

Lemma filter_andb {A} (f g : A -> bool) (l : list A) :
  List.filter (fun x => f x && g x) l = List.filter g (List.filter f l).
Proof.
  induction l as [|x l IH]; simpl; [reflexivity|].
  destruct (f x); simpl; [destruct (g x)|]; rewrite IH; reflexivity.
Qed.

Lemma check_length_inr (field : string) (lo : option Z) (hi : Z)
    (v s : string) :
  check_length field lo hi v = inr s <->
  s = v /\ match lo with Some n => n <= Py.len v | None => True end
  /\ Py.len v <= hi.
Proof.
  unfold check_length. destruct lo as [n|].
  - destruct (Z.ltb_spec (Py.len v) n).
    + split; [discriminate|lia].
    + destruct (Z.gtb_spec (Py.len v) hi).
      * split; [discriminate|lia].
      * split; [intros [= <-]; auto|intros (-> & _ & _); reflexivity].
  - destruct (Z.gtb_spec (Py.len v) hi).
    + split; [discriminate|lia].
    + split; [intros [= <-]; auto|intros (-> & _ & _); reflexivity].
Qed.

Lemma check_length_too_long (field : string) (lo : Z) (hi : Z) (v : string) :
  lo <= hi -> Py.len v > hi ->
  check_length field (Some lo) hi v = inl (string_too_long field).
Proof.
  intros Hlo H. unfold check_length.
  destruct (Z.ltb_spec (Py.len v) lo); [lia|].
  destruct (Z.gtb_spec (Py.len v) hi); [reflexivity|lia].
Qed.

(** What [TaskCreate] accepts: a title of 1 to 200 characters as received,
    not blank, and a description of at most 1000 characters; the title it
    holds is the trimmed one. *)
Lemma TaskCreate_validate_inr (raw_title : string)
    (raw_description : option string) (prio : option PriorityEnum)
    (due : option datetime) (tag_names : option (list string))
    (td : TaskCreate.t) :
  TaskCreate_validate raw_title raw_description prio due tag_names = inr td <->
  (1 <= Py.len raw_title <= 200
   /\ Py.strip raw_title <> ""%string
   /\ match raw_description with
      | Some d => Py.len d <= 1000
      | None => True
      end)
  /\ td = {| TaskCreate.title := Py.strip raw_title;
             TaskCreate.description :=
               match raw_description with Some d => d | None => ""%string end;
             TaskCreate.priority :=
               match prio with Some p => p | None => MEDIUM end;
             TaskCreate.due_date := due;
             TaskCreate.tags :=
               match tag_names with Some l => l | None => [] end |}.
Proof.
  unfold TaskCreate_validate.
  destruct (check_length "title" (Some 1) 200 raw_title) as [e|v] eqn:E1.
  - split; [discriminate|]. intros [(H1 & _) _].
    assert (check_length "title" (Some 1) 200 raw_title = inr raw_title)
      by (apply check_length_inr; repeat split; lia).
    congruence.
  - apply check_length_inr in E1 as (-> & Hlo & Hhi).
    unfold TaskBase_title_not_empty.
    destruct (Py.truthy (Py.strip raw_title)) eqn:E2; simpl.
    + assert (Hne : Py.strip raw_title <> ""%string)
        by (intros Heq; rewrite Heq in E2; discriminate).
      destruct raw_description as [d|].
      * destruct (check_length "description" None 1000 d) as [e|d'] eqn:E3.
        -- split; [discriminate|]. intros [(_ & _ & Hd) _].
           assert (check_length "description" None 1000 d = inr d)
             by (apply check_length_inr; repeat split; lia).
           congruence.
        -- apply check_length_inr in E3 as (-> & _ & Hd).
           split; [intros [= <-]; repeat split; auto; lia|].
           intros [_ ->]. reflexivity.
      * split; [intros [= <-]; repeat split; auto; lia|].
        intros [_ ->]. reflexivity.
    + apply truthy_false_iff in E2.
      split; [discriminate|]. intros [(_ & Hne & _) _]. contradiction.
Qed.

(** The loop over the tag names leaves the table of tasks alone. *)
Lemma link_tags_tasks (task_id user_id : Z) (names : list string)
    (rnd : list nat) (db db' : Db) :
  link_tags task_id user_id names rnd db = inr db' ->
  tasks db' = tasks db /\ tasks_seq db' = tasks_seq db.
Proof.
  revert rnd db. induction names as [|n names IH]; intros rnd db; simpl.
  - intros [= <-]. auto.
  - destruct (scalar_one_or_none (select_tag (Py.lower n) user_id db))
      as [e|found]; [discriminate|].
    destruct found as [tag|]; simpl.
    + unfold insert_task_tag.
      destruct (existsb _ _); [discriminate|].
      intros H. apply IH in H. simpl in H. exact H.
    + unfold insert_task_tag. simpl.
      destruct (existsb _ _); [discriminate|].
      intros H. apply IH in H. simpl in H. exact H.
Qed.

Lemma scalar_one_snoc {A} (l : list A) (x y : A) :
  scalar_one (l ++ [x]) = inr y -> l = [] /\ y = x.
Proof.
  destruct l as [|a [|b l]]; simpl.
  - intros [= <-]. auto.
  - discriminate.
  - destruct (l ++ [x]); discriminate.
Qed.

(** The row [create_task] returns is the one it built. *)
Lemma create_task_row (task_data : TaskCreate.t) (user_id : Z)
    (now_created now_updated : datetime) (rnd : list nat) (db db' : Db)
    (loaded : Loaded) :
  create_task task_data user_id now_created now_updated rnd db
  = inr (loaded, db') ->
  fst loaded
  = {| Task.id := tasks_seq db + 1;
       Task.title := TaskCreate.title task_data;
       Task.description := TaskCreate.description task_data;
       Task.completed := false;
       Task.priority := value (TaskCreate.priority task_data);
       Task.due_date := TaskCreate.due_date task_data;
       Task.created_at := now_created;
       Task.updated_at := now_updated;
       Task.user_id := user_id |}.
Proof.
  unfold create_task.
  set (task := {| Task.id := tasks_seq db + 1 |}).
  set (db1 := {| tasks := tasks db ++ [task] |}).
  destruct (match TaskCreate.tags task_data with
            | [] => inr db1
            | _ :: _ => _
            end) as [e|db2] eqn:E; [discriminate|].
  assert (Ht : tasks db2 = tasks db ++ [task]).
  { destruct (TaskCreate.tags task_data).
    - injection E as <-. reflexivity.
    - apply link_tags_tasks in E as [E _]. exact E. }
  unfold reload. rewrite Ht, List.filter_app. simpl.
  rewrite Z.eqb_refl.
  destruct (scalar_one _) as [e|t] eqn:Es; [discriminate|].
  apply scalar_one_snoc in Es as [_ ->].
  intros [= <- _]. reflexivity.
Qed.

(** Without tags, [create_task] succeeds on a database whose task
    identifiers come from the sequence. *)
Lemma create_task_no_tags (task_data : TaskCreate.t) (user_id : Z)
    (now_created now_updated : datetime) (rnd : list nat) (db : Db) :
  TaskCreate.tags task_data = [] ->
  Forall (fun t => Task.id t <= tasks_seq db) (tasks db) ->
  exists loaded db',
    create_task task_data user_id now_created now_updated rnd db
    = inr (loaded, db').
Proof.
  intros Htags Hids. unfold create_task. rewrite Htags.
  unfold reload. simpl. rewrite List.filter_app. simpl. rewrite Z.eqb_refl.
  assert (E : List.filter (fun t => Task.id t =? tasks_seq db + 1) (tasks db)
              = []).
  { induction Hids as [|t l Ht _ IH]; simpl; [reflexivity|].
    destruct (Z.eqb_spec (Task.id t) (tasks_seq db + 1)); [lia|exact IH]. }
  rewrite E. simpl. eauto.
Qed.

Lemma filter_replace (l : list Task.t) (i : Z) (t' : Task.t) :
  Task.id t' = i ->
  List.filter (fun t => Task.id t =? i)
    (List.map (fun r => if Task.id r =? i then t' else r) l)
  = List.map (fun _ => t') (List.filter (fun t => Task.id t =? i) l).
Proof.
  intros Hid. induction l as [|x l IH]; simpl; [reflexivity|].
  destruct (Z.eqb_spec (Task.id x) i) as [E|E]; simpl.
  - rewrite Hid, Z.eqb_refl, IH. reflexivity.
  - destruct (Z.eqb_spec (Task.id x) i); [contradiction|]. exact IH.
Qed.

Lemma truthy_of_len (s : string) : 1 <= Py.len s -> Py.truthy s = true.
Proof. destruct s; unfold Py.len; simpl; [lia|reflexivity]. Qed.

Lemma truthy_true_iff (s : string) : Py.truthy s = true <-> s <> ""%string.
Proof. destruct s; simpl; split; congruence. Qed.

(** [PATCH /tasks/{task_id}] with a valid title and nothing else, on a task
    of the default user: the row gets the trimmed title and the clock
    reading, and no table but [tasks] changes. *)
Lemma patch_task_title_only (task_id : Z) (new_title : string)
    (now : datetime) (rnd : list nat) (db : Db) (row : Task.t) :
  List.filter (fun t => Task.id t =? task_id) (tasks db) = [row] ->
  Task.user_id row = 1 ->
  1 <= Py.len new_title <= 200 ->
  Py.strip new_title <> ""%string ->
  exists db',
    patch_task task_id (title_only new_title) now rnd db
    = inr ((put_updated_at now (put_title (Py.strip new_title) row),
            load_tags task_id db), db')
    /\ tags db' = tags db /\ task_tags db' = task_tags db
    /\ load_tags task_id db' = load_tags task_id db.
Proof.
  intros Hrow Huser Hlen Hne.
  assert (Hid : Task.id row = task_id).
  { assert (Hin : In row (List.filter (fun t => Task.id t =? task_id)
                            (tasks db))) by (rewrite Hrow; left; reflexivity).
    apply filter_In in Hin as [_ Hin]. lia. }
  unfold patch_task, TaskUpdate_validate, title_only. simpl.
  assert (Hc : check_length "title" (Some 1) 200 new_title = inr new_title)
    by (apply check_length_inr; repeat split; lia).
  rewrite Hc. simpl.
  apply truthy_true_iff in Hne. rewrite Hne. simpl.
  rewrite (truthy_of_len new_title) by lia.
  unfold any_values. simpl. rewrite Hne. simpl.
  unfold update_task. rewrite filter_andb, Hrow. simpl.
  rewrite Huser. simpl.
  unfold reload. simpl. rewrite Hid.
  rewrite filter_replace by (simpl; exact Hid). rewrite Hrow. simpl.
  eexists. split; [reflexivity|]. simpl. auto.
Qed.

End Phase2Facts.

(** ** The claims that span both phases *)
Section BothPhases.

(** C3 fails in phase 2: a title of 201 characters as received, one space
    and 200 letters, is rejected though its trimmed form has 200
    characters. *)
Lemma title_limit_counts_untrimmed :
  1 <= Py.len (Py.strip (String " " (Py.repeat_char "a" 200))) <= 200
  /\ Phase2.post_task (String " " (Py.repeat_char "a" 200)) None None None None
       0 0 [] Phase2.empty_db
     = inl (Phase2.RequestValidationError (Phase2.string_too_long "title")).
Proof. vm_compute. split; [split; discriminate|reflexivity]. Qed.

(** C3, amended. In both phases a title that trims to empty, or whose trimmed
    form has more than 200 characters, is rejected with a validation error,
    and a task that is created stores the trimmed title. In phase 1
    ([add_task]) the limit of 200 is applied to the trimmed title: every
    title whose trimmed form has 1 to 200 characters is accepted. In phase 2
    ([TaskCreate]) the limits 1 and 200 are applied to the title as received,
    before trimming: a title of more than 200 characters is rejected whatever
    its trimmed form, and a title of 1 to 200 characters that is not blank is
    accepted. *)
Theorem create_task_title (raw_title : string) :
  (forall (d now : string) (w : Phase1.World),
     Py.len d <= Phase1.MAX_DESCRIPTION_LENGTH ->
     1 <= Py.len (Py.strip raw_title) <= Phase1.MAX_TITLE_LENGTH ->
     exists r w' t,
       Phase1.add_task raw_title d now w = (Phase1.Return r, w')
       /\ Phase1.deref w' r = Some t
       /\ Phase1.stored w' (Phase1.id t) = Some t
       /\ Phase1.title t = Py.strip raw_title)
  /\ (forall (d now : string) (w : Phase1.World),
        Py.strip raw_title = ""%string
        \/ Py.len (Py.strip raw_title) > Phase1.MAX_TITLE_LENGTH ->
        exists msg,
          Phase1.add_task raw_title d now w
          = (Phase1.Raise (Phase1.ValidationError msg), w))
  /\ (forall d p due tags c1 c2 rnd db,
        Py.strip raw_title = ""%string \/ Py.len (Py.strip raw_title) > 200
        \/ Py.len raw_title > 200 ->
        exists e,
          Phase2.post_task raw_title d p due tags c1 c2 rnd db
          = inl (Phase2.RequestValidationError e))
  /\ (forall d p due tags c1 c2 rnd db loaded db',
        Phase2.post_task raw_title d p due tags c1 c2 rnd db
        = inr (loaded, db') ->
        Phase2.Task.title (fst loaded) = Py.strip raw_title
        /\ 1 <= Py.len raw_title <= 200
        /\ 1 <= Py.len (Py.strip raw_title))
  /\ (forall d p due c1 c2 rnd db,
        1 <= Py.len raw_title <= 200 ->
        Py.strip raw_title <> ""%string ->
        match d with Some v => Py.len v <= 1000 | None => True end ->
        Forall (fun t => Phase2.Task.id t <= Phase2.tasks_seq db)
          (Phase2.tasks db) ->
        exists loaded db',
          Phase2.post_task raw_title d p due None c1 c2 rnd db
          = inr (loaded, db')
          /\ Phase2.Task.title (fst loaded) = Py.strip raw_title).
Proof.
  split; [|split; [|split; [|split]]].
  - intros d now w Hd Ht.
    destruct (add_task_ok raw_title d now w Ht Hd) as (r & w' & H1 & H2 & H3).
    exists r, w'. eexists. split; [exact H1|]. split; [exact H2|].
    simpl. rewrite H3. auto.
  - intros d now w H. apply add_task_invalid_title. exact H.
  - intros d p due tags c1 c2 rnd db H. unfold Phase2.post_task.
    destruct (Phase2.TaskCreate_validate raw_title d p due tags)
      as [e|td] eqn:E; [eauto|].
    apply TaskCreate_validate_inr in E as [(Hlen & Hne & _) _].
    pose proof (strip_len_le raw_title).
    destruct H as [H|[H|H]]; [contradiction|lia|lia].
  - intros d p due tags c1 c2 rnd db loaded db'. unfold Phase2.post_task.
    destruct (Phase2.TaskCreate_validate raw_title d p due tags)
      as [e|td] eqn:E; [discriminate|].
    apply TaskCreate_validate_inr in E as [(Hlen & Hne & _) ->].
    destruct (Phase2.create_task _ _ _ _ _ _) as [e|[l d']] eqn:Ec;
      [discriminate|].
    intros [= <- <-]. apply create_task_row in Ec. rewrite Ec. simpl.
    split; [reflexivity|]. split; [exact Hlen|].
    pose proof (len_nonneg (Py.strip raw_title)).
    pose proof (len_zero_iff (Py.strip raw_title)) as [Hz _].
    destruct (Z.eq_dec (Py.len (Py.strip raw_title)) 0) as [H0|H0];
      [apply Hz in H0; contradiction|lia].
  - intros d p due c1 c2 rnd db Hlen Hne Hd Hids. unfold Phase2.post_task.
    destruct (Phase2.TaskCreate_validate raw_title d p due None)
      as [e|td] eqn:E.
    + assert (Hok : Phase2.TaskCreate_validate raw_title d p due None
                    = inr {| Phase2.TaskCreate.title := Py.strip raw_title;
                             Phase2.TaskCreate.description :=
                               match d with Some v => v | None => ""%string end;
                             Phase2.TaskCreate.priority :=
                               match p with
                               | Some q => q
                               | None => Phase2.MEDIUM
                               end;
                             Phase2.TaskCreate.due_date := due;
                             Phase2.TaskCreate.tags := [] |})
        by (apply TaskCreate_validate_inr; auto).
      congruence.
    + apply TaskCreate_validate_inr in E as [_ ->].
      destruct (create_task_no_tags
                  {| Phase2.TaskCreate.title := Py.strip raw_title;
                     Phase2.TaskCreate.description :=
                       match d with Some v => v | None => ""%string end;
                     Phase2.TaskCreate.priority :=
                       match p with
                       | Some q => q
                       | None => Phase2.MEDIUM
                       end;
                     Phase2.TaskCreate.due_date := due;
                     Phase2.TaskCreate.tags := [] |}
                  1 c1 c2 rnd db eq_refl Hids) as (loaded & db' & Hc).
      rewrite Hc. exists loaded, db'. split; [reflexivity|].
      apply create_task_row in Hc. rewrite Hc. reflexivity.
Qed.

Lemma create_task_title_witness :
  (exists r w' t,
     Phase1.add_task "  Spaced Title  " "" "2025-01-01T10:00:00" Phase1.init
     = (Phase1.Return r, w')
     /\ Phase1.deref w' r = Some t
     /\ Phase1.stored w' (Phase1.id t) = Some t
     /\ Phase1.title t = "Spaced Title"%string)
  /\ (exists loaded db',
        Phase2.post_task "  Spaced Title  " None None None None 5 6 []
          Phase2.empty_db
        = inr (loaded, db')
        /\ Phase2.Task.title (fst loaded) = "Spaced Title"%string).
Proof.
  split.
  - apply (proj1 (create_task_title "  Spaced Title  ")
             "" "2025-01-01T10:00:00" Phase1.init).
    + vm_compute. discriminate.
    + vm_compute. split; discriminate.
  - apply (proj2 (proj2 (proj2 (proj2 (create_task_title "  Spaced Title  "))))
             None None None 5 6 [] Phase2.empty_db).
    + vm_compute. split; discriminate.
    + vm_compute. discriminate.
    + exact I.
    + constructor.
Defined.

(** C4 fails in phase 2: the two timestamps of a new task are two readings
    of the clock, and with the readings 0 and 1 the task is created with
    [created_at = 0] and [updated_at = 1]. *)
Lemma created_at_differs_from_updated_at :
  exists row tags db',
    Phase2.post_task "Buy milk" None None None None 0 1 [] Phase2.empty_db
    = inr ((row, tags), db')
    /\ Phase2.Task.created_at row <> Phase2.Task.updated_at row.
Proof.
  eexists. eexists. eexists. split; [vm_compute; reflexivity|].
  simpl. discriminate.
Qed.

(** C4, amended. In phase 1 a successful [add_task] reads the clock once and
    the task it returns has [created_at] equal to [updated_at], both that
    reading. In phase 2 a successful create reads the clock once for each of
    the two columns: [created_at] is the first reading and [updated_at] the
    second, so the two are equal exactly when the two readings are. *)
Theorem create_timestamps :
  (forall raw_title d now w r w',
     Phase1.add_task raw_title d now w = (Phase1.Return r, w') ->
     exists t,
       Phase1.deref w' r = Some t
       /\ Phase1.created_at t = now /\ Phase1.updated_at t = now
       /\ Phase1.created_at t = Phase1.updated_at t)
  /\ (forall raw_title d p due tags now_created now_updated rnd db loaded db',
        Phase2.post_task raw_title d p due tags now_created now_updated rnd db
        = inr (loaded, db') ->
        Phase2.Task.created_at (fst loaded) = now_created
        /\ Phase2.Task.updated_at (fst loaded) = now_updated
        /\ (Phase2.Task.created_at (fst loaded)
            = Phase2.Task.updated_at (fst loaded)
            <-> now_created = now_updated)).
Proof.
  split.
  - intros raw_title d now w r w' H.
    apply add_task_inv in H as (_ & _ & H).
    eexists. split; [exact H|]. simpl. auto.
  - intros raw_title d p due tags c1 c2 rnd db loaded db'.
    unfold Phase2.post_task.
    destruct (Phase2.TaskCreate_validate raw_title d p due tags)
      as [e|td]; [discriminate|].
    destruct (Phase2.create_task _ _ _ _ _ _) as [e|[l d']] eqn:Ec;
      [discriminate|].
    intros [= <- <-]. apply create_task_row in Ec. rewrite Ec. simpl.
    split; [reflexivity|]. split; [reflexivity|]. reflexivity.
Qed.

Lemma create_timestamps_witness :
  (exists t,
     Phase1.deref Phase1.buy_milk 1%positive = Some t
     /\ Phase1.created_at t = "2025-01-01T10:00:00"%string
     /\ Phase1.updated_at t = "2025-01-01T10:00:00"%string
     /\ Phase1.created_at t = Phase1.updated_at t)
  /\ Phase2.post_task "Buy milk" None None None None 7 7 [] Phase2.empty_db
     = inr ((Phase2.buy_milk_row 7 7, []), Phase2.buy_milk_db 7 7)
  /\ Phase2.Task.created_at (Phase2.buy_milk_row 7 7) = 7
  /\ Phase2.Task.updated_at (Phase2.buy_milk_row 7 7) = 7
  /\ (Phase2.Task.created_at (Phase2.buy_milk_row 7 7)
      = Phase2.Task.updated_at (Phase2.buy_milk_row 7 7) <-> 7 = 7).
Proof.
  split.
  - apply (proj1 create_timestamps "Buy milk" "" "2025-01-01T10:00:00"
             Phase1.init 1%positive Phase1.buy_milk).
    vm_compute. reflexivity.
  - assert (H : Phase2.post_task "Buy milk" None None None None 7 7 []
                  Phase2.empty_db
                = inr ((Phase2.buy_milk_row 7 7, []), Phase2.buy_milk_db 7 7))
      by (vm_compute; reflexivity).
    split; [exact H|].
    exact (proj2 create_timestamps "Buy milk" None None None None 7 7 []
             Phase2.empty_db (Phase2.buy_milk_row 7 7, [])
             (Phase2.buy_milk_db 7 7) H).
Defined.

(** C6 fails as stated: in phase 1, [update_task(1, title="  X  ")] at a
    clock reading equal to the task's [updated_at] succeeds; the title stored
    is ["X"], not the value supplied, and [updated_at] is not later than it
    was. *)
Lemma update_title_stores_trimmed :
  Phase1.stored Phase1.buy_milk 1
  = Some {| Phase1.id := 1; Phase1.title := "Buy milk";
            Phase1.description := ""; Phase1.completed := false;
            Phase1.created_at := "2025-01-01T10:00:00";
            Phase1.updated_at := "2025-01-01T10:00:00" |}
  /\ exists r w' t',
       Phase1.update_task 1 (Some "  X  "%string) None "2025-01-01T10:00:00"
         Phase1.buy_milk = (Phase1.Return r, w')
       /\ Phase1.stored w' 1 = Some t'
       /\ Phase1.title t' <> "  X  "%string
       /\ String.ltb "2025-01-01T10:00:00" (Phase1.updated_at t') = false.
Proof.
  split; [vm_compute; reflexivity|].
  eexists. eexists. eexists.
  split; [vm_compute; reflexivity|].
  split; [vm_compute; reflexivity|].
  split; [simpl; discriminate|vm_compute; reflexivity].
Qed.

(** C6, amended. A successful [update_task] that supplies only the title
    changes only the title and the updated timestamp of the task: the stored
    title is the supplied value trimmed, [updated_at] is the clock reading of
    the call, and the identifier, description, completed flag, created
    timestamp (and in phase 2 the priority, due date, owner and tags) are as
    before. [updated_at] is later than its previous value exactly when the
    clock reading is later than that value. *)
Theorem update_title_frame :
  (forall (w : Phase1.World) (task_id : Z) (t : Phase1.Task)
          (new_title now : string),
     Phase1.stored w task_id = Some t ->
     1 <= Py.len (Py.strip new_title) <= Phase1.MAX_TITLE_LENGTH ->
     exists r w' t',
       Phase1.update_task task_id (Some new_title) None now w
       = (Phase1.Return r, w')
       /\ Phase1.stored w' task_id = Some t'
       /\ Phase1.deref w' r = Some t'
       /\ Phase1.title t' = Py.strip new_title
       /\ Phase1.updated_at t' = now
       /\ Phase1.id t' = Phase1.id t
       /\ Phase1.description t' = Phase1.description t
       /\ Phase1.completed t' = Phase1.completed t
       /\ Phase1.created_at t' = Phase1.created_at t
       /\ (String.ltb (Phase1.updated_at t) (Phase1.updated_at t') = true
           <-> String.ltb (Phase1.updated_at t) now = true))
  /\ (forall (task_id : Z) (new_title : string) (now : Phase2.datetime)
             (rnd : list nat) (db : Phase2.Db) (row : Phase2.Task.t),
        List.filter (fun t => Phase2.Task.id t =? task_id) (Phase2.tasks db)
        = [row] ->
        Phase2.Task.user_id row = 1 ->
        1 <= Py.len new_title <= 200 ->
        Py.strip new_title <> ""%string ->
        exists row' db',
          Phase2.patch_task task_id (Phase2.title_only new_title) now rnd db
          = inr ((row', Phase2.load_tags task_id db), db')
          /\ Phase2.load_tags task_id db' = Phase2.load_tags task_id db
          /\ Phase2.Task.title row' = Py.strip new_title
          /\ Phase2.Task.updated_at row' = now
          /\ Phase2.Task.id row' = Phase2.Task.id row
          /\ Phase2.Task.description row' = Phase2.Task.description row
          /\ Phase2.Task.completed row' = Phase2.Task.completed row
          /\ Phase2.Task.priority row' = Phase2.Task.priority row
          /\ Phase2.Task.due_date row' = Phase2.Task.due_date row
          /\ Phase2.Task.created_at row' = Phase2.Task.created_at row
          /\ Phase2.Task.user_id row' = Phase2.Task.user_id row
          /\ (Phase2.Task.updated_at row < Phase2.Task.updated_at row'
              <-> Phase2.Task.updated_at row < now)).
Proof.
  split.
  - intros w task_id t new_title now Hs Hv.
    destruct (update_task_title_only w task_id t new_title now Hs Hv)
      as (r & w' & H1 & H2 & H3).
    exists r, w'. eexists. split; [exact H1|].
    split; [rewrite H2; exact H3|]. split; [exact H3|].
    simpl. repeat split; auto.
  - intros task_id new_title now rnd db row Hrow Huser Hlen Hne.
    destruct (patch_task_title_only task_id new_title now rnd db row
                Hrow Huser Hlen Hne) as (db' & H1 & _ & _ & H2).
    eexists. exists db'. split; [exact H1|]. split; [exact H2|].
    simpl. repeat split; auto.
Qed.

Lemma update_title_frame_witness :
  (exists r w' t',
     Phase1.update_task 1 (Some "  X  "%string) None "2025-01-01T10:05:00"
       Phase1.buy_milk = (Phase1.Return r, w')
     /\ Phase1.stored w' 1 = Some t'
     /\ Phase1.deref w' r = Some t'
     /\ Phase1.title t' = "X"%string
     /\ Phase1.updated_at t' = "2025-01-01T10:05:00"%string
     /\ Phase1.id t' = 1
     /\ Phase1.description t' = ""%string
     /\ Phase1.completed t' = false
     /\ Phase1.created_at t' = "2025-01-01T10:00:00"%string
     /\ (String.ltb "2025-01-01T10:00:00" (Phase1.updated_at t') = true
         <-> String.ltb "2025-01-01T10:00:00" "2025-01-01T10:05:00" = true))
  /\ (exists row' db',
        Phase2.patch_task 2 (Phase2.title_only "  X  ") 50 []
          Phase2.three_priorities
        = inr ((row', Phase2.load_tags 2 Phase2.three_priorities), db')
        /\ Phase2.load_tags 2 db' = Phase2.load_tags 2 Phase2.three_priorities
        /\ Phase2.Task.title row' = "X"%string
        /\ Phase2.Task.updated_at row' = 50
        /\ Phase2.Task.id row' = 2
        /\ Phase2.Task.description row' = ""%string
        /\ Phase2.Task.completed row' = false
        /\ Phase2.Task.priority row' = "medium"%string
        /\ Phase2.Task.due_date row' = None
        /\ Phase2.Task.created_at row' = 20
        /\ Phase2.Task.user_id row' = 1
        /\ (20 < Phase2.Task.updated_at row' <-> 20 < 50)).
Proof.
  split.
  - apply (proj1 update_title_frame Phase1.buy_milk 1
             {| Phase1.id := 1; Phase1.title := "Buy milk";
                Phase1.description := ""; Phase1.completed := false;
                Phase1.created_at := "2025-01-01T10:00:00";
                Phase1.updated_at := "2025-01-01T10:00:00" |}
             "  X  "%string "2025-01-01T10:05:00"%string).
    + vm_compute. reflexivity.
    + vm_compute. split; discriminate.
  - apply (proj2 update_title_frame 2 "  X  "%string 50 []
             Phase2.three_priorities
             {| Phase2.Task.id := 2; Phase2.Task.title := "Water plants";
                Phase2.Task.description := ""; Phase2.Task.completed := false;
                Phase2.Task.priority := "medium";
                Phase2.Task.due_date := None; Phase2.Task.created_at := 20;
                Phase2.Task.updated_at := 20; Phase2.Task.user_id := 1 |}).
    + vm_compute. reflexivity.
    + reflexivity.
    + vm_compute. split; discriminate.
    + vm_compute. discriminate.
Defined.

End BothPhases.

(** ** The claims on the phase 2 endpoints *)
Section Phase2Claims.
Import Phase2.

(** The check of [PATCH /tasks/{task_id}] looks at the truth of the values,
    not at which fields are set. *)
Lemma patch_task_check (task_id : Z) (body task_data : TaskUpdate.t)
    (now : datetime) (rnd : list nat) (db : Db) :
  TaskUpdate_validate body = inr task_data ->
  (patch_task task_id body now rnd db = inl AtLeastOneField
   <-> any_values task_data = false).
Proof.
  intros Hv. unfold patch_task. rewrite Hv.
  destruct (any_values task_data); simpl.
  - split; [|discriminate].
    destruct (update_task _ _ _ _ _ _) as [e|[[t|] d]]; discriminate.
  - split; reflexivity.
Qed.

(** C2 does not hold of the endpoint. [PATCH /tasks/{task_id}] with the body
    [{"completed": false}], and with the body [{"description": ""}], is
    answered 422 "At least one field must be provided", for every task and
    database, though the body sets a field. *)
Theorem patch_falsy_field_rejected (task_id : Z) (now : datetime)
    (rnd : list nat) (db : Db) :
  fields_set (completed_only false) = true
  /\ patch_task task_id (completed_only false) now rnd db = inl AtLeastOneField
  /\ fields_set (description_only "") = true
  /\ patch_task task_id (description_only "") now rnd db = inl AtLeastOneField.
Proof. repeat split. Qed.

(** A field whose value is truthy passes the check: [{"completed": true}]. *)
Lemma patch_completed_true_passes (task_id : Z) (now : datetime)
    (rnd : list nat) (db : Db) :
  patch_task task_id (completed_only true) now rnd db <> inl AtLeastOneField.
Proof.
  unfold patch_task. simpl.
  destruct (update_task _ _ _ _ _ _) as [e|[[t|] d]]; discriminate.
Qed.

(** [order_by "priority_desc"] compares the strings: "medium" and "low" come
    before "high". *)
Lemma priority_desc_compares_strings (a b : Task.t) :
  Task.priority a = value HIGH ->
  Task.priority b = value MEDIUM \/ Task.priority b = value LOW ->
  order_by "priority_desc" a b = false /\ order_by "priority_desc" b a = true.
Proof.
  intros Ha [Hb|Hb]; unfold order_by; simpl; rewrite Ha, Hb; split;
    reflexivity.
Qed.

(** C1 does not hold of [list_tasks]. With three tasks of priority high,
    medium and low, [sort_by="priority_desc"] returns them in the order
    medium, low, high, the descending order of the three strings. *)
Theorem priority_desc_order :
  let '(rows, total) :=
    list_tasks 1 "all" None None "priority_desc" 100 0 three_priorities in
  List.map Task.priority rows = ["medium"; "low"; "high"]%string
  /\ List.map Task.id rows = [2; 3; 1]
  /\ total = 3.
Proof. vm_compute. repeat split. Qed.

(** Names that differ in case only resolve to one tag: a second task tagged
    ["Work"] is linked to the tag "work" of the first. *)
Example tag_lookup_ignores_case :
  exists l1 db1 l2 db2,
    post_task "Plan week" None None None (Some ["work"]%string)
      0 0 [0%nat] empty_db = inr (l1, db1)
    /\ post_task "Book room" None None None (Some ["Work"]%string)
         1 1 [1%nat] db1 = inr (l2, db2)
    /\ List.map Tag.id (snd l1) = [1] /\ List.map Tag.id (snd l2) = [1]
    /\ List.map Tag.name (tags db2) = ["work"]%string.
Proof.
  eexists. eexists. eexists. eexists.
  split; [vm_compute; reflexivity|].
  split; [vm_compute; reflexivity|].
  repeat split.
Qed.

(** C5 does not hold of task creation. Creating a task with the tags ["work"] and
    [" work"], which have the same trimmed, lower-cased form, gives two tag
    records, named "work" and " work"; the tag endpoint resolves " work"
    to the record "work". *)
Theorem task_tag_names_not_trimmed :
  Py.lower (Py.strip " work") = Py.lower (Py.strip "work")
  /\ exists loaded db' tag db'',
       post_task "Plan week" None None None (Some ["work"; " work"]%string)
         0 0 [0; 1]%nat empty_db = inr (loaded, db')
       /\ List.map Tag.name (tags db') = ["work"; " work"]%string
       /\ List.map Tag.id (snd loaded) = [1; 2]
       /\ post_tag " work" None [2%nat] db' = inr (tag, db'')
       /\ Tag.id tag = 1 /\ Tag.name tag = "work"%string /\ db'' = db'.
Proof.
  split; [reflexivity|].
  eexists. eexists. eexists. eexists.
  split; [vm_compute; reflexivity|].
  split; [reflexivity|]. split; [reflexivity|].
  split; [vm_compute; reflexivity|].
  repeat split.
Qed.

Lemma insert_sorted_perm (le : Task.t -> Task.t -> bool) (x : Task.t)
    (l : list Task.t) :
  Permutation (insert_sorted le x l) (x :: l).
Proof.
  induction l as [|y l IH]; simpl; [reflexivity|].
  destruct (le x y); [reflexivity|].
  rewrite IH. apply perm_swap.
Qed.

(** Sorting rearranges the rows of the query and nothing else. *)
Lemma sorted_rows_perm (le : Task.t -> Task.t -> bool) (l : list Task.t) :
  Permutation (sorted_rows le l) l.
Proof.
  induction l as [|x l IH]; simpl; [reflexivity|].
  rewrite insert_sorted_perm. constructor. exact IH.
Qed.

Lemma paginate_next (limit offset : Z) (l : list Task.t) :
  0 <= limit -> 0 <= offset ->
  paginate limit offset l ++ paginate limit (offset + limit) l
  = paginate (2 * limit) offset l.
Proof.
  intros Hl Ho. unfold paginate.
  replace (Z.to_nat (offset + limit))
    with (Z.to_nat offset + Z.to_nat limit)%nat by lia.
  replace (Z.to_nat (2 * limit))
    with (Z.to_nat limit + Z.to_nat limit)%nat by lia.
  rewrite <- drop_drop. apply take_take_drop.
Qed.

Lemma existsb_eqb_In (s : string) (l : list string) :
  existsb (String.eqb s) l = true <-> In s l.
Proof.
  rewrite existsb_exists. split.
  - intros (x & Hin & Heq). apply String.eqb_eq in Heq. subst. exact Hin.
  - intros Hin. exists s. split; [exact Hin|apply String.eqb_refl].
Qed.

(** [GET /tasks] answers exactly the requests whose parameters are in
    range, and then with the page and the total of [list_tasks]. *)
Lemma get_tasks_inr (status : option string) (priority : option PriorityEnum)
    (tag : option (list string)) (sort : option string)
    (limit offset : option Z) (db : Db) (page : TaskPage) :
  let st := match status with Some s => s | None => "all"%string end in
  let so := match sort with Some s => s | None => "created_desc"%string end in
  let l := match limit with Some n => n | None => 100 end in
  let o := match offset with Some n => n | None => 0 end in
  get_tasks status priority tag sort limit offset db = inr page <->
  In st ["all"; "active"; "completed"]%string
  /\ In so ["created_desc"; "created_asc"; "priority_desc"; "due_asc";
            "title_asc"]%string
  /\ 1 <= l <= 1000 /\ 0 <= o
  /\ page = {| page_tasks := fst (list_tasks 1 st priority tag so l o db);
               total := snd (list_tasks 1 st priority tag so l o db);
               page_limit := l; page_offset := o |}.
Proof.
  intros st so l o. unfold get_tasks. fold st so l o.
  destruct (existsb (String.eqb st) _) eqn:E1; cbn [negb andb].
  2:{ split; [discriminate|]. intros (H & _).
      apply existsb_eqb_In in H. congruence. }
  destruct (existsb (String.eqb so) _) eqn:E2; cbn [negb andb].
  2:{ split; [discriminate|]. intros (_ & H & _).
      apply existsb_eqb_In in H. congruence. }
  apply existsb_eqb_In in E1, E2.
  destruct (Z.leb_spec 1 l) as [Hl1|Hl1]; cbn [negb andb].
  2:{ split; [discriminate|]. intros (_ & _ & Hr & _). lia. }
  destruct (Z.leb_spec l 1000) as [Hl2|Hl2]; cbn [negb andb].
  2:{ split; [discriminate|]. intros (_ & _ & Hr & _). lia. }
  destruct (Z.leb_spec 0 o) as [Ho|Ho]; cbn [negb andb].
  2:{ split; [discriminate|]. intros (_ & _ & _ & Hr & _). lia. }
  destruct (list_tasks 1 st priority tag so l o db) as [rows n]. cbn [fst snd].
  split.
  - intros [= <-]. repeat split; auto.
  - intros (_ & _ & _ & _ & ->). reflexivity.
Qed.

(** C9. [GET /tasks] answers a request exactly when [status] and [sort] are
    among their values, [limit] (100 when left out) is in 1..1000 and
    [offset] (0 when left out) is not negative. The total it reports is the
    number of tasks that match the filters, whatever the limit and the
    offset; the tasks of the page are the [limit] rows that follow the first
    [offset] rows of the sorted matching tasks. The page that follows
    (offset + limit) reports the same total and continues the sequence where
    this one ends; with four matching tasks, limit 2 and offset 0 give the
    first two and limit 2 and offset 2 the last two, both with total 4. *)
Theorem get_tasks_pagination (status : option string)
    (priority : option PriorityEnum) (tag : option (list string))
    (sort : option string) (limit offset : option Z) (db : Db) :
  let st := match status with Some s => s | None => "all"%string end in
  let so := match sort with Some s => s | None => "created_desc"%string end in
  let l := match limit with Some n => n | None => 100 end in
  let o := match offset with Some n => n | None => 0 end in
  let matching := filtered 1 st priority tag db in
  let all := sorted_rows (order_by so) matching in
  ((exists page,
      get_tasks status priority tag sort limit offset db = inr page)
   <-> In st ["all"; "active"; "completed"]%string
       /\ In so ["created_desc"; "created_asc"; "priority_desc"; "due_asc";
                 "title_asc"]%string
       /\ 1 <= l <= 1000 /\ 0 <= o)
  /\ forall page,
       get_tasks status priority tag sort limit offset db = inr page ->
       1 <= l <= 1000 /\ 0 <= o
       /\ page_limit page = l /\ page_offset page = o
       /\ total page = Z.of_nat (length matching)
       /\ Permutation all matching
       /\ page_tasks page = firstn (Z.to_nat l) (skipn (Z.to_nat o) all)
       /\ exists next,
            get_tasks status priority tag sort (Some l) (Some (o + l)) db
            = inr next
            /\ total next = total page
            /\ page_tasks next
               = firstn (Z.to_nat l) (skipn (Z.to_nat (o + l)) all)
            /\ page_tasks page ++ page_tasks next
               = firstn (Z.to_nat (2 * l)) (skipn (Z.to_nat o) all)
            /\ forall a b c d,
                 all = [a; b; c; d] -> l = 2 -> o = 0 ->
                 page_tasks page = [a; b] /\ page_tasks next = [c; d]
                 /\ total page = 4 /\ total next = 4.
Proof.
  intros st so l o matching all.
  pose proof (get_tasks_inr status priority tag sort limit offset db) as Hinr.
  cbv zeta in Hinr. fold st so l o in Hinr.
  split.
  - split.
    + intros [page Hp]. apply Hinr in Hp as (H1 & H2 & H3 & H4 & _). auto.
    + intros (H1 & H2 & H3 & H4). eexists. apply Hinr.
      repeat split; try eassumption; lia.
  - intros page Hp. apply Hinr in Hp as (H1 & H2 & H3 & H4 & ->).
    unfold list_tasks. cbn [fst snd page_tasks total page_limit page_offset].
    fold matching. fold all.
    assert (Hlen : length all = length matching)
      by (apply Permutation_length, sorted_rows_perm).
    split; [exact H3|]. split; [exact H4|].
    split; [reflexivity|]. split; [reflexivity|]. split; [reflexivity|].
    split; [apply sorted_rows_perm|]. split; [reflexivity|].
    eexists. split.
    { apply (get_tasks_inr status priority tag sort (Some l) (Some (o + l)) db).
      fold st so. repeat split; try eassumption; lia. }
    unfold list_tasks. cbn [fst snd page_tasks total page_limit page_offset].
    fold matching. fold all.
    split; [reflexivity|]. split; [reflexivity|].
    split.
    { apply (paginate_next l o all); lia. }
    intros a b c d Hall Hl Ho. unfold paginate.
    rewrite <- Hlen, Hall, Hl, Ho. repeat split.
Qed.

Lemma get_tasks_pagination_witness :
  exists page next,
    get_tasks None None None None (Some 2) (Some 0) four_tasks = inr page
    /\ get_tasks None None None None (Some 2) (Some 2) four_tasks = inr next
    /\ List.map Task.id (page_tasks page) = [4; 3]
    /\ List.map Task.id (page_tasks next) = [2; 1]
    /\ total page = 4 /\ total next = 4.
Proof.
  destruct (get_tasks None None None None (Some 2) (Some 0) four_tasks)
    as [e|page] eqn:E; [vm_compute in E; discriminate|].
  destruct (proj2 (get_tasks_pagination None None None None (Some 2) (Some 0)
                     four_tasks) page E)
    as (_ & _ & _ & _ & _ & _ & _ & next & Hn & _ & _ & _ & Hex).
  exists page, next. split; [reflexivity|]. split; [exact Hn|].
  match type of Hex with
  | forall a b c d, ?all = _ -> _ =>
      let v := eval vm_compute in all in
      match v with
      | [?a; ?b; ?c; ?d] =>
          destruct (Hex a b c d ltac:(vm_compute; reflexivity) eq_refl eq_refl)
            as (Hp1 & Hp2 & Ht1 & Ht2)
      end
  end.
  rewrite Hp1, Hp2. auto.
Defined.

End Phase2Claims.

(** ** Phase 1: the repository under the service *)
Section Phase1Invariants.
Import Phase1.

Lemma touches_only_refl (r : ref) (h : gmap ref Task) : touches_only r h h.
Proof. split; [auto|]. destruct (h !! r); auto. Qed.

Lemma touches_only_alter (r : ref) (f : Task -> Task) (h h' : gmap ref Task) :
  (forall t, id (f t) = id t) ->
  touches_only r h h' -> touches_only r h (alter f r h').
Proof.
  intros Hf [H1 H2]. split.
  - intros r' Hne. rewrite lookup_alter_ne by auto. auto.
  - rewrite lookup_alter_eq.
    destruct (h !! r) as [t|], (h' !! r) as [t'|]; simpl; auto.
    rewrite Hf. exact H2.
Qed.

Lemma mutates_one_found (task_id : Z) (w : World) (r : ref)
    (h' : gmap ref Task) :
  _storage w !! task_id = Some r ->
  touches_only r (heap w) h' ->
  mutates_one task_id w
    {| heap := h'; _storage := _storage w; _next_id := _next_id w |}.
Proof. intros Hr Ht. right. exists r, h'. auto. Qed.

Lemma mutates_one_stored (task_id : Z) (w : World) (r : ref)
    (h' : gmap ref Task) :
  _storage w !! task_id = Some r ->
  touches_only r (heap w) h' ->
  mutates_one task_id w
    {| heap := h'; _storage := <[task_id := r]> (_storage w);
       _next_id := _next_id w |}.
Proof.
  intros Hr Ht. rewrite (insert_id _ _ _ Hr).
  apply (mutates_one_found task_id w r); auto.
Qed.

Ltac touch :=
  repeat first
    [ apply touches_only_refl
    | apply touches_only_alter; [intros []; reflexivity|] ].

Lemma update_task_mutates_one (task_id : Z) (new_title new_description
    : option string) (now : string) (w : World) :
  mutates_one task_id w
    (snd (update_task task_id new_title new_description now w)).
Proof.
  assert (Hgo : mutates_one task_id w
    (snd ((task <~ get_task_by_id task_id ;;
           match new_title with
           | Some v =>
               t' <~ lift (_validate_title v) ;; setitem task (set_title t')
           | None => ret tt
           end ;;;
           match new_description with
           | Some v =>
               d' <~ lift (_validate_description v) ;;
               setitem task (set_description d')
           | None => ret tt
           end ;;;
           setitem task (set_updated_at now) ;;;
           update task_id task) w))).
  { unfold bind at 1.
    destruct (_storage w !! task_id) as [r|] eqn:Hr.
    - rewrite (get_task_by_id_found _ _ _ Hr).
      destruct new_title as [v|]; destruct new_description as [v'|];
        unfold bind, lift, ret, raise, setitem, update, storage_set;
        repeat match goal with
          | |- context [_validate_title ?x] => destruct (_validate_title x)
          | |- context [_validate_description ?x] =>
              destruct (_validate_description x)
          end; simpl;
        first [ left; reflexivity
              | apply (mutates_one_stored task_id w r); [exact Hr|touch]
              | apply (mutates_one_found task_id w r); [exact Hr|touch] ].
    - rewrite (get_task_by_id_absent _ _ Hr). left. reflexivity. }
  unfold update_task.
  destruct new_title as [v|], new_description as [v'|];
    [exact Hgo | exact Hgo | exact Hgo | left; reflexivity].
Qed.

Lemma set_completed_mutates_one (task_id : Z) (b : bool) (now : string)
    (w : World) :
  mutates_one task_id w
    (snd ((task <~ get_task_by_id task_id ;;
           setitem task (set_completed b) ;;;
           setitem task (set_updated_at now) ;;;
           update task_id task) w)).
Proof.
  unfold bind at 1.
  destruct (_storage w !! task_id) as [r|] eqn:Hr.
  - rewrite (get_task_by_id_found _ _ _ Hr).
    unfold bind, setitem, update, storage_set, ret. simpl.
    apply (mutates_one_stored task_id w r); [exact Hr|touch].
  - rewrite (get_task_by_id_absent _ _ Hr). left. reflexivity.
Qed.

(** What [add_task] does to the world: nothing when it raises; otherwise one
    new object, stored under the identifier [_next_id] had, and [_next_id]
    one higher. *)
Lemma add_task_world (raw_title raw_description now : string) (w : World) :
  (exists e, add_task raw_title raw_description now w = (Raise e, w))
  \/ exists t,
       id t = _next_id w
       /\ add_task raw_title raw_description now w
          = (Return (fresh (dom (heap w))),
             {| heap := <[fresh (dom (heap w)) := t]> (heap w);
                _storage :=
                  <[_next_id w := fresh (dom (heap w))]> (_storage w);
                _next_id := _next_id w + 1 |}).
Proof.
  unfold add_task, bind, lift.
  destruct (_validate_title raw_title) as [e|vt]; [left; eauto|].
  destruct (_validate_description raw_description) as [e|vd]; [left; eauto|].
  right. unfold ret, generate_id, new_dict, create. simpl.
  rewrite lookup_insert_eq. simpl. eexists. split; [|reflexivity].
  reflexivity.
Qed.

Lemma delete_task_world (task_id : Z) (w : World) :
  snd (delete_task task_id w) = w
  \/ snd (delete_task task_id w)
     = {| heap := heap w; _storage := base.delete task_id (_storage w);
          _next_id := _next_id w |}.
Proof.
  destruct (_storage w !! task_id) as [r|] eqn:Hr.
  - right. unfold delete_task, bind.
    rewrite (get_task_by_id_found _ _ _ Hr).
    unfold delete, ret. rewrite Hr. reflexivity.
  - left. unfold delete_task, bind.
    rewrite (get_task_by_id_absent _ _ Hr). reflexivity.
Qed.

Lemma get_task_by_id_world (task_id : Z) (w : World) :
  snd (get_task_by_id task_id w) = w.
Proof.
  unfold get_task_by_id, bind, find_by_id.
  destruct (_storage w !! task_id); reflexivity.
Qed.

Lemma mutates_one_consistent (task_id : Z) (w w' : World) :
  mutates_one task_id w w' -> consistent w -> consistent w'.
Proof.
  intros [->|(r & h' & Hr & [Hother Hsame] & ->)] [Hobj Hids]; [split; auto|].
  split; [|exact Hids]. simpl. intros k r0 Hk.
  destruct (Hobj _ _ Hk) as (t & Ht & Hid).
  destruct (decide (r0 = r)) as [->|Hne].
  - rewrite Ht in Hsame. destruct (h' !! r) as [t'|]; [|contradiction].
    exists t'. split; [reflexivity|congruence].
  - exists t. rewrite Hother by exact Hne. auto.
Qed.

Lemma mutates_one_frame (task_id k : Z) (w w' : World) :
  mutates_one task_id w w' -> consistent w -> k <> task_id ->
  stored w' k = stored w k.
Proof.
  intros [->|(r & h' & Hr & [Hother Hsame] & ->)] [Hobj Hids] Hne;
    [reflexivity|].
  unfold stored. simpl. destruct (_storage w !! k) as [r0|] eqn:Hk; [|auto].
  apply Hother. intros ->.
  destruct (Hobj _ _ Hk) as (t & Ht & Hid).
  destruct (Hobj _ _ Hr) as (t' & Ht' & Hid'). congruence.
Qed.

Lemma add_task_consistent (raw_title raw_description now : string)
    (w : World) :
  consistent w -> consistent (snd (add_task raw_title raw_description now w)).
Proof.
  intros [Hobj Hids].
  destruct (add_task_world raw_title raw_description now w)
    as [[e ->]|(t & Hid & ->)]; [split; auto|].
  simpl. split.
  - simpl. intros k r Hk.
    destruct (decide (_next_id w = k)) as [<-|Hne].
    + rewrite lookup_insert_eq in Hk. injection Hk as <-.
      exists t. rewrite lookup_insert_eq. auto.
    + rewrite lookup_insert_ne in Hk by exact Hne.
      destruct (Hobj _ _ Hk) as (t0 & Ht0 & Hid0). exists t0.
      split; [|exact Hid0]. rewrite lookup_insert_ne; [exact Ht0|].
      intros <-. apply elem_of_dom_2 in Ht0. exact (is_fresh _ Ht0).
  - intros k r Hk. simpl in *.
    destruct (decide (_next_id w = k)) as [<-|Hne]; [lia|].
    rewrite lookup_insert_ne in Hk by exact Hne.
    specialize (Hids _ _ Hk). lia.
Qed.

Lemma delete_task_consistent (task_id : Z) (w : World) :
  consistent w -> consistent (snd (delete_task task_id w)).
Proof.
  intros [Hobj Hids].
  destruct (delete_task_world task_id w) as [->| ->]; [split; auto|].
  split; simpl.
  - intros k r Hk. apply lookup_delete_Some in Hk as [_ Hk]. eauto.
  - intros k r Hk. simpl in Hk. apply lookup_delete_Some in Hk as [_ Hk].
    simpl. eauto.
Qed.

Lemma run_call_consistent (c : Call) (w : World) :
  consistent w -> consistent (run_call c w).
Proof.
  intros Hw. destruct c; simpl.
  - apply add_task_consistent, Hw.
  - rewrite get_task_by_id_world. exact Hw.
  - exact (mutates_one_consistent _ _ _ (update_task_mutates_one _ _ _ _ _) Hw).
  - apply delete_task_consistent, Hw.
  - exact (mutates_one_consistent _ _ _
             (set_completed_mutates_one _ true _ _) Hw).
  - exact (mutates_one_consistent _ _ _
             (set_completed_mutates_one _ false _ _) Hw).
Qed.

Lemma init_consistent : consistent init.
Proof.
  split; [|apply init_ids_below_next].
  intros k r H. unfold init in H. simpl in H. rewrite lookup_empty in H.
  discriminate.
Qed.

Lemma run_calls_consistent (cs : list Call) (w : World) :
  consistent w -> consistent (run_calls cs w).
Proof.
  revert w. induction cs as [|c cs IH]; intros w Hw; [exact Hw|].
  unfold run_calls in *. simpl. apply IH, run_call_consistent, Hw.
Qed.

Lemma buy_milk_consistent : consistent buy_milk.
Proof. apply run_calls_consistent, init_consistent. Qed.

(** From a new repository on, whatever calls the service gets -- failed
    ones included -- every stored reference designates a task whose ["id"]
    is the key it is stored under, two keys never share an object, and every
    key is below [_next_id]. *)
Theorem service_keeps_consistent (cs : list Call) (w : World) :
  consistent init
  /\ (consistent w ->
      consistent (run_calls cs w)
      /\ forall k1 k2 r,
           _storage (run_calls cs w) !! k1 = Some r ->
           _storage (run_calls cs w) !! k2 = Some r -> k1 = k2).
Proof.
  split; [apply init_consistent|].
  - intros Hw.
    assert (Hc : consistent (run_calls cs w))
      by (apply run_calls_consistent, Hw).
    split; [exact Hc|].
    intros k1 k2 r H1 H2. destruct Hc as [Hobj _].
    destruct (Hobj _ _ H1) as (t1 & Ht1 & <-).
    destruct (Hobj _ _ H2) as (t2 & Ht2 & <-). congruence.
Qed.

Lemma service_keeps_consistent_witness :
  consistent buy_milk
  /\ forall k1 k2 r,
       _storage buy_milk !! k1 = Some r ->
       _storage buy_milk !! k2 = Some r -> k1 = k2.
Proof.
  exact (proj2 (service_keeps_consistent
                  [AddTask "Buy milk" "" "2025-01-01T10:00:00"] init)
           init_consistent).
Defined.

(** A successful [add_task] in a consistent world hands out the identifier
    [_next_id] had, which no stored task has, raises [_next_id] by one, stores
    the new task under that identifier and leaves every other stored task as
    it was. *)
Theorem add_task_fresh_id (raw_title raw_description now : string)
    (w w' : World) (r : ref) :
  consistent w ->
  add_task raw_title raw_description now w = (Return r, w') ->
  exists t,
    deref w' r = Some t /\ stored w' (id t) = Some t
    /\ id t = _next_id w /\ _storage w !! id t = None
    /\ _next_id w' = _next_id w + 1
    /\ forall k, k <> id t -> stored w' k = stored w k.
Proof.
  intros [Hobj Hids] H.
  destruct (add_task_world raw_title raw_description now w)
    as [[e He]|(t & Hid & Ht)]; [congruence|].
  rewrite Ht in H. injection H as <- <-.
  exists t. unfold deref, stored. simpl. rewrite Hid.
  rewrite !lookup_insert_eq.
  assert (Hfree : _storage w !! _next_id w = None).
  { destruct (_storage w !! _next_id w) as [r0|] eqn:E; [|reflexivity].
    specialize (Hids _ _ E). lia. }
  repeat split; auto.
  intros k Hne. rewrite lookup_insert_ne by auto.
  destruct (_storage w !! k) as [r0|] eqn:Hk; [|reflexivity].
  apply lookup_insert_ne. intros <-.
  destruct (Hobj _ _ Hk) as (t0 & Ht0 & _).
  apply elem_of_dom_2 in Ht0. exact (is_fresh _ Ht0).
Qed.

Lemma add_task_fresh_id_witness :
  exists t,
    deref (run_calls [AddTask "Walk dog" "" "2025-01-01T11:00:00"] buy_milk)
      2%positive = Some t
    /\ stored (run_calls [AddTask "Walk dog" "" "2025-01-01T11:00:00"] buy_milk)
         (id t) = Some t
    /\ id t = 2 /\ _storage buy_milk !! id t = None
    /\ _next_id
         (run_calls [AddTask "Walk dog" "" "2025-01-01T11:00:00"] buy_milk)
       = 2 + 1
    /\ forall k, k <> id t ->
         stored
           (run_calls [AddTask "Walk dog" "" "2025-01-01T11:00:00"] buy_milk) k
         = stored buy_milk k.
Proof.
  apply (add_task_fresh_id "Walk dog" "" "2025-01-01T11:00:00" buy_milk).
  - exact buy_milk_consistent.
  - vm_compute. reflexivity.
Defined.

(** An [add_task] that raises has raised a [ValidationError] and has changed
    nothing: no identifier is used up and nothing is stored. *)
Theorem add_task_failure_unchanged (raw_title raw_description now : string)
    (w w' : World) (e : Exception) :
  add_task raw_title raw_description now w = (Raise e, w') ->
  w' = w /\ exists msg, e = ValidationError msg.
Proof.
  unfold add_task, bind, lift.
  destruct (_validate_title raw_title) as [e1|vt] eqn:E1.
  - intros [= <- <-]. split; [reflexivity|].
    revert E1. unfold _validate_title. destruct (negb _); [intros [= <-]; eauto|].
    destruct (_ >? _); [intros [= <-]; eauto|discriminate].
  - destruct (_validate_description raw_description) as [e2|vd] eqn:E2.
    + intros [= <- <-]. split; [reflexivity|].
      revert E2. unfold _validate_description.
      destruct (_ >? _); [intros [= <-]; eauto|discriminate].
    + unfold ret, generate_id, new_dict, create. simpl.
      rewrite lookup_insert_eq. simpl. discriminate.
Qed.

Lemma add_task_failure_unchanged_witness :
  buy_milk = buy_milk /\ exists msg, ValidationError TitleEmpty = ValidationError msg.
Proof.
  apply (add_task_failure_unchanged "   " "" "2025-01-01T11:00:00" buy_milk).
  vm_compute. reflexivity.
Defined.

(** In a consistent world a call changes no stored task but the one it
    names: a task stored under another identifier is the same after the call,
    whether the call returns or raises. *)
Theorem call_leaves_other_tasks (c : Call) (w : World) (k : Z) (t : Task) :
  consistent w ->
  target c <> Some k ->
  stored w k = Some t ->
  stored (run_call c w) k = Some t.
Proof.
  intros Hw Hc Hs. pose proof Hw as [Hobj Hids].
  destruct c as [at_title at_description at_now| | | | |];
    cbn [run_call target] in *.
  - destruct (add_task_world at_title at_description at_now w)
      as [[e ->]|(t0 & Hid & ->)]; [exact Hs|].
    simpl. apply stored_inv in Hs as (r & Hr & Ht).
    unfold stored. simpl.
    assert (k <> _next_id w) by (specialize (Hids _ _ Hr); lia).
    rewrite lookup_insert_ne by auto. rewrite Hr.
    rewrite lookup_insert_ne; [exact Ht|].
    intros <-. apply elem_of_dom_2 in Ht. exact (is_fresh _ Ht).
  - rewrite get_task_by_id_world. exact Hs.
  - rewrite (mutates_one_frame task_id k w _
               (update_task_mutates_one _ _ _ _ _) Hw); [exact Hs|congruence].
  - destruct (delete_task_world task_id w) as [->| ->]; [exact Hs|].
    revert Hs. unfold stored. simpl.
    rewrite lookup_delete_ne by congruence. auto.
  - unfold complete_task.
    rewrite (mutates_one_frame task_id k w _
               (set_completed_mutates_one _ true _ _) Hw);
      [exact Hs|congruence].
  - unfold uncomplete_task.
    rewrite (mutates_one_frame task_id k w _
               (set_completed_mutates_one _ false _ _) Hw);
      [exact Hs|congruence].
Qed.

Lemma call_leaves_other_tasks_witness :
  stored
    (run_call (UpdateTask 2 (Some "Walk cat"%string) None "2025-01-01T12:00:00")
       (run_calls [AddTask "Walk dog" "" "2025-01-01T11:00:00"] buy_milk)) 1
  = Some {| id := 1; title := "Buy milk"; description := "";
            completed := false; created_at := "2025-01-01T10:00:00";
            updated_at := "2025-01-01T10:00:00" |}.
Proof.
  apply call_leaves_other_tasks.
  - apply run_calls_consistent, buy_milk_consistent.
  - simpl. discriminate.
  - vm_compute. reflexivity.
Defined.

(** On an identifier that is not stored, [update_task] with a field,
    [complete_task], [uncomplete_task], [delete_task] and [get_task_by_id]
    raise [TaskNotFoundError] with that identifier and change nothing;
    [update_task] with no field raises its [ValidationError] first, whether
    the identifier is stored or not. *)
Theorem absent_task_not_found (w : World) (task_id : Z)
    (new_title new_description : option string) (now : string) :
  _storage w !! task_id = None ->
  (new_title <> None \/ new_description <> None ->
   update_task task_id new_title new_description now w
   = (Raise (TaskNotFoundError task_id), w))
  /\ update_task task_id None None now w
     = (Raise (ValidationError NoFields), w)
  /\ complete_task task_id now w = (Raise (TaskNotFoundError task_id), w)
  /\ uncomplete_task task_id now w = (Raise (TaskNotFoundError task_id), w)
  /\ delete_task task_id w = (Raise (TaskNotFoundError task_id), w)
  /\ get_task_by_id task_id w = (Raise (TaskNotFoundError task_id), w).
Proof.
  intros Hr. pose proof (get_task_by_id_absent _ _ Hr) as Hg.
  split; [|split; [reflexivity|]].
  - intros H. unfold update_task.
    destruct new_title as [v|], new_description as [v'|];
      try (unfold bind; rewrite Hg; reflexivity).
    destruct H; congruence.
  - repeat split; try exact Hg;
      unfold complete_task, uncomplete_task, delete_task, bind;
      rewrite Hg; reflexivity.
Qed.

Lemma absent_task_not_found_witness :
  update_task 7 (Some "X"%string) None "2025-01-01T12:00:00" buy_milk
  = (Raise (TaskNotFoundError 7), buy_milk).
Proof.
  apply (proj1 (absent_task_not_found buy_milk 7 (Some "X"%string) None
                  "2025-01-01T12:00:00" ltac:(vm_compute; reflexivity))).
  left. discriminate.
Defined.

(** [update_task] with a title that does not validate raises the title's
    [ValidationError] and changes nothing, whatever description comes with
    it: the title is validated before anything is assigned. *)
Theorem update_task_invalid_title (w : World) (task_id : Z) (r : ref)
    (new_title : string) (new_description : option string) (now : string) :
  _storage w !! task_id = Some r ->
  Py.strip new_title = ""%string
  \/ Py.len (Py.strip new_title) > MAX_TITLE_LENGTH ->
  exists msg,
    (msg = TitleEmpty \/ msg = TitleTooLong (Py.len (Py.strip new_title)))
    /\ update_task task_id (Some new_title) new_description now w
       = (Raise (ValidationError msg), w).
Proof.
  intros Hr Hbad.
  assert (Hv : exists msg,
    (msg = TitleEmpty \/ msg = TitleTooLong (Py.len (Py.strip new_title)))
    /\ _validate_title new_title = inl (ValidationError msg)).
  { unfold _validate_title, MAX_TITLE_LENGTH in *.
    destruct (Py.truthy (Py.strip new_title)) eqn:E; simpl; [|eauto].
    destruct (Z.gtb_spec (Py.len (Py.strip new_title)) 200); [eauto|].
    destruct Hbad as [H0|H0]; [rewrite H0 in E; discriminate|lia]. }
  destruct Hv as (msg & Hmsg & Hv). exists msg. split; [exact Hmsg|].
  unfold update_task.
  destruct new_description as [v'|]; unfold bind;
    rewrite (get_task_by_id_found _ _ _ Hr); unfold lift; rewrite Hv;
    reflexivity.
Qed.

Lemma update_task_invalid_title_witness :
  exists msg,
    (msg = TitleEmpty \/ msg = TitleTooLong (Py.len (Py.strip "  ")))
    /\ update_task 1 (Some "  "%string) (Some "new text"%string)
         "2025-01-01T12:00:00" buy_milk
       = (Raise (ValidationError msg), buy_milk).
Proof.
  apply (update_task_invalid_title buy_milk 1 1%positive).
  - vm_compute. reflexivity.
  - left. reflexivity.
Defined.

(** [uncomplete_task] after [complete_task] on an existing task: both
    return the task, and afterwards the task is as it was before the two
    calls but for [completed], which is false whatever it was, and
    [updated_at], which is the clock reading of the second call. *)
Theorem complete_then_uncomplete (w : World) (task_id : Z) (t : Task)
    (now1 now2 : string) :
  stored w task_id = Some t ->
  exists r w1 w2,
    complete_task task_id now1 w = (Return r, w1)
    /\ uncomplete_task task_id now2 w1 = (Return r, w2)
    /\ stored w1 task_id
       = Some {| id := id t; title := title t; description := description t;
                 completed := true; created_at := created_at t;
                 updated_at := now1 |}
    /\ stored w2 task_id
       = Some {| id := id t; title := title t; description := description t;
                 completed := false; created_at := created_at t;
                 updated_at := now2 |}
    /\ deref w2 r = stored w2 task_id
    /\ _storage w2 = _storage w /\ _next_id w2 = _next_id w.
Proof.
  intros Hs. apply stored_inv in Hs as (r & Hr & Ht).
  exists r. eexists. eexists.
  split.
  { unfold complete_task, bind. rewrite (get_task_by_id_found _ _ _ Hr).
    unfold setitem, update, bind, storage_set, ret. simpl. reflexivity. }
  split.
  { unfold uncomplete_task, bind.
    rewrite (get_task_by_id_found _ _ r);
      [|simpl; apply lookup_insert_eq].
    unfold setitem, update, bind, storage_set, ret. simpl. reflexivity. }
  unfold stored, deref. simpl.
  rewrite !lookup_insert_eq, !lookup_alter_eq, Ht. simpl.
  repeat split; try reflexivity.
  rewrite insert_insert_eq. apply insert_id, Hr.
Qed.

Lemma complete_then_uncomplete_witness :
  exists r w1 w2,
    complete_task 1 "2025-01-01T10:05:00" buy_milk = (Return r, w1)
    /\ uncomplete_task 1 "2025-01-01T10:06:00" w1 = (Return r, w2)
    /\ stored w1 1
       = Some {| id := 1; title := "Buy milk"; description := "";
                 completed := true; created_at := "2025-01-01T10:00:00";
                 updated_at := "2025-01-01T10:05:00" |}
    /\ stored w2 1
       = Some {| id := 1; title := "Buy milk"; description := "";
                 completed := false; created_at := "2025-01-01T10:00:00";
                 updated_at := "2025-01-01T10:06:00" |}
    /\ deref w2 r = stored w2 1
    /\ _storage w2 = _storage buy_milk /\ _next_id w2 = _next_id buy_milk.
Proof.
  apply (complete_then_uncomplete buy_milk 1
           {| id := 1; title := "Buy milk"; description := "";
              completed := false; created_at := "2025-01-01T10:00:00";
              updated_at := "2025-01-01T10:00:00" |}).
  vm_compute. reflexivity.
Defined.

(** An identifier is not handed out again after its task is deleted: once
    [delete_task] has removed a task, no later [add_task], after any calls,
    returns a task with that identifier. *)
Theorem deleted_id_not_reused (w : World) (task_id : Z) (r : ref)
    (cs : list Call) (raw_title raw_description now : string)
    (r' : ref) (w' : World) (t : Task) :
  ids_below_next w ->
  _storage w !! task_id = Some r ->
  add_task raw_title raw_description now
    (run_calls cs (snd (delete_task task_id w))) = (Return r', w') ->
  deref w' r' = Some t ->
  id t <> task_id.
Proof.
  intros Hw Hr Hadd Ht.
  destruct (delete_task_world task_id w) as [Hd|Hd].
  - exfalso. revert Hd. unfold delete_task, bind.
    rewrite (get_task_by_id_found _ _ _ Hr). unfold delete, ret.
    rewrite Hr. simpl. intros Hd.
    assert (E : _storage
                  {| heap := heap w;
                     _storage := base.delete task_id (_storage w);
                     _next_id := _next_id w |} !! task_id = Some r)
      by (rewrite Hd; exact Hr).
    simpl in E. rewrite lookup_delete_eq in E. discriminate.
  - rewrite Hd in Hadd.
    destruct (run_calls_gone cs
                {| heap := heap w;
                   _storage := base.delete task_id (_storage w);
                   _next_id := _next_id w |} task_id) as [_ Hlt].
    { simpl. apply lookup_delete_eq. }
    { simpl. exact (Hw _ _ Hr). }
    destruct (add_task_world raw_title raw_description now
                (run_calls cs
                   {| heap := heap w;
                      _storage := base.delete task_id (_storage w);
                      _next_id := _next_id w |}))
      as [[e He]|(t0 & Hid & Ht0)]; [congruence|].
    rewrite Ht0 in Hadd. injection Hadd as <- <-.
    unfold deref in Ht. simpl in Ht. rewrite lookup_insert_eq in Ht.
    injection Ht as <-. lia.
Qed.

Lemma deleted_id_not_reused_witness :
  id {| id := 2; title := "Walk dog"; description := ""; completed := false;
        created_at := "2025-01-01T11:00:00";
        updated_at := "2025-01-01T11:00:00" |} <> 1.
Proof.
  apply (deleted_id_not_reused buy_milk 1 1%positive []
           "Walk dog" "" "2025-01-01T11:00:00" 2%positive
           (run_calls [DeleteTask 1;
                       AddTask "Walk dog" "" "2025-01-01T11:00:00"] buy_milk)).
  - apply run_calls_ids_below_next, init_ids_below_next.
  - vm_compute. reflexivity.
  - vm_compute. reflexivity.
  - vm_compute. reflexivity.
Defined.

Lemma sorted_le_NoDup_lt (l : list Z) :
  StronglySorted Z.le l -> NoDup l -> StronglySorted Z.lt l.
Proof.
  induction 1 as [|x l Hs IH Hall]; intros Hnd; [constructor|].
  apply NoDup_cons in Hnd as [Hx Hnd]. constructor; [apply IH, Hnd|].
  rewrite Forall_forall in *. intros y Hy.
  specialize (Hall y Hy).
  assert (x <> y) by (intros ->; contradiction). lia.
Qed.

Lemma omap_lookup_keys (m : gmap Z ref) (l : list Z) :
  (forall i, i ∈ l -> is_Some (m !! i)) ->
  Forall2 (fun r i => m !! i = Some r) (omap (fun i => m !! i) l) l.
Proof.
  induction l as [|i l IH]; intros H; simpl; [constructor|].
  destruct (H i) as [r Hr]; [left|]. rewrite Hr. constructor; [exact Hr|].
  apply IH. intros j Hj. apply H. right. exact Hj.
Qed.

(** [get_all_tasks] in a consistent world returns every stored task once, in
    the strictly ascending order of the identifiers, and changes nothing. *)
Theorem get_all_tasks_sorted (w : World) :
  consistent w ->
  exists refs ids,
    get_all_tasks w = (Return refs, w)
    /\ Forall2
         (fun r i =>
            _storage w !! i = Some r
            /\ exists t, deref w r = Some t /\ id t = i)
         refs ids
    /\ StronglySorted Z.lt ids
    /\ (forall i, i ∈ ids <-> is_Some (_storage w !! i))
    /\ length refs = size (_storage w).
Proof.
  intros [Hobj _].
  set (ids := merge_sort Z.le (elements (dom (_storage w)))).
  assert (Hin : forall i, i ∈ ids <-> is_Some (_storage w !! i)).
  { intros i. unfold ids. rewrite merge_sort_Permutation, elem_of_elements.
    apply elem_of_dom. }
  exists (omap (fun i => _storage w !! i) ids), ids.
  split; [reflexivity|].
  assert (H2 : Forall2 (fun r i => _storage w !! i = Some r)
                 (omap (fun i => _storage w !! i) ids) ids).
  { apply omap_lookup_keys. intros i Hi. apply Hin, Hi. }
  split.
  { eapply Forall2_impl; [exact H2|]. simpl. intros r i Hr.
    split; [exact Hr|]. exact (Hobj _ _ Hr). }
  split.
  { apply sorted_le_NoDup_lt.
    - apply StronglySorted_merge_sort; apply _.
    - unfold ids. rewrite merge_sort_Permutation. apply NoDup_elements. }
  split; [exact Hin|].
  rewrite (Forall2_length _ _ _ H2). unfold ids.
  rewrite merge_sort_Permutation, <- size_dom. reflexivity.
Qed.

Lemma get_all_tasks_sorted_witness :
  exists refs ids,
    get_all_tasks errands = (Return refs, errands)
    /\ Forall2
         (fun r i =>
            _storage errands !! i = Some r
            /\ exists t, deref errands r = Some t /\ id t = i)
         refs ids
    /\ StronglySorted Z.lt ids
    /\ (forall i, i ∈ ids <-> is_Some (_storage errands !! i))
    /\ length refs = size (_storage errands).
Proof.
  apply get_all_tasks_sorted.
  apply run_calls_consistent, buy_milk_consistent.
Defined.

(** In [errands] the tasks come back in the order 2, 3. *)
Example get_all_tasks_errands :
  get_all_tasks errands = (Return [2%positive; 3%positive], errands).
Proof. vm_compute. reflexivity. Qed.

(** [clear] empties the storage and sets [_next_id] back to 1: afterwards no
    identifier is found, [find_all] is empty, and the next task created gets
    the identifier 1 again, whatever identifiers were in use before. *)
Theorem clear_restarts_ids (w : World) (raw_title raw_description now : string) :
  (forall i,
     get_task_by_id i (snd (clear w))
     = (Raise (TaskNotFoundError i), snd (clear w)))
  /\ find_all (snd (clear w)) = (Return [], snd (clear w))
  /\ forall r w',
       add_task raw_title raw_description now (snd (clear w)) = (Return r, w')
       -> exists t, deref w' r = Some t /\ id t = 1
                    /\ stored w' 1 = Some t.
Proof.
  split; [|split].
  - intros i. apply get_task_by_id_absent. simpl. apply lookup_empty.
  - unfold find_all. simpl. rewrite dom_empty_L, elements_empty. reflexivity.
  - intros r w' H.
    destruct (add_task_world raw_title raw_description now (snd (clear w)))
      as [[e He]|(t & Hid & Ht)]; [congruence|].
    rewrite Ht in H. injection H as <- <-.
    exists t. unfold deref, stored. simpl. rewrite !lookup_insert_eq.
    simpl in Hid. auto.
Qed.

Lemma clear_restarts_ids_witness :
  exists t,
    deref (snd (add_task "Walk dog" "" "2025-01-01T11:00:00"
                  (snd (clear buy_milk)))) 2%positive = Some t
    /\ id t = 1
    /\ stored (snd (add_task "Walk dog" "" "2025-01-01T11:00:00"
                      (snd (clear buy_milk)))) 1 = Some t.
Proof.
  apply (proj2 (proj2 (clear_restarts_ids buy_milk "Walk dog" ""
                         "2025-01-01T11:00:00")) 2%positive).
  vm_compute. reflexivity.
Defined.

End Phase1Invariants.

(** ** Phase 1: the console front end *)
Section CliFacts.

Lemma take_chars_length (n : nat) (s : string) :
  String.length (Py.take_chars n s) = Nat.min n (String.length s).
Proof.
  revert s. induction n as [|n IH]; intros [|c s]; simpl; auto.
Qed.

Lemma append_length (s1 s2 : string) :
  String.length (s1 ++ s2)%string = (String.length s1 + String.length s2)%nat.
Proof. induction s1 as [|c s1 IH]; simpl; auto. Qed.

Lemma take_chars_prefix (n : nat) (s : string) :
  String.prefix (Py.take_chars n s) s = true.
Proof.
  revert s. induction n as [|n IH]; intros [|c s]; simpl; auto.
  rewrite IH. destruct (ascii_dec c c); [reflexivity|contradiction].
Qed.

(** [_truncate_title] with a maximum of at least 3: the result has at most
    [max_length] characters; a title that fits is returned as it is, and a
    longer one becomes its first [max_length - 3] characters followed by
    three dots, [max_length] characters in all. *)
Theorem truncate_title_length (title : string) (max_length : Z) :
  3 <= max_length ->
  Py.len (Cli._truncate_title title max_length) <= max_length
  /\ (Py.len title <= max_length ->
      Cli._truncate_title title max_length = title)
  /\ (Py.len title > max_length ->
      Py.len (Cli._truncate_title title max_length) = max_length
      /\ exists head,
           Cli._truncate_title title max_length = (head ++ "...")%string
           /\ Py.len head = max_length - 3
           /\ Py.startswith head title = true).
Proof.
  intros Hmax. unfold Cli._truncate_title.
  destruct (Z.leb_spec (Py.len title) max_length) as [Hle|Hgt].
  - split; [exact Hle|]. split; [reflexivity|lia].
  - assert (Hhead : Py.len (Py.slice_to title (max_length - 3))
                    = max_length - 3).
    { unfold Py.slice_to, Py.len in *.
      destruct (Z.ltb_spec (max_length - 3) 0); [lia|].
      rewrite take_chars_length. lia. }
    assert (Hlen : Py.len (Py.slice_to title (max_length - 3) ++ "...")
                   = max_length).
    { unfold Py.len in *. rewrite append_length. simpl. lia. }
    split; [lia|]. split; [lia|]. intros _. split; [exact Hlen|].
    exists (Py.slice_to title (max_length - 3)).
    split; [reflexivity|]. split; [exact Hhead|].
    unfold Py.slice_to, Py.startswith.
    destruct (_ <? _); apply take_chars_prefix.
Qed.

Lemma truncate_title_length_witness :
  Py.len (Cli._truncate_title
            "Prepare the quarterly report for the finance team" 42) <= 42
  /\ (Py.len "Prepare the quarterly report for the finance team" <= 42 ->
      Cli._truncate_title
        "Prepare the quarterly report for the finance team" 42
      = "Prepare the quarterly report for the finance team"%string)
  /\ (Py.len "Prepare the quarterly report for the finance team" > 42 ->
      Py.len (Cli._truncate_title
                "Prepare the quarterly report for the finance team" 42) = 42
      /\ exists head,
           Cli._truncate_title
             "Prepare the quarterly report for the finance team" 42
           = (head ++ "...")%string
           /\ Py.len head = 42 - 3
           /\ Py.startswith head
                "Prepare the quarterly report for the finance team" = true).
Proof.
  apply (truncate_title_length
           "Prepare the quarterly report for the finance team" 42).
  lia.
Defined.

(** Below 3 the bound does not hold: the slice [title[:max_length - 3]] then
    counts from the end. *)
Example truncate_title_small_maximum :
  Cli._truncate_title "abcdefghij" 2 = "abcdefghi..."%string.
Proof. reflexivity. Qed.

Lemma startswith_dashes (token : string) :
  Py.startswith "--" token = true ->
  token = ("--" ++ Py.slice_from token 2)%string.
Proof.
  unfold Py.startswith. intros H. apply String.prefix_correct in H.
  destruct token as [|a [|b s]]; simpl in H; try discriminate.
  injection H as -> -> _. simpl. destruct s; reflexivity.
Qed.

Lemma parse_tokens_spec (n : nat) :
  forall (rest args : list string) (flags : gmap string string),
    (length rest <= n)%nat ->
    Forall (fun a => Py.startswith "--" a = false) args ->
    map_Forall (fun name v =>
                  Py.startswith "--" v = false
                  /\ ("--" ++ name)%string ∈ rest \/ flags !! name = Some v)
      (snd (Cli.parse_tokens rest args flags))
    /\ Forall (fun a => Py.startswith "--" a = false)
         (fst (Cli.parse_tokens rest args flags))
    /\ exists more,
         fst (Cli.parse_tokens rest args flags) = args ++ more
         /\ sublist more rest.
Proof.
  induction n as [|n IH]; intros rest args flags Hn Hargs.
  - destruct rest; [|simpl in Hn; lia]. simpl.
    split; [intros name v Hv; right; exact Hv|].
    split; [exact Hargs|]. exists []. rewrite app_nil_r. split; constructor.
  - destruct rest as [|token rest]; simpl.
    { split; [intros name v Hv; right; exact Hv|].
      split; [exact Hargs|]. exists []. rewrite app_nil_r. split; constructor. }
    simpl in Hn.
    destruct (Py.startswith "--" token) eqn:Et.
    + assert (Hskip :
        map_Forall (fun name v =>
                      Py.startswith "--" v = false
                      /\ ("--" ++ name)%string ∈ token :: rest
                      \/ flags !! name = Some v)
          (snd (Cli.parse_tokens rest args flags))
        /\ Forall (fun a => Py.startswith "--" a = false)
             (fst (Cli.parse_tokens rest args flags))
        /\ exists more,
             fst (Cli.parse_tokens rest args flags) = args ++ more
             /\ sublist more (token :: rest)).
      { destruct (IH rest args flags ltac:(lia) Hargs) as (H1 & H2 & m & H3 & H4).
        split; [|split; [exact H2|]].
        - intros name v Hv. destruct (H1 name v Hv) as [[Ha Hb]|Hb];
            [left; split; [exact Ha|right; exact Hb]|right; exact Hb].
        - exists m. split; [exact H3|]. apply sublist_cons, H4. }
      destruct rest as [|flag_value rest'']; [exact Hskip|].
      destruct (Py.startswith "--" flag_value) eqn:Ev; simpl; [exact Hskip|].
      simpl in Hn.
      destruct (IH rest'' args
                  (<[Py.slice_from token 2 := flag_value]> flags)
                  ltac:(lia) Hargs) as (H1 & H2 & m & H3 & H4).
      split; [|split; [exact H2|]].
      * intros name v Hv. destruct (H1 name v Hv) as [[Ha Hb]|Hb].
        -- left. split; [exact Ha|]. right. right. exact Hb.
        -- apply lookup_insert_Some in Hb as [[<- <-]|[_ Hb]].
           ++ left. split; [exact Ev|].
              rewrite <- (startswith_dashes token Et). left.
           ++ right. exact Hb.
      * exists m. split; [exact H3|].
        apply sublist_cons, sublist_cons, H4.
    + destruct (IH rest (args ++ [token]) flags ltac:(lia))
        as (H1 & H2 & m & H3 & H4).
      { apply Forall_app. split; [exact Hargs|]. constructor; [exact Et|constructor]. }
      split; [|split; [exact H2|]].
      * intros name v Hv. destruct (H1 name v Hv) as [[Ha Hb]|Hb];
          [left; split; [exact Ha|right; exact Hb]|right; exact Hb].
      * exists (token :: m). rewrite H3, <- app_assoc. split; [reflexivity|].
        apply sublist_skip, H4.
Qed.

(** What [parse_command] makes of the tokens: the command is the first token
    lower-cased; the arguments are tokens that follow it, in their order, and
    none of them starts with [--]; every flag was written [--name] among the
    tokens and its value does not start with [--]. So a value that starts
    with [--] can be passed neither as an argument nor as a flag value. *)
Theorem parse_command_never_dashes (command : string) (rest : list string) :
  let '(name, args, flags) := Cli.parse_command_tokens (command :: rest) in
  name = Py.lower command
  /\ sublist args rest
  /\ Forall (fun a => Py.startswith "--" a = false) args
  /\ map_Forall (fun flag v =>
                   Py.startswith "--" v = false
                   /\ ("--" ++ flag)%string ∈ rest) flags.
Proof.
  unfold Cli.parse_command_tokens.
  destruct (parse_tokens_spec (length rest) rest [] ∅ (le_n _)
              (List.Forall_nil _))
    as (H1 & H2 & m & H3 & H4).
  destruct (Cli.parse_tokens rest [] ∅) as [args flags]. simpl in *.
  subst args. repeat split; auto.
  - destruct (H1 i x H) as [[Ha _]|Hb]; [exact Ha|].
    rewrite lookup_empty in Hb. discriminate.
  - destruct (H1 i x H) as [[_ Ha]|Hb]; [exact Ha|].
    rewrite lookup_empty in Hb. discriminate.
Qed.

(** [update 1 --title --description X]: the flag [--title] has no value and
    is dropped, without an error. *)
Example parse_command_drops_flag :
  Cli.parse_command_tokens
    ["UPDATE"; "1"; "--title"; "--description"; "X"]%string
  = ("update"%string, ["1"%string], {["description"%string := "X"%string]}).
Proof. vm_compute. reflexivity. Qed.

End CliFacts.

(** ** Phase 2: queries *)
Section Phase2Queries.
Import Phase2.

Lemma in_join_tags (names : list string) (db : Db) (rows : list Task.t)
    (t : Task.t) :
  In t (join_tags names db rows) <-> In t rows /\ has_tag_among names db t.
Proof.
  unfold join_tags, has_tag_among. rewrite in_flat_map. split.
  - intros (t0 & Ht0 & H). apply in_flat_map in H as (l & Hl & H).
    destruct (Z.eqb_spec (TaskTag.task_id l) (Task.id t0)) as [E1|]; [|destruct H].
    apply in_flat_map in H as (g & Hg & H).
    destruct (Z.eqb_spec (Tag.id g) (TaskTag.tag_id l)) as [E2|];
      [|destruct H].
    destruct (existsb _ names) eqn:E3; simpl in H; [|destruct H].
    destruct H as [<-|[]]. split; [exact Ht0|].
    exists l, g. apply existsb_eqb_In in E3. auto.
  - intros (Ht & l & g & Hl & Hg & E1 & E2 & E3).
    exists t. split; [exact Ht|]. apply in_flat_map. exists l.
    split; [exact Hl|]. rewrite E1, Z.eqb_refl.
    apply in_flat_map. exists g. split; [exact Hg|].
    rewrite E2, Z.eqb_refl. apply existsb_eqb_In in E3. rewrite E3.
    left. reflexivity.
Qed.

Lemma filtered_spec (user_id : Z) (status : string)
    (priority : option PriorityEnum) (tags : option (list string)) (db : Db) :
  (forall t,
     In t (filtered user_id status priority tags db)
     <-> In t (tasks db) /\ matches user_id status priority tags db t)
  /\ (forall n names,
        tags = Some (n :: names) ->
        NoDup (filtered user_id status priority tags db)).
Proof.
  set (q0 := List.filter (fun t => Task.user_id t =? user_id) (tasks db)).
  set (q1 := if String.eqb status "active" then
               List.filter (fun t => Bool.eqb (Task.completed t) false) q0
             else if String.eqb status "completed" then
               List.filter (fun t => Bool.eqb (Task.completed t) true) q0
             else q0).
  set (q2 := match priority with
             | Some p =>
                 List.filter
                   (fun t => String.eqb (Task.priority t) (value p)) q1
             | None => q1
             end).
  assert (H0 : forall t, In t q0 <-> In t (tasks db) /\ Task.user_id t = user_id).
  { intros t. unfold q0. rewrite filter_In, Z.eqb_eq. reflexivity. }
  assert (H1 : forall t,
             In t q1 <-> In t q0
                         /\ (status = "active"%string ->
                             Task.completed t = false)
                         /\ (status = "completed"%string ->
                             Task.completed t = true)).
  { intros t. unfold q1.
    destruct (String.eqb_spec status "active") as [->|Ha].
    - rewrite filter_In, Bool.eqb_true_iff. split.
      + intros [? ?]. repeat split; auto. discriminate.
      + intros (? & Hc & _). auto.
    - destruct (String.eqb_spec status "completed") as [->|Hc].
      + rewrite filter_In, Bool.eqb_true_iff. split.
        * intros [? ?]. repeat split; auto. contradiction.
        * intros (? & _ & Hc). auto.
      + split; [intros ?; repeat split; auto; contradiction|intros [? _]; auto]. }
  assert (H2 : forall t,
             In t q2 <-> In t q1
                         /\ forall p, priority = Some p ->
                                      Task.priority t = value p).
  { intros t. unfold q2. destruct priority as [p|].
    - rewrite filter_In, String.eqb_eq. split.
      + intros [? ?]. split; [auto|]. intros p' [= <-]. auto.
      + intros [? Hp]. auto.
    - split; [intros ?; split; [auto|discriminate]|intros [? _]; auto]. }
  split.
  - intros t. unfold filtered. fold q0. fold q1. fold q2. unfold matches.
    destruct tags as [[|n names]|].
    + rewrite H2, H1, H0. split.
      * intros (((? & ?) & ? & ?) & ?). repeat split; auto. discriminate.
      * intros (? & ? & ? & ? & ? & _). repeat split; auto.
    + rewrite <- list_elem_of_In, elem_of_remove_dups, list_elem_of_In.
      rewrite in_join_tags, H2, H1, H0. split.
      * intros ((((? & ?) & ? & ?) & ?) & Ht). repeat split; auto.
        intros n' names' [= <- <-]. exact Ht.
      * intros (? & ? & ? & ? & ? & Ht). repeat split; auto.
    + rewrite H2, H1, H0. split.
      * intros (((? & ?) & ? & ?) & ?). repeat split; auto. discriminate.
      * intros (? & ? & ? & ? & ? & _). repeat split; auto.
  - intros n names ->. unfold filtered. apply NoDup_remove_dups.
Qed.

(** The tasks that the filters of [list_tasks] select: a task of the table
    is selected exactly when it is the user's, has the status and the
    priority asked for, and, when tag names are given, carries at least one
    of them, compared in lower case. With tag names no task is selected
    twice, however many of the tags it carries. *)
Theorem filtered_selects (user_id : Z) (status : string)
    (priority : option PriorityEnum) (tags : option (list string)) (db : Db) :
  (forall t,
     In t (filtered user_id status priority tags db)
     <-> In t (tasks db) /\ matches user_id status priority tags db t)
  /\ (forall n names,
        tags = Some (n :: names) ->
        NoDup (filtered user_id status priority tags db)).
Proof. apply filtered_spec. Qed.

Lemma filtered_selects_witness :
  NoDup (filtered 1 "all" None (Some ["x"; "y"]%string) three_priorities).
Proof.
  exact (proj2 (filtered_selects 1 "all" None (Some ["x"; "y"]%string)
                  three_priorities) "x"%string ["y"%string] eq_refl).
Defined.

Lemma filter_split {A} (f a : A -> bool) (l : list A) :
  Permutation
    (List.filter f (List.filter a l)
     ++ List.filter f (List.filter (fun x => negb (a x)) l))
    (List.filter f l).
Proof.
  induction l as [|x l IH]; simpl; [reflexivity|].
  destruct (a x); simpl; destruct (f x); simpl; auto.
  rewrite <- Permutation_middle. constructor. exact IH.
Qed.

Lemma filter_partition {A} (a : A -> bool) (l : list A) :
  Permutation (List.filter a l ++ List.filter (fun x => negb (a x)) l) l.
Proof.
  induction l as [|x l IH]; simpl; [reflexivity|].
  destruct (a x); simpl; [constructor; exact IH|].
  rewrite <- Permutation_middle. constructor. exact IH.
Qed.

Lemma task_filter_ext (f g : Task.t -> bool) (l : list Task.t) :
  (forall x, f x = g x) -> List.filter f l = List.filter g l.
Proof.
  intros H. induction l as [|x l IH]; simpl; [reflexivity|].
  rewrite H, IH. reflexivity.
Qed.

(** The statuses [active] and [completed] split what [all] selects: with the
    other filters the same, the tasks selected as active and those selected
    as completed are together the tasks selected under [all], each once; the
    active ones have [completed] false and the others true; and the two
    totals add up to the total under [all]. *)
Theorem status_partition (user_id : Z) (priority : option PriorityEnum)
    (tags : option (list string)) (db : Db) :
  Permutation
    (filtered user_id "active" priority tags db
     ++ filtered user_id "completed" priority tags db)
    (filtered user_id "all" priority tags db)
  /\ Forall (fun t => Task.completed t = false)
       (filtered user_id "active" priority tags db)
  /\ Forall (fun t => Task.completed t = true)
       (filtered user_id "completed" priority tags db)
  /\ forall sort_by limit offset,
       snd (list_tasks user_id "active" priority tags sort_by limit offset db)
       + snd (list_tasks user_id "completed" priority tags sort_by limit
                offset db)
       = snd (list_tasks user_id "all" priority tags sort_by limit offset db).
Proof.
  destruct (filtered_spec user_id "active" priority tags db) as [Ha Hna].
  destruct (filtered_spec user_id "completed" priority tags db)
    as [Hc Hnc].
  destruct (filtered_spec user_id "all" priority tags db) as [Hall Hnall].
  assert (Hfa : Forall (fun t => Task.completed t = false)
                  (filtered user_id "active" priority tags db)).
  { apply List.Forall_forall. intros t Ht. apply Ha in Ht as (_ & _ & H & _).
    auto. }
  assert (Hfc : Forall (fun t => Task.completed t = true)
                  (filtered user_id "completed" priority tags db)).
  { apply List.Forall_forall. intros t Ht. apply Hc in Ht as (_ & _ & _ & H & _).
    auto. }
  assert (Hperm : Permutation
            (filtered user_id "active" priority tags db
             ++ filtered user_id "completed" priority tags db)
            (filtered user_id "all" priority tags db)).
  { destruct tags as [[|n names]|].
    - unfold filtered. simpl. destruct priority as [p|].
      + rewrite (task_filter_ext
                   (fun t => Bool.eqb (Task.completed t) true)
                   (fun t => negb (Bool.eqb (Task.completed t) false)))
          by (intros x; destruct (Task.completed x); reflexivity).
        apply filter_split.
      + rewrite (task_filter_ext
                   (fun t => Bool.eqb (Task.completed t) true)
                   (fun t => negb (Bool.eqb (Task.completed t) false)))
          by (intros x; destruct (Task.completed x); reflexivity).
        apply filter_partition.
    - apply NoDup_Permutation.
      + apply NoDup_app. split; [exact (Hna _ _ eq_refl)|].
        split; [|exact (Hnc _ _ eq_refl)].
        intros t Ht1 Ht2. apply list_elem_of_In in Ht1, Ht2.
        rewrite List.Forall_forall in Hfa, Hfc.
        specialize (Hfa _ Ht1). specialize (Hfc _ Ht2). congruence.
      + exact (Hnall _ _ eq_refl).
      + intros t. rewrite elem_of_app, !list_elem_of_In, Ha, Hc, Hall.
        unfold matches. split.
        * intros [(? & ? & _ & _ & ? & ?)|(? & ? & _ & _ & ? & ?)];
            repeat split; auto; discriminate.
        * intros (? & ? & _ & _ & ? & ?).
          destruct (Task.completed t) eqn:E; [right|left];
            repeat split; auto; discriminate.
    - unfold filtered. simpl. destruct priority as [p|].
      + rewrite (task_filter_ext
                   (fun t => Bool.eqb (Task.completed t) true)
                   (fun t => negb (Bool.eqb (Task.completed t) false)))
          by (intros x; destruct (Task.completed x); reflexivity).
        apply filter_split.
      + rewrite (task_filter_ext
                   (fun t => Bool.eqb (Task.completed t) true)
                   (fun t => negb (Bool.eqb (Task.completed t) false)))
          by (intros x; destruct (Task.completed x); reflexivity).
        apply filter_partition. }
  split; [exact Hperm|]. split; [exact Hfa|]. split; [exact Hfc|].
  intros sort_by limit offset. unfold list_tasks. simpl.
  apply Permutation_length in Hperm. rewrite length_app in Hperm. lia.
Qed.

(** The page of [list_tasks], for a limit and an offset that are not
    negative, has [min(limit, total - offset)] rows, none when the offset
    reaches the total, and every row of it is a task the filters select. *)
Theorem list_tasks_page_size (user_id : Z) (status : string)
    (priority : option PriorityEnum) (tags : option (list string))
    (sort_by : string) (limit offset : Z) (db : Db) :
  0 <= limit -> 0 <= offset ->
  let '(rows, total) :=
    list_tasks user_id status priority tags sort_by limit offset db in
  Z.of_nat (length rows) = Z.min limit (Z.max 0 (total - offset))
  /\ (total <= offset -> rows = [])
  /\ forall t, In t rows ->
       In t (tasks db) /\ matches user_id status priority tags db t.
Proof.
  intros Hl Ho. unfold list_tasks, paginate.
  set (matching := filtered user_id status priority tags db).
  set (all := sorted_rows (order_by sort_by) matching).
  assert (Hlen : length all = length matching)
    by (apply Permutation_length, sorted_rows_perm).
  assert (Hsize : Z.of_nat (length (firstn (Z.to_nat limit)
                                      (skipn (Z.to_nat offset) all)))
                  = Z.min limit
                      (Z.max 0 (Z.of_nat (length matching) - offset))).
  { rewrite length_take, length_drop, Hlen. lia. }
  split; [exact Hsize|]. split.
  - intros Htot.
    destruct (firstn _ _) as [|x l]; [reflexivity|]. simpl in Hsize. lia.
  - intros t Ht. apply (filtered_spec user_id status priority tags db).
    fold matching.
    apply (Permutation_in _ (sorted_rows_perm (order_by sort_by) matching)).
    fold all. apply list_elem_of_In.
    apply list_elem_of_In in Ht.
    apply (subseteq_drop (Z.to_nat offset)).
    apply (subseteq_take (Z.to_nat limit)). exact Ht.
Qed.

Lemma list_tasks_page_size_witness :
  Z.of_nat (length (fst (list_tasks 1 "all" None None "title_asc" 3 2
                           four_tasks)))
  = Z.min 3 (Z.max 0 (4 - 2)).
Proof.
  pose proof (list_tasks_page_size 1 "all" None None "title_asc" 3 2
                four_tasks ltac:(lia) ltac:(lia)) as H.
  destruct (list_tasks 1 "all" None None "title_asc" 3 2 four_tasks)
    as [rows n] eqn:E.
  assert (Hn : n = 4) by (vm_compute in E; congruence).
  rewrite Hn in H. exact (proj1 H).
Defined.

Lemma string_leb_trans (a b c : string) :
  String.leb a b = true -> String.leb b c = true -> String.leb a c = true.
Proof.
  unfold String.leb.
  destruct (String.compare a b) eqn:Eab; try discriminate; intros _;
    destruct (String.compare b c) eqn:Ebc; try discriminate; intros _.
  - apply OrderedTypeEx.String_as_OT.cmp_eq in Eab, Ebc. subst.
    pose proof (proj2 (OrderedTypeEx.String_as_OT.cmp_eq c c) eq_refl) as H.
    unfold OrderedTypeEx.String_as_OT.cmp in H. rewrite H. reflexivity.
  - apply OrderedTypeEx.String_as_OT.cmp_eq in Eab. subst. rewrite Ebc.
    reflexivity.
  - apply OrderedTypeEx.String_as_OT.cmp_eq in Ebc. subst. rewrite Eab.
    reflexivity.
  - apply OrderedTypeEx.String_as_OT.cmp_lt in Eab, Ebc.
    pose proof (OrderedTypeEx.String_as_OT.lt_trans _ _ _ Eab Ebc) as H.
    apply OrderedTypeEx.String_as_OT.cmp_lt in H.
    unfold OrderedTypeEx.String_as_OT.cmp in H. rewrite H. reflexivity.
Qed.

Lemma order_by_total (sort_by : string) (a b : Task.t) :
  order_by sort_by a b = true \/ order_by sort_by b a = true.
Proof.
  unfold order_by.
  destruct (String.eqb sort_by "created_asc"); [lia|].
  destruct (String.eqb sort_by "priority_desc");
    [destruct (String.leb_total (Task.priority a) (Task.priority b)); auto|].
  destruct (String.eqb sort_by "due_asc");
    [destruct (Task.due_date a), (Task.due_date b); auto; lia|].
  destruct (String.eqb sort_by "title_asc");
    [apply String.leb_total|lia].
Qed.

Lemma order_by_trans (sort_by : string) (a b c : Task.t) :
  order_by sort_by a b = true -> order_by sort_by b c = true ->
  order_by sort_by a c = true.
Proof.
  unfold order_by.
  destruct (String.eqb sort_by "created_asc"); [lia|].
  destruct (String.eqb sort_by "priority_desc");
    [intros H1 H2; exact (string_leb_trans _ _ _ H2 H1)|].
  destruct (String.eqb sort_by "due_asc");
    [destruct (Task.due_date a), (Task.due_date b), (Task.due_date c);
     try discriminate; auto; lia|].
  destruct (String.eqb sort_by "title_asc");
    [apply string_leb_trans|lia].
Qed.

Lemma insert_sorted_Sorted (sort_by : string) (x : Task.t) (l : list Task.t) :
  Sorted (fun a b => order_by sort_by a b = true) l ->
  Sorted (fun a b => order_by sort_by a b = true)
    (insert_sorted (order_by sort_by) x l).
Proof.
  induction 1 as [|y l Hs IH Hhd]; simpl; [repeat constructor|].
  destruct (order_by sort_by x y) eqn:E.
  - constructor; [constructor; assumption|]. constructor. exact E.
  - constructor; [exact IH|].
    destruct l as [|z l]; simpl.
    + constructor. destruct (order_by_total sort_by x y); congruence.
    + destruct (order_by sort_by x z).
      * constructor. destruct (order_by_total sort_by x y); congruence.
      * inversion Hhd. constructor. assumption.
Qed.

Lemma strongly_sorted_weaken {A} (R R' : A -> A -> Prop) (l : list A) :
  (forall a b, R a b -> R' a b) ->
  StronglySorted R l -> StronglySorted R' l.
Proof.
  intros HR. induction 1 as [|x l Hs IH Hall]; constructor; [exact IH|].
  eapply List.Forall_impl; [|exact Hall]. intros b. apply HR.
Qed.

(** The rows [list_tasks] returns are in the order of the sort key: no row
    comes after a row that the [order_by] clause puts strictly behind it. For
    [due_asc] that means ascending due dates with the tasks without a due
    date last, and for any key but the four named ones the newest first. *)
Theorem list_tasks_sorted (user_id : Z) (status : string)
    (priority : option PriorityEnum) (tags : option (list string))
    (sort_by : string) (limit offset : Z) (db : Db) :
  StronglySorted (fun a b => order_by sort_by a b = true)
    (fst (list_tasks user_id status priority tags sort_by limit offset db))
  /\ (sort_by = "due_asc"%string ->
      StronglySorted
        (fun a b =>
           match Task.due_date a, Task.due_date b with
           | Some x, Some y => x <= y
           | None, Some _ => False
           | _, None => True
           end)
        (fst (list_tasks user_id status priority tags sort_by limit offset
                db)))
  /\ (~ In sort_by ["created_asc"; "priority_desc"; "due_asc";
                    "title_asc"]%string ->
      StronglySorted
        (fun a b => Task.created_at b <= Task.created_at a)
        (fst (list_tasks user_id status priority tags sort_by limit offset
                db))).
Proof.
  assert (Hs : StronglySorted (fun a b => order_by sort_by a b = true)
                 (fst (list_tasks user_id status priority tags sort_by limit
                         offset db))).
  { unfold list_tasks, paginate. simpl.
    set (all := sorted_rows _ _).
    assert (Hall : StronglySorted (fun a b => order_by sort_by a b = true) all).
    { apply Sorted_StronglySorted.
      - intros a b c. apply order_by_trans.
      - unfold all, sorted_rows.
        induction (filtered user_id status priority tags db) as [|x l IH];
          simpl; [constructor|]. apply insert_sorted_Sorted, IH. }
    rewrite <- (take_drop (Z.to_nat offset) all) in Hall.
    apply StronglySorted_app_1_r in Hall.
    rewrite <- (take_drop (Z.to_nat limit) (drop (Z.to_nat offset) all))
      in Hall.
    apply StronglySorted_app_1_l in Hall. exact Hall. }
  split; [exact Hs|]. split.
  - intros ->. revert Hs. apply strongly_sorted_weaken. intros a b.
    unfold order_by. simpl.
    destruct (Task.due_date a), (Task.due_date b); try discriminate; auto.
    lia.
  - intros Hn. revert Hs. apply strongly_sorted_weaken. intros a b.
    unfold order_by.
    destruct (String.eqb_spec sort_by "created_asc");
      [exfalso; apply Hn; subst; simpl; auto|].
    destruct (String.eqb_spec sort_by "priority_desc");
      [exfalso; apply Hn; subst; simpl; auto|].
    destruct (String.eqb_spec sort_by "due_asc");
      [exfalso; apply Hn; subst; simpl; auto|].
    destruct (String.eqb_spec sort_by "title_asc");
      [exfalso; apply Hn; subst; simpl; auto|].
    lia.
Qed.

Lemma list_tasks_sorted_witness :
  StronglySorted (fun a b => Task.created_at b <= Task.created_at a)
    (fst (list_tasks 1 "all" None None "created_desc" 100 0 four_tasks)).
Proof.
  apply (proj2 (proj2 (list_tasks_sorted 1 "all" None None "created_desc"
                         100 0 four_tasks))).
  simpl. intros [H|[H|[H|[H|[]]]]]; discriminate.
Defined.

End Phase2Queries.

(** ** Phase 2: tags *)
Section Phase2Tags.
Import Phase2.

Lemma sql_lower_char_lower (c : ascii) :
  sql_lower_char (Py.lower_char c) = Py.lower_char c.
Proof. destruct c as [[] [] [] [] [] [] [] []]; vm_compute; reflexivity. Qed.

Lemma lower_char_idem (c : ascii) :
  Py.lower_char (Py.lower_char c) = Py.lower_char c.
Proof. destruct c as [[] [] [] [] [] [] [] []]; vm_compute; reflexivity. Qed.

(** A name lower-cased by Python is left as it is by the database's
    [lower()]. *)
Lemma sql_lower_lower (s : string) : sql_lower (Py.lower s) = Py.lower s.
Proof.
  induction s as [|c s IH]; simpl; [reflexivity|].
  rewrite sql_lower_char_lower, IH. reflexivity.
Qed.

Lemma lower_idem (s : string) : Py.lower (Py.lower s) = Py.lower s.
Proof.
  induction s as [|c s IH]; simpl; [reflexivity|].
  rewrite lower_char_idem, IH. reflexivity.
Qed.

Lemma select_tag_after_insert (key : string) (color : option string)
    (user_id : Z) (db : Db) :
  select_tag (Py.lower key) user_id db = [] ->
  select_tag (Py.lower key) user_id
    (snd (insert_tag (Py.lower key) color user_id db))
  = [fst (insert_tag (Py.lower key) color user_id db)].
Proof.
  intros H. unfold select_tag in *. simpl.
  rewrite List.filter_app, H. simpl.
  rewrite sql_lower_lower, String.eqb_refl, Z.eqb_refl. reflexivity.
Qed.

Lemma create_tag_again (name1 name2 : string)
    (color1 color2 : option string) (user_id : Z) (rnd1 rnd2 : list nat)
    (db db' : Db) (tag : Tag.t) :
  Py.lower name1 = Py.lower name2 ->
  create_tag name1 color1 user_id rnd1 db = inr (tag, db') ->
  create_tag name2 color2 user_id rnd2 db' = inr (tag, db').
Proof.
  intros Hn. unfold create_tag. rewrite <- Hn.
  destruct (select_tag (Py.lower name1) user_id db) as [|g [|g' l]] eqn:E;
    unfold scalar_one_or_none.
  - intros H.
    match type of H with
    | inr (insert_tag _ ?c _ _) = _ =>
        pose proof (select_tag_after_insert name1 c user_id db E) as Hs;
        assert (Hp : insert_tag (Py.lower name1) c user_id db = (tag, db'))
          by congruence
    end.
    rewrite Hp in Hs. cbn [fst snd] in Hs. rewrite Hs. reflexivity.
  - intros [= <- <-]. rewrite E. reflexivity.
  - discriminate.
Qed.

(** [create_tag] is idempotent under case: once it has returned a tag for a
    name, a call for any name with the same lower-cased form returns that
    same record and leaves the database as it is, whatever colour is
    asked for. *)
Theorem create_tag_idempotent (name1 name2 : string)
    (color1 color2 : option string) (user_id : Z) (rnd1 rnd2 : list nat)
    (db db' : Db) (tag : Tag.t) :
  Py.lower name1 = Py.lower name2 ->
  create_tag name1 color1 user_id rnd1 db = inr (tag, db') ->
  create_tag name2 color2 user_id rnd2 db' = inr (tag, db').
Proof. apply create_tag_again. Qed.

Lemma create_tag_idempotent_witness :
  create_tag "WORK" (Some "#000000"%string) 1 [3%nat]
    (snd (insert_tag "work" (Some "#3B82F6"%string) 1 empty_db))
  = inr (fst (insert_tag "work" (Some "#3B82F6"%string) 1 empty_db),
         snd (insert_tag "work" (Some "#3B82F6"%string) 1 empty_db)).
Proof.
  apply (create_tag_idempotent "Work" "WORK" None (Some "#000000"%string) 1
           [0%nat] [3%nat] empty_db).
  - reflexivity.
  - reflexivity.
Defined.

Lemma TagCreate_validate_inr (name : string) (color : option string)
    (name' : string) (color' : option string) :
  TagCreate_validate name color = inr (name', color') <->
  1 <= Py.len name <= 50 /\ Py.strip name <> ""%string
  /\ match color with Some c => Py.len c <= 7 | None => True end
  /\ name' = Py.lower (Py.strip name) /\ color' = color.
Proof.
  unfold TagCreate_validate.
  destruct (check_length "name" (Some 1) 50 name) as [e|v] eqn:E1.
  - split; [discriminate|]. intros (H1 & _).
    assert (check_length "name" (Some 1) 50 name = inr name)
      by (apply check_length_inr; repeat split; lia).
    congruence.
  - apply check_length_inr in E1 as (-> & Hlo & Hhi).
    unfold TagCreate_name_not_empty.
    destruct (Py.truthy (Py.strip name)) eqn:E2; simpl.
    + assert (Hne : Py.strip name <> ""%string)
        by (intros Heq; rewrite Heq in E2; discriminate).
      destruct color as [c|].
      * destruct (check_length "color" None 7 c) as [e|c'] eqn:E3.
        -- split; [discriminate|]. intros (_ & _ & Hc & _).
           assert (check_length "color" None 7 c = inr c)
             by (apply check_length_inr; repeat split; lia).
           congruence.
        -- apply check_length_inr in E3 as (-> & _ & Hc).
           split; [intros [= <- <-]; repeat split; auto; lia|].
           intros (_ & _ & _ & -> & ->). reflexivity.
      * split; [intros [= <- <-]; repeat split; auto; lia|].
        intros (_ & _ & _ & -> & ->). reflexivity.
    + apply truthy_false_iff in E2.
      split; [discriminate|]. intros (_ & Hne & _). contradiction.
Qed.

(** [POST /tags] resolves a name by its trimmed, lower-cased form: after a
    request for one name has been answered with a tag, a valid request for
    any name with the same trimmed, lower-cased form is answered with that
    same record and creates nothing. The limits 1 and 50 apply to the name as
    received: a longer name is rejected whatever its trimmed form. *)
Theorem post_tag_normalizes (name1 name2 : string)
    (color1 color2 : option string) (rnd1 rnd2 : list nat) (db db' : Db)
    (tag : Tag.t) :
  (Py.lower (Py.strip name1) = Py.lower (Py.strip name2) ->
   post_tag name1 color1 rnd1 db = inr (tag, db') ->
   1 <= Py.len name2 <= 50 ->
   match color2 with Some c => Py.len c <= 7 | None => True end ->
   post_tag name2 color2 rnd2 db' = inr (tag, db'))
  /\ (Py.len name1 > 50 ->
      post_tag name1 color1 rnd1 db
      = inl (RequestValidationError (string_too_long "name"))).
Proof.
  split.
  - intros Heq H1 Hlen Hcol. unfold post_tag in *.
    destruct (TagCreate_validate name1 color1) as [e|[n1 c1]] eqn:E1;
      [discriminate|].
    apply TagCreate_validate_inr in E1 as (_ & Hne1 & _ & -> & ->).
    assert (Hne2 : Py.strip name2 <> ""%string).
    { intros H0. rewrite H0 in Heq. destruct (Py.strip name1); [auto|].
      discriminate. }
    assert (E2 : TagCreate_validate name2 color2
                 = inr (Py.lower (Py.strip name2), color2))
      by (apply TagCreate_validate_inr; auto).
    rewrite E2.
    destruct (create_tag (Py.lower (Py.strip name1)) color1 1 rnd1 db)
      as [e|[t d]] eqn:Ec; [discriminate|].
    injection H1 as <- <-.
    rewrite (create_tag_again _ (Py.lower (Py.strip name2)) _ color2
               _ _ rnd2 _ _ _ (f_equal Py.lower Heq) Ec).
    reflexivity.
  - intros Hlen. unfold post_tag, TagCreate_validate.
    rewrite check_length_too_long by lia. reflexivity.
Qed.

Lemma post_tag_normalizes_witness :
  post_tag "work" None [5%nat]
    (snd (insert_tag "work" (Some "#3B82F6"%string) 1 empty_db))
  = inr (fst (insert_tag "work" (Some "#3B82F6"%string) 1 empty_db),
         snd (insert_tag "work" (Some "#3B82F6"%string) 1 empty_db)).
Proof.
  apply (proj1 (post_tag_normalizes "  Work " "work" None None [0%nat]
                  [5%nat] empty_db
                  (snd (insert_tag "work" (Some "#3B82F6"%string) 1 empty_db))
                  (fst (insert_tag "work" (Some "#3B82F6"%string) 1
                          empty_db)))).
  - reflexivity.
  - reflexivity.
  - vm_compute. split; discriminate.
  - exact I.
Defined.

Lemma scalar_one_or_none_Some {A} (rows : list A) (x : A) :
  scalar_one_or_none rows = inr (Some x) -> rows = [x].
Proof.
  destruct rows as [|a [|b l]]; simpl; try discriminate.
  intros [= <-]. reflexivity.
Qed.

Lemma select_tag_In (key : string) (user_id : Z) (db : Db) (g : Tag.t) :
  In g (select_tag key user_id db) ->
  In g (tags db) /\ sql_lower (Tag.name g) = key /\ Tag.user_id g = user_id.
Proof.
  unfold select_tag. rewrite filter_In, andb_true_iff, String.eqb_eq, Z.eqb_eq.
  tauto.
Qed.

Lemma insert_task_tag_inr (task_id tag_id : Z) (db db' : Db) :
  insert_task_tag task_id tag_id db = inr db' ->
  db' = {| tasks := tasks db; tasks_seq := tasks_seq db;
           tags := tags db; tags_seq := tags_seq db;
           task_tags := task_tags db
             ++ [{| TaskTag.task_id := task_id; TaskTag.tag_id := tag_id |}] |}
  /\ ~ In {| TaskTag.task_id := task_id; TaskTag.tag_id := tag_id |}
       (task_tags db).
Proof.
  unfold insert_task_tag.
  destruct (existsb _ (task_tags db)) eqn:E; [discriminate|].
  intros [= <-]. split; [reflexivity|]. intros Hin.
  assert (existsb
            (fun l => (TaskTag.task_id l =? task_id)
                      && (TaskTag.tag_id l =? tag_id)) (task_tags db) = true).
  { apply existsb_exists. eexists. split; [exact Hin|]. simpl.
    rewrite !Z.eqb_refl. reflexivity. }
  congruence.
Qed.

(** What the loop over the tag names does: it leaves the tasks alone,
    appends tags and links, and changes no row that was there. A tag it
    appends is the user's and is named by a requested name in lower case;
    there is one new link for each name, from the task to a tag whose name
    the database lower-cases to that of a requested name. *)
Lemma link_tags_effect (task_id user_id : Z) (names : list string) :
  forall (rnd : list nat) (db db' : Db),
    link_tags task_id user_id names rnd db = inr db' ->
    tasks db' = tasks db /\ tasks_seq db' = tasks_seq db
    /\ exists new_tags new_links,
         tags db' = tags db ++ new_tags
         /\ task_tags db' = task_tags db ++ new_links
         /\ Forall (fun g => Tag.user_id g = user_id
                             /\ exists n, In n names
                                          /\ Tag.name g = Py.lower n)
              new_tags
         /\ Forall (fun l => TaskTag.task_id l = task_id
                             /\ exists g, In g (tags db')
                                  /\ Tag.id g = TaskTag.tag_id l
                                  /\ In (sql_lower (Tag.name g))
                                       (List.map Py.lower names))
              new_links
         /\ length new_links = length names.
Proof.
  induction names as [|n names IH]; intros rnd db db'; simpl.
  - intros [= <-]. repeat split. exists [], []. rewrite !app_nil_r.
    repeat split; constructor.
  - destruct (scalar_one_or_none (select_tag (Py.lower n) user_id db))
      as [e|found] eqn:Es; [discriminate|].
    destruct found as [tag|].
    + (* the tag exists *)
      apply scalar_one_or_none_Some in Es.
      assert (Hg : In tag (select_tag (Py.lower n) user_id db))
        by (rewrite Es; left; reflexivity).
      apply select_tag_In in Hg as (Hin & Hname & _).
      destruct (insert_task_tag task_id (Tag.id tag) db) as [e|db2] eqn:El;
        [discriminate|].
      apply insert_task_tag_inr in El as [-> _].
      intros H. apply IH in H as (Ht & Hs & nt & nl & H1 & H2 & H3 & H4 & H5).
      simpl in *. split; [exact Ht|]. split; [exact Hs|].
      exists nt, ({| TaskTag.task_id := task_id;
                     TaskTag.tag_id := Tag.id tag |} :: nl).
      split; [exact H1|]. split; [rewrite H2, <- app_assoc; reflexivity|].
      split.
      { eapply List.Forall_impl; [|exact H3]. simpl.
        intros g (Hu & m & Hm & Hn). split; [exact Hu|]. exists m. auto. }
      split.
      { constructor.
        - split; [reflexivity|]. exists tag. rewrite H1.
          split; [apply in_or_app; left; exact Hin|].
          split; [reflexivity|]. left. symmetry. exact Hname.
        - eapply List.Forall_impl; [|exact H4]. simpl.
          intros l (Hl & g & Hg1 & Hg2 & Hg3). split; [exact Hl|].
          exists g. auto. }
      simpl. rewrite H5. reflexivity.
    + (* the tag is created *)
      unfold insert_tag.
      set (tag := {| Tag.id := tags_seq db + 1; Tag.name := Py.lower n |}).
      destruct (insert_task_tag task_id (Tag.id tag) _) as [e|db2] eqn:El;
        [discriminate|].
      apply insert_task_tag_inr in El as [-> _].
      intros H. apply IH in H as (Ht & Hs & nt & nl & H1 & H2 & H3 & H4 & H5).
      simpl in *. split; [exact Ht|]. split; [exact Hs|].
      exists (tag :: nt), ({| TaskTag.task_id := task_id;
                              TaskTag.tag_id := Tag.id tag |} :: nl).
      split; [rewrite H1, <- app_assoc; reflexivity|].
      split; [rewrite H2, <- app_assoc; reflexivity|].
      split.
      { constructor.
        - split; [reflexivity|]. exists n. auto.
        - eapply List.Forall_impl; [|exact H3]. simpl.
          intros g (Hu & m & Hm & Hn). split; [exact Hu|]. exists m. auto. }
      split.
      { constructor.
        - split; [reflexivity|]. exists tag. rewrite H1.
          split; [apply in_or_app; left; apply in_or_app; right; left;
                  reflexivity|].
          split; [reflexivity|]. left. simpl. symmetry.
          apply sql_lower_lower.
        - eapply List.Forall_impl; [|exact H4]. simpl.
          intros l (Hl & g & Hg1 & Hg2 & Hg3). split; [exact Hl|].
          exists g. auto. }
      simpl. rewrite H5. reflexivity.
Qed.

Lemma apply_update_inr (task_data : TaskUpdate.t) (now : datetime)
    (row row' : Task.t) :
  apply_update task_data now row = inr row' <->
  ~ nulls_required task_data /\ row' = updated_row task_data now row.
Proof.
  unfold apply_update, updated_row, nulls_required, set_column.
  destruct task_data as [ti de pr co du ta]. simpl.
  destruct ti as [[v1|]|], de as [[v2|]|], pr as [[v3|]|], co as [[v4|]|];
    simpl;
    try (split; [discriminate|intros [Hn _]; exfalso; apply Hn; auto; fail]);
    (split;
     [ intros [= <-]; split;
       [ intros [H|[H|[H|H]]]; discriminate
       | destruct du; reflexivity ]
     | intros [_ ->]; destruct du; reflexivity ]).
Qed.

Lemma apply_update_null (task_data : TaskUpdate.t) (now : datetime)
    (row : Task.t) :
  nulls_required task_data ->
  apply_update task_data now row = inl IntegrityError.
Proof.
  unfold apply_update, set_column, nulls_required.
  destruct task_data as [ti de pr co du ta]. simpl. intros Hn.
  destruct ti as [[v1|]|], de as [[v2|]|], pr as [[v3|]|], co as [[v4|]|];
    simpl; try reflexivity;
    destruct Hn as [H|[H|[H|H]]]; discriminate.
Qed.

Lemma scalar_one_const {A B} (l : list A) (x : A) (y z : B) :
  scalar_one (List.map (fun _ => y) (x :: l)) = inr z -> z = y /\ l = [].
Proof.
  destruct l as [|a l]; simpl; [intros [= <-]; auto|discriminate].
Qed.

(** What a successful [update_task] has done. *)
Lemma update_task_inv (task_id : Z) (task_data : TaskUpdate.t) (user_id : Z)
    (now : datetime) (rnd : list nat) (db db' : Db) (loaded : Loaded) :
  update_task task_id task_data user_id now rnd db = inr (Some loaded, db') ->
  exists row,
    List.filter (fun t => Task.id t =? task_id) (tasks db) = [row]
    /\ Task.user_id row = user_id
    /\ ~ nulls_required task_data
    /\ loaded = (updated_row task_data now row, load_tags task_id db')
    /\ tasks db'
       = List.map
           (fun r => if Task.id r =? task_id
                     then updated_row task_data now row else r)
           (tasks db)
    /\ match TaskUpdate.tags task_data with
       | Some (Some names) =>
           link_tags task_id user_id names rnd
             {| tasks :=
                  List.map
                    (fun r => if Task.id r =? task_id
                              then updated_row task_data now row else r)
                    (tasks db);
                tasks_seq := tasks_seq db; tags := tags db;
                tags_seq := tags_seq db;
                task_tags :=
                  List.filter (fun l => negb (TaskTag.task_id l =? task_id))
                    (task_tags db) |} = inr db'
       | _ =>
           tags db' = tags db /\ tags_seq db' = tags_seq db
           /\ task_tags db' = task_tags db /\ tasks_seq db' = tasks_seq db
       end.
Proof.
  unfold update_task.
  destruct (scalar_one_or_none _) as [e|[task|]] eqn:Es; try discriminate.
  apply scalar_one_or_none_Some in Es.
  assert (Hin : In task
                  (List.filter
                     (fun t => (Task.id t =? task_id)
                               && (Task.user_id t =? user_id)) (tasks db)))
    by (rewrite Es; left; reflexivity).
  apply filter_In in Hin as [Hin Hb]. apply andb_true_iff in Hb as [Hid Hu].
  apply Z.eqb_eq in Hid, Hu.
  destruct (apply_update task_data now task) as [e|task'] eqn:Ea;
    [discriminate|].
  apply apply_update_inr in Ea as [Hnull ->].
  rewrite Hid.
  set (tasks' := List.map _ (tasks db)).
  destruct (match TaskUpdate.tags task_data with
            | Some (Some names) => _
            | _ => inr _
            end) as [e|db3] eqn:El; [discriminate|].
  assert (Ht3 : tasks db3 = tasks').
  { destruct (TaskUpdate.tags task_data) as [[names|]|].
    - apply link_tags_tasks in El as [El _]. exact El.
    - injection El as <-. reflexivity.
    - injection El as <-. reflexivity. }
  unfold reload. rewrite Ht3. unfold tasks'.
  rewrite filter_replace by (simpl; exact Hid).
  destruct (List.filter (fun t => Task.id t =? task_id) (tasks db))
    as [|x l] eqn:Ef.
  { exfalso. assert (In task []); [|contradiction].
    rewrite <- Ef. apply filter_In. split; [exact Hin|]. lia. }
  destruct (scalar_one _) as [e|t] eqn:E1; [discriminate|].
  apply scalar_one_const in E1 as [-> ->].
  assert (x = task).
  { assert (Hx : In task [x]).
    { rewrite <- Ef. apply filter_In. split; [exact Hin|]. lia. }
    destruct Hx as [Hx|[]]. exact Hx. }
  subst x. intros [= <- <-]. exists task.
  split; [reflexivity|]. split; [exact Hu|]. split; [exact Hnull|].
  split; [reflexivity|]. split; [exact Ht3|].
  destruct (TaskUpdate.tags task_data) as [[names|]|].
  - exact El.
  - injection El as <-. simpl. auto.
  - injection El as <-. simpl. auto.
Qed.

(** A successful [update_task] changes the columns the body sets and no
    other: the row returned is the one the task had, with each column the
    body sets to a value holding that value, [updated_at] holding the clock
    reading whatever was set, and [id], [created_at], [user_id] and every
    column the body leaves out as before; no other task changes. *)
Theorem update_task_changes_supplied_only (task_id : Z)
    (task_data : TaskUpdate.t) (user_id : Z) (now : datetime)
    (rnd : list nat) (db db' : Db) (row' : Task.t) (tgs : list Tag.t) :
  update_task task_id task_data user_id now rnd db
  = inr (Some (row', tgs), db') ->
  exists row,
    In row (tasks db) /\ Task.id row = task_id /\ Task.user_id row = user_id
    /\ row' = updated_row task_data now row
    /\ Task.updated_at row' = now
    /\ Task.created_at row' = Task.created_at row
    /\ (TaskUpdate.title task_data = None -> Task.title row' = Task.title row)
    /\ (TaskUpdate.tags task_data = None ->
        tags db' = tags db /\ task_tags db' = task_tags db)
    /\ length (tasks db') = length (tasks db)
    /\ forall t, In t (tasks db) -> Task.id t <> task_id -> In t (tasks db').
Proof.
  intros H. apply update_task_inv in H as (row & Hf & Hu & _ & Hl & Ht & Htags).
  injection Hl as -> ->.
  assert (Hin : In row (List.filter (fun t => Task.id t =? task_id) (tasks db)))
    by (rewrite Hf; left; reflexivity).
  apply filter_In in Hin as [Hin Hid]. apply Z.eqb_eq in Hid.
  exists row. repeat split; auto.
  - intros E. simpl. rewrite E. reflexivity.
  - rewrite H in Htags. apply Htags.
  - rewrite H in Htags. apply Htags.
  - rewrite Ht, length_map. reflexivity.
  - intros t Hti Hne. rewrite Ht. apply in_map_iff. exists t.
    split; [|exact Hti]. destruct (Z.eqb_spec (Task.id t) task_id); congruence.
Qed.

Lemma update_task_changes_supplied_only_witness :
  exists row,
    In row (tasks three_priorities) /\ Task.id row = 2
    /\ Task.user_id row = 1
    /\ updated_row (completed_only true) 50
         {| Task.id := 2; Task.title := "Water plants";
            Task.description := ""; Task.completed := false;
            Task.priority := "medium"; Task.due_date := None;
            Task.created_at := 20; Task.updated_at := 20;
            Task.user_id := 1 |}
       = updated_row (completed_only true) 50 row
    /\ Task.updated_at
         (updated_row (completed_only true) 50
            {| Task.id := 2; Task.title := "Water plants";
               Task.description := ""; Task.completed := false;
               Task.priority := "medium"; Task.due_date := None;
               Task.created_at := 20; Task.updated_at := 20;
               Task.user_id := 1 |}) = 50.
Proof.
  destruct (update_task 2 (completed_only true) 1 50 [] three_priorities)
    as [e|[[[r t]|] d]] eqn:E; try (vm_compute in E; discriminate).
  assert (Hr : r = updated_row (completed_only true) 50
                     {| Task.id := 2; Task.title := "Water plants";
                        Task.description := ""; Task.completed := false;
                        Task.priority := "medium"; Task.due_date := None;
                        Task.created_at := 20; Task.updated_at := 20;
                        Task.user_id := 1 |})
    by (vm_compute in E; injection E as <- _ _; reflexivity).
  destruct (update_task_changes_supplied_only _ _ _ _ _ _ _ _ _ E)
    as (row & H1 & H2 & H3 & H4 & H5 & _).
  exists row. rewrite <- Hr. auto.
Defined.

(** A body that sets [title], [description], [priority] or [completed] to
    null passes the validation of [TaskUpdate], but the update of an existing
    task with it fails with an [IntegrityError] of the database; through the
    endpoint that is an error of the server, not a validation error. *)
Theorem update_task_null_column (task_id : Z) (task_data : TaskUpdate.t)
    (user_id : Z) (now : datetime) (rnd : list nat) (db : Db)
    (row : Task.t) :
  List.filter
    (fun t => (Task.id t =? task_id) && (Task.user_id t =? user_id))
    (tasks db) = [row] ->
  nulls_required task_data ->
  update_task task_id task_data user_id now rnd db = inl IntegrityError.
Proof.
  intros Hf Hn. unfold update_task. rewrite Hf. simpl.
  rewrite (apply_update_null _ _ _ Hn). reflexivity.
Qed.

Lemma update_task_null_column_witness :
  update_task 2
    {| TaskUpdate.title := Some None; TaskUpdate.description := None;
       TaskUpdate.priority := None; TaskUpdate.completed := Some (Some true);
       TaskUpdate.due_date := None; TaskUpdate.tags := None |}
    1 50 [] three_priorities
  = inl IntegrityError.
Proof.
  apply (update_task_null_column 2 _ 1 50 [] three_priorities
           {| Task.id := 2; Task.title := "Water plants";
              Task.description := ""; Task.completed := false;
              Task.priority := "medium"; Task.due_date := None;
              Task.created_at := 20; Task.updated_at := 20;
              Task.user_id := 1 |}).
  - reflexivity.
  - left. reflexivity.
Defined.

(** Through the endpoint: [{"title": null, "completed": true}] is answered
    with an error of the server. *)
Example patch_null_title :
  patch_task 2
    {| TaskUpdate.title := Some None; TaskUpdate.description := None;
       TaskUpdate.priority := None; TaskUpdate.completed := Some (Some true);
       TaskUpdate.due_date := None; TaskUpdate.tags := None |}
    50 [] three_priorities
  = inl (ServerError IntegrityError).
Proof. reflexivity. Qed.

Lemma no_link_after_delete (task_id tag_id : Z) (links : list TaskTag.t) :
  existsb
    (fun l => (TaskTag.task_id l =? task_id) && (TaskTag.tag_id l =? tag_id))
    (List.filter (fun l => negb (TaskTag.task_id l =? task_id)) links)
  = false.
Proof.
  induction links as [|x xs IH]; simpl; [reflexivity|].
  destruct (Z.eqb_spec (TaskTag.task_id x) task_id) as [E|E]; simpl;
    [exact IH|].
  destruct (Z.eqb_spec (TaskTag.task_id x) task_id); [contradiction|].
  simpl. exact IH.
Qed.

Lemma filter_none {A} (f : A -> bool) (l : list A) :
  (forall x, f x = false) -> List.filter f l = [].
Proof.
  intros H. induction l as [|x l IH]; simpl; [reflexivity|].
  rewrite H. exact IH.
Qed.

(** [update_task] with [tags] replaces the tag set of the task: the links of
    the task that were there are removed, and one link is made for each name
    given, to a tag whose name the database lower-cases to that of one of the
    names; the links of the other tasks stay. With an empty list the task
    is left without tags. Without [tags] in the body no link and no tag
    changes. *)
Theorem update_task_replaces_tags (task_id : Z) (task_data : TaskUpdate.t)
    (user_id : Z) (now : datetime) (rnd : list nat) (db db' : Db)
    (loaded : Loaded) :
  update_task task_id task_data user_id now rnd db = inr (Some loaded, db') ->
  match TaskUpdate.tags task_data with
  | Some (Some names) =>
      exists new_links,
        task_tags db'
        = List.filter (fun l => negb (TaskTag.task_id l =? task_id))
            (task_tags db) ++ new_links
        /\ length new_links = length names
        /\ Forall (fun l => TaskTag.task_id l = task_id
                            /\ exists g, In g (tags db')
                                 /\ Tag.id g = TaskTag.tag_id l
                                 /\ In (sql_lower (Tag.name g))
                                      (List.map Py.lower names))
             new_links
        /\ (names = [] -> snd loaded = [])
  | _ => task_tags db' = task_tags db /\ tags db' = tags db
  end.
Proof.
  intros H. apply update_task_inv in H as (row & _ & _ & _ & Hl & _ & Htags).
  destruct (TaskUpdate.tags task_data) as [[names|]|]; try tauto.
  apply link_tags_effect in Htags
    as (_ & _ & nt & nl & H1 & H2 & _ & H4 & H5).
  simpl in *. exists nl. repeat split; auto.
  intros ->. destruct nl; [|discriminate]. rewrite app_nil_r in H2.
  rewrite Hl. simpl. unfold load_tags. rewrite H2.
  apply filter_none. intros g. apply no_link_after_delete.
Qed.

Lemma update_task_replaces_tags_witness :
  exists loaded db',
    update_task 1
      {| TaskUpdate.title := None; TaskUpdate.description := None;
         TaskUpdate.priority := None; TaskUpdate.completed := None;
         TaskUpdate.due_date := None;
         TaskUpdate.tags := Some (Some ["Home"]%string) |}
      1 50 [2%nat] three_priorities = inr (Some loaded, db')
    /\ exists new_links,
         task_tags db'
         = List.filter (fun l => negb (TaskTag.task_id l =? 1))
             (task_tags three_priorities) ++ new_links
         /\ length new_links = length ["Home"%string]
         /\ Forall (fun l => TaskTag.task_id l = 1
                             /\ exists g, In g (tags db')
                                  /\ Tag.id g = TaskTag.tag_id l
                                  /\ In (sql_lower (Tag.name g))
                                       (List.map Py.lower ["Home"%string]))
              new_links
         /\ (["Home"%string] = [] -> snd loaded = []).
Proof.
  destruct (update_task 1
              {| TaskUpdate.title := None; TaskUpdate.description := None;
                 TaskUpdate.priority := None; TaskUpdate.completed := None;
                 TaskUpdate.due_date := None;
                 TaskUpdate.tags := Some (Some ["Home"]%string) |}
              1 50 [2%nat] three_priorities)
    as [e|[[loaded|] d]] eqn:E; try (vm_compute in E; discriminate).
  exists loaded, d. split; [reflexivity|].
  exact (update_task_replaces_tags _ _ _ _ _ _ _ _ E).
Defined.

(** [create_task] and [update_task] never remove or change a tag: the table
    of tags after the call is the table before it, followed by the tags the
    call created, each the user's and named by one of the requested names in
    lower case. *)
Theorem task_calls_keep_tags (task_data : TaskCreate.t) (task_id : Z)
    (update_data : TaskUpdate.t) (user_id : Z)
    (now_created now_updated : datetime) (rnd : list nat) (db db' : Db) :
  (forall loaded,
     create_task task_data user_id now_created now_updated rnd db
     = inr (loaded, db') ->
     exists new_tags,
       tags db' = tags db ++ new_tags
       /\ Forall (fun g => Tag.user_id g = user_id
                           /\ exists n, In n (TaskCreate.tags task_data)
                                        /\ Tag.name g = Py.lower n)
            new_tags)
  /\ (forall result,
        update_task task_id update_data user_id now_updated rnd db
        = inr (result, db') ->
        exists new_tags,
          tags db' = tags db ++ new_tags
          /\ Forall (fun g => Tag.user_id g = user_id
                              /\ exists names n,
                                   TaskUpdate.tags update_data
                                   = Some (Some names)
                                   /\ In n names
                                   /\ Tag.name g = Py.lower n)
               new_tags).
Proof.
  split.
  - intros loaded. unfold create_task.
    set (task := {| Task.id := tasks_seq db + 1 |}).
    set (db1 := {| tasks := tasks db ++ [task] |}).
    destruct (match TaskCreate.tags task_data with
              | [] => inr db1
              | _ :: _ => _
              end) as [e|db2] eqn:E; [discriminate|].
    destruct (reload _ _) as [e|l]; [discriminate|].
    intros [= _ <-].
    destruct (TaskCreate.tags task_data) as [|n names] eqn:En.
    + injection E as <-. exists []. rewrite app_nil_r. split; [reflexivity|].
      constructor.
    + apply link_tags_effect in E as (_ & _ & nt & nl & H1 & _ & H3 & _).
      exists nt. split; [exact H1|exact H3].
  - intros [loaded|] H.
    + apply update_task_inv in H as (row & _ & _ & _ & _ & _ & Htags).
      destruct (TaskUpdate.tags update_data) as [[names|]|] eqn:En.
      * apply link_tags_effect in Htags
          as (_ & _ & nt & nl & H1 & _ & H3 & _).
        exists nt. split; [exact H1|].
        eapply List.Forall_impl; [|exact H3]. simpl.
        intros g (Hu & n & Hn & Hg). split; [exact Hu|]. exists names, n. auto.
      * exists []. rewrite app_nil_r. split; [apply Htags|constructor].
      * exists []. rewrite app_nil_r. split; [apply Htags|constructor].
    + revert H. unfold update_task.
      destruct (scalar_one_or_none _) as [e|[task|]]; try discriminate.
      * destruct (apply_update _ _ _) as [e|t]; [discriminate|].
        destruct (match TaskUpdate.tags update_data with
                  | Some (Some names) => _
                  | _ => inr _
                  end) as [e|d]; [discriminate|].
        destruct (reload _ _); discriminate.
      * intros [= <-]. exists []. rewrite app_nil_r.
        split; [reflexivity|constructor].
Qed.

Lemma task_calls_keep_tags_witness :
  exists new_tags,
    tags (snd (insert_tag "work" (Some "#3B82F6"%string) 1 three_priorities))
    = tags three_priorities ++ new_tags
    /\ Forall (fun g => Tag.user_id g = 1
                        /\ exists n, In n ["Work"%string]
                                     /\ Tag.name g = Py.lower n)
         new_tags.
Proof.
  destruct (create_task
              {| TaskCreate.title := "Plan week"; TaskCreate.description := "";
                 TaskCreate.priority := MEDIUM; TaskCreate.due_date := None;
                 TaskCreate.tags := ["Work"%string] |}
              1 5 5 [0%nat] three_priorities) as [e|[l d]] eqn:E;
    [vm_compute in E; discriminate|].
  assert (Hd : tags d
               = tags (snd (insert_tag "work" (Some "#3B82F6"%string) 1
                              three_priorities)))
    by (vm_compute in E; injection E as _ <-; reflexivity).
  rewrite <- Hd.
  exact (proj1 (task_calls_keep_tags
                  {| TaskCreate.title := "Plan week";
                     TaskCreate.description := "";
                     TaskCreate.priority := MEDIUM;
                     TaskCreate.due_date := None;
                     TaskCreate.tags := ["Work"%string] |}
                  0 (completed_only true) 1 5 5 [0%nat] three_priorities d)
           l E).
Defined.

(** What [POST /tasks] returns is what [GET /tasks/{id}] then returns for the
    identifier of the new task. *)
Theorem get_task_after_post (raw_title : string) (d : option string)
    (p : option PriorityEnum) (due : option datetime)
    (tag_names : option (list string)) (c1 c2 : datetime) (rnd : list nat)
    (db db' : Db) (loaded : Loaded) :
  post_task raw_title d p due tag_names c1 c2 rnd db = inr (loaded, db') ->
  get_task (Task.id (fst loaded)) db' = inr loaded
  /\ Task.id (fst loaded) = tasks_seq db + 1
  /\ tasks_seq db' = tasks_seq db + 1.
Proof.
  unfold post_task.
  destruct (TaskCreate_validate raw_title d p due tag_names) as [e|td];
    [discriminate|].
  destruct (create_task td 1 c1 c2 rnd db) as [e|[l d']] eqn:Ec;
    [discriminate|].
  intros [= <- <-]. pose proof (create_task_row _ _ _ _ _ _ _ _ Ec) as Hrow.
  revert Ec. unfold create_task.
  set (task := {| Task.id := tasks_seq db + 1 |}) in *.
  set (db1 := {| tasks := tasks db ++ [task] |}).
  destruct (match TaskCreate.tags td with
            | [] => inr db1
            | _ :: _ => _
            end) as [e|db2] eqn:E; [discriminate|].
  assert (Hseq : tasks_seq db2 = tasks_seq db + 1).
  { destruct (TaskCreate.tags td).
    - injection E as <-. reflexivity.
    - apply link_tags_tasks in E as [_ E]. exact E. }
  unfold reload.
  destruct (List.filter (fun t => Task.id t =? Task.id task) (tasks db2))
    as [|x [|y l0]] eqn:Ef; simpl; try discriminate.
  intros [= <- <-]. simpl in Hrow. subst x.
  split; [|split; [reflexivity|exact Hseq]].
  unfold get_task, get_task_by_id. simpl.
  rewrite filter_andb. simpl in Ef. rewrite Ef. simpl. reflexivity.
Qed.

Lemma get_task_after_post_witness :
  get_task (Task.id (buy_milk_row 7 8)) (buy_milk_db 7 8)
  = inr (buy_milk_row 7 8, [])
  /\ Task.id (buy_milk_row 7 8) = tasks_seq empty_db + 1
  /\ tasks_seq (buy_milk_db 7 8) = tasks_seq empty_db + 1.
Proof.
  apply (get_task_after_post "Buy milk" None None None None 7 8 [] empty_db
           (buy_milk_db 7 8) (buy_milk_row 7 8, [])).
  vm_compute. reflexivity.
Defined.

(** A task that does not exist for the default user: [GET /tasks/{id}]
    answers 404, and so does [PATCH /tasks/{id}] with a body that passes the
    at-least-one-field check without a null; a body that fails the check is
    answered 422 before the task is looked up. *)
Theorem missing_task_not_found (task_id : Z) (body task_data : TaskUpdate.t)
    (now : datetime) (rnd : list nat) (db : Db) :
  List.filter (fun t => (Task.id t =? task_id) && (Task.user_id t =? 1))
    (tasks db) = [] ->
  TaskUpdate_validate body = inr task_data ->
  get_task task_id db = inl (NotFound task_id)
  /\ (any_values task_data = true ->
      patch_task task_id body now rnd db = inl (NotFound task_id))
  /\ (any_values task_data = false ->
      patch_task task_id body now rnd db = inl AtLeastOneField).
Proof.
  intros Hf Hv. unfold get_task, get_task_by_id, patch_task, update_task.
  rewrite Hf, Hv. simpl. split; [reflexivity|].
  split; intros ->; reflexivity.
Qed.

Lemma missing_task_not_found_witness :
  get_task 999 three_priorities = inl (NotFound 999)
  /\ (any_values (title_only "Updated") = true ->
      patch_task 999 (title_only "Updated") 50 [] three_priorities
      = inl (NotFound 999))
  /\ (any_values (title_only "Updated") = false ->
      patch_task 999 (title_only "Updated") 50 [] three_priorities
      = inl AtLeastOneField).
Proof.
  apply (missing_task_not_found 999 (title_only "Updated")
           (title_only "Updated") 50 [] three_priorities);
    reflexivity.
Defined.

Lemma NoDup_snoc_fresh (ids : list Z) (n : Z) :
  NoDup ids -> Forall (fun i => i <= n) ids -> NoDup (ids ++ [n + 1]).
Proof.
  intros Hnd Hle. apply NoDup_app. split; [exact Hnd|].
  split; [|apply NoDup_singleton].
  intros x Hx Hx'. apply list_elem_of_singleton in Hx'. subst x.
  rewrite List.Forall_forall in Hle. apply list_elem_of_In in Hx.
  specialize (Hle _ Hx). lia.
Qed.

Lemma Forall_le_succ {A} (f : A -> Z) (n : Z) (l : list A) (x : A) :
  Forall (fun a => f a <= n) l -> f x = n + 1 ->
  Forall (fun a => f a <= n + 1) (l ++ [x]).
Proof.
  intros Hl Hx. apply Forall_app. split.
  - eapply List.Forall_impl; [|exact Hl]. simpl. intros. lia.
  - constructor; [lia|constructor].
Qed.

Lemma Forall_map_le {A} (f : A -> Z) (n : Z) (l : list A) :
  Forall (fun a => f a <= n) l -> Forall (fun i => i <= n) (List.map f l).
Proof. induction 1; simpl; constructor; auto. Qed.

Lemma insert_tag_ok (name : string) (color : option string) (user_id : Z)
    (db : Db) :
  db_ok db -> db_ok (snd (insert_tag name color user_id db)).
Proof.
  intros (H1 & H2 & H3 & H4 & H5). unfold insert_tag, db_ok. simpl.
  repeat split; auto.
  - rewrite map_app. simpl. apply NoDup_snoc_fresh; [exact H3|].
    apply Forall_map_le, H4.
  - apply (Forall_le_succ Tag.id); [exact H4|reflexivity].
Qed.

Lemma insert_task_tag_ok (task_id tag_id : Z) (db db' : Db) :
  db_ok db -> insert_task_tag task_id tag_id db = inr db' -> db_ok db'.
Proof.
  intros (H1 & H2 & H3 & H4 & H5) H.
  apply insert_task_tag_inr in H as [-> Hnew]. unfold db_ok. simpl.
  repeat split; auto.
  apply NoDup_app. split; [exact H5|]. split; [|apply NoDup_singleton].
  intros x Hx Hx'. apply list_elem_of_singleton in Hx'. subst x.
  apply list_elem_of_In in Hx. contradiction.
Qed.

Lemma link_tags_ok (task_id user_id : Z) (names : list string) :
  forall (rnd : list nat) (db db' : Db),
    db_ok db -> link_tags task_id user_id names rnd db = inr db' -> db_ok db'.
Proof.
  induction names as [|n names IH]; intros rnd db db' Hok; simpl.
  - intros [= <-]. exact Hok.
  - destruct (scalar_one_or_none (select_tag (Py.lower n) user_id db))
      as [e|[tag|]]; [discriminate| |].
    + destruct (insert_task_tag task_id (Tag.id tag) db) as [e|db2] eqn:El;
        [discriminate|].
      apply IH. exact (insert_task_tag_ok _ _ _ _ Hok El).
    + pose proof (insert_tag_ok (Py.lower n)
                    (Some (random_choice (hd 0%nat rnd))) user_id db Hok)
        as Hok1.
      unfold insert_tag in *. simpl in Hok1.
      match goal with
      | |- context [insert_task_tag ?a ?b ?d] =>
          destruct (insert_task_tag a b d) as [e|db2] eqn:El
      end; [discriminate|].
      apply IH. exact (insert_task_tag_ok _ _ _ _ Hok1 El).
Qed.

Lemma map_id_replace (task_id : Z) (t' : Task.t) (l : list Task.t) :
  Task.id t' = task_id ->
  List.map Task.id
    (List.map (fun r => if Task.id r =? task_id then t' else r) l)
  = List.map Task.id l.
Proof.
  intros Hid. induction l as [|x l IH]; simpl; [reflexivity|].
  rewrite IH. destruct (Z.eqb_spec (Task.id x) task_id); congruence.
Qed.

(** The primary keys stay unique: the empty database has no identifier
    twice, and a successful [create_task], [update_task] or [create_tag]
    leaves no identifier twice in [tasks] or in [tags], none above its
    sequence, and no (task, tag) pair twice in [task_tags]. *)
Theorem db_keys_stay_unique (db db' : Db) :
  db_ok empty_db
  /\ (db_ok db ->
      (forall task_data user_id c1 c2 rnd loaded,
         create_task task_data user_id c1 c2 rnd db = inr (loaded, db') ->
         db_ok db')
      /\ (forall task_id task_data user_id now rnd result,
            update_task task_id task_data user_id now rnd db
            = inr (result, db') ->
            db_ok db')
      /\ (forall name color user_id rnd tag,
            create_tag name color user_id rnd db = inr (tag, db') ->
            db_ok db')).
Proof.
  split.
  { unfold db_ok, empty_db. simpl. repeat split; constructor. }
  intros Hok. split; [|split].
  - intros task_data user_id c1 c2 rnd loaded. unfold create_task.
    set (task := {| Task.id := tasks_seq db + 1 |}).
    set (db1 := {| tasks := tasks db ++ [task] |}).
    assert (Hok1 : db_ok db1).
    { destruct Hok as (H1 & H2 & H3 & H4 & H5). unfold db_ok, db1. simpl.
      repeat split; auto.
      - rewrite map_app. simpl. apply NoDup_snoc_fresh; [exact H1|].
        apply Forall_map_le, H2.
      - apply (Forall_le_succ Task.id); [exact H2|reflexivity]. }
    destruct (match TaskCreate.tags task_data with
              | [] => inr db1
              | _ :: _ => _
              end) as [e|db2] eqn:E; [discriminate|].
    destruct (reload _ _) as [e|l]; [discriminate|].
    intros [= _ <-].
    destruct (TaskCreate.tags task_data).
    + injection E as <-. exact Hok1.
    + exact (link_tags_ok _ _ _ _ _ _ Hok1 E).
  - intros task_id task_data user_id now rnd [loaded|] H.
    + apply update_task_inv in H as (row & Hf & _ & _ & _ & Ht & Htags).
      assert (Hid : Task.id row = task_id).
      { assert (Hin : In row (List.filter (fun t => Task.id t =? task_id)
                                (tasks db)))
          by (rewrite Hf; left; reflexivity).
        apply filter_In in Hin as [_ Hin]. lia. }
      destruct Hok as (H1 & H2 & H3 & H4 & H5).
      assert (Hids : List.map Task.id
                       (List.map
                          (fun r => if Task.id r =? task_id
                                    then updated_row task_data now row else r)
                          (tasks db)) = List.map Task.id (tasks db))
        by (apply map_id_replace; exact Hid).
      assert (Hle : Forall (fun t => Task.id t <= tasks_seq db)
                      (List.map
                         (fun r => if Task.id r =? task_id
                                   then updated_row task_data now row else r)
                         (tasks db))).
      { rewrite List.Forall_forall in *. intros t Hin.
        apply in_map_iff in Hin as (r & <- & Hr). specialize (H2 _ Hr).
        destruct (Z.eqb_spec (Task.id r) task_id); simpl; [lia|exact H2]. }
      destruct (TaskUpdate.tags task_data) as [[names|]|].
      * refine (link_tags_ok _ _ _ _ _ _ _ Htags).
        unfold db_ok. simpl. rewrite Hids. repeat split; auto.
        apply NoDup_ListNoDup, List.NoDup_filter, NoDup_ListNoDup, H5.
      * destruct Htags as (E1 & E2 & E3 & E4). unfold db_ok.
        rewrite Ht, E1, E2, E3, E4, Hids. repeat split; auto.
      * destruct Htags as (E1 & E2 & E3 & E4). unfold db_ok.
        rewrite Ht, E1, E2, E3, E4, Hids. repeat split; auto.
    + revert H. unfold update_task.
      destruct (scalar_one_or_none _) as [e|[task|]]; try discriminate.
      * destruct (apply_update _ _ _) as [e|t]; [discriminate|].
        destruct (match TaskUpdate.tags task_data with
                  | Some (Some names) => _
                  | _ => inr _
                  end) as [e|d]; [discriminate|].
        destruct (reload _ _); discriminate.
      * intros [= <-]. exact Hok.
  - intros name color user_id rnd tag. unfold create_tag.
    destruct (scalar_one_or_none _) as [e|[existing|]]; [discriminate| |].
    + intros [= _ <-]. exact Hok.
    + intros H.
      match type of H with
      | inr (insert_tag ?n ?c ?u ?d) = _ =>
          pose proof (insert_tag_ok n c u d Hok) as Hok1;
          assert (Hp : insert_tag n c u d = (tag, db')) by congruence
      end.
      rewrite Hp in Hok1. exact Hok1.
Qed.

Lemma db_keys_stay_unique_witness : db_ok (buy_milk_db 7 8).
Proof.
  apply (proj1 (proj2 (db_keys_stay_unique empty_db (buy_milk_db 7 8))
                  (proj1 (db_keys_stay_unique empty_db empty_db)))
           {| TaskCreate.title := "Buy milk"; TaskCreate.description := "";
              TaskCreate.priority := MEDIUM; TaskCreate.due_date := None;
              TaskCreate.tags := [] |} 1 7 8 [] (buy_milk_row 7 8, [])).
  vm_compute. reflexivity.
Defined.

Lemma insert_by_name_perm (x : Tag.t) (l : list Tag.t) :
  Permutation (insert_by_name x l) (x :: l).
Proof.
  induction l as [|y l IH]; simpl; [reflexivity|].
  destruct (String.leb _ _); [reflexivity|].
  rewrite IH. apply perm_swap.
Qed.

Lemma insert_by_name_Sorted (x : Tag.t) (l : list Tag.t) :
  Sorted (fun a b => String.leb (Tag.name a) (Tag.name b) = true) l ->
  Sorted (fun a b => String.leb (Tag.name a) (Tag.name b) = true)
    (insert_by_name x l).
Proof.
  induction 1 as [|y l Hs IH Hhd]; simpl; [repeat constructor|].
  destruct (String.leb (Tag.name x) (Tag.name y)) eqn:E.
  - constructor; [constructor; assumption|]. constructor. exact E.
  - constructor; [exact IH|].
    assert (Hyx : String.leb (Tag.name y) (Tag.name x) = true)
      by (destruct (String.leb_total (Tag.name x) (Tag.name y)); congruence).
    destruct l as [|z l]; simpl.
    + constructor. exact Hyx.
    + destruct (String.leb (Tag.name x) (Tag.name z)).
      * constructor. exact Hyx.
      * inversion Hhd. constructor. assumption.
Qed.

(** [list_tags] returns the tags of the user, each once as in the table, in
    the ascending order of their names. *)
Theorem list_tags_sorted (user_id : Z) (db : Db) :
  Permutation (list_tags user_id db)
    (List.filter (fun g => Tag.user_id g =? user_id) (tags db))
  /\ (forall g, In g (list_tags user_id db)
                <-> In g (tags db) /\ Tag.user_id g = user_id)
  /\ StronglySorted
       (fun a b => String.leb (Tag.name a) (Tag.name b) = true)
       (list_tags user_id db).
Proof.
  assert (Hp : Permutation (list_tags user_id db)
                 (List.filter (fun g => Tag.user_id g =? user_id) (tags db))).
  { unfold list_tags.
    induction (List.filter _ (tags db)) as [|x l IH]; simpl; [reflexivity|].
    rewrite insert_by_name_perm. constructor. exact IH. }
  split; [exact Hp|]. split.
  - intros g. split.
    + intros Hin. apply (Permutation_in _ Hp) in Hin.
      apply filter_In in Hin as [? Hu]. split; [assumption|lia].
    + intros [Hin Hu]. apply (Permutation_in _ (Permutation_sym Hp)).
      apply filter_In. split; [exact Hin|lia].
  - assert (Hs : forall l,
               Sorted
                 (fun a b => String.leb (Tag.name a) (Tag.name b) = true)
                 (fold_right insert_by_name [] l)).
    { induction l as [|x l IH]; simpl; [constructor|].
      apply insert_by_name_Sorted, IH. }
    specialize (Hs (List.filter (fun g => Tag.user_id g =? user_id) (tags db))).
    revert Hs. apply Sorted_StronglySorted.
    intros a b c. apply string_leb_trans.
Qed.

End Phase2Tags.
